(** * JobScraperSeek: the record model, the JSON store, the Seek crawler,
      the configuration and the endpoints that read the store

    A shallow embedding of [src/models/job.py], [src/storage/json_storage.py],
    [src/scraper/seek_scraper.py], [src/utils/config_loader.py] and the
    endpoints of [src/api/app.py] that read the store.  Python code that
    reads the clock, writes files, drives the browser page or logs is
    written in a small state-and-exception monad; pure helpers are plain
    functions. *)

From Stdlib Require Import ZArith String Ascii List Bool Lia DecimalString Sorted.
From stdpp Require Import base gmap strings list fin_maps.

(** ** Exceptions and results *)

(** The exception classes the modelled code can meet.  [PlaywrightTimeout]
    is the class caught by name in [_scrape_page]; every class below is a
    subclass of Python's [Exception]. *)
Inductive exn : Type :=
  | PlaywrightTimeout
  | PlaywrightError (msg : string)
  | TypeError
  | ValueError
  | OverflowError.

Inductive result (A : Type) : Type :=
  | Ok (a : A)
  | Raise (e : exn).
Arguments Ok {A} a.
Arguments Raise {A} e.

(** ** Log records *)

Inductive level : Type := DEBUG | INFO | WARNING | ERROR.

(** One constructor per [logger] call of the sources; the arguments are the
    values interpolated into the message. *)
Inductive message : Type :=
  (* json_storage.py *)
  | SavedJobs (new total : nat)
  | UpdatedSeenJobs (tracked : nat)
  | CleanedUp (removed : Z) (days : Z)
  | NothingToCleanUp (days : Z)
  (* seek_scraper.py *)
  | StartingScraper
  | UsingSubclassificationFilter (num_subcats : nat)
  | NoSubclassificationFilter (num_excluded : nat)
  | ExcludingCompanies (num : nat)
  | NavigatingTo (url : string)
  | ScrapingPage (page_num : Z)
  | FoundJobsOnPage (found : nat) (page_num : Z)
  | NoMorePages
  | TotalJobsScraped (total : nat)
  | TimeoutWaitingForListings
  | FoundJobCards (cards : nat)
  | ExcludedJob (job_title job_subcategory : string)
  | ErrorExtractingJobData (e : exn)
  | NoTitleElement
  | NoHref (job_title : string)
  | ErrorParsingJobCard (e : exn)
  | ExcludedBySubcategory (excluded job_title : string)
  | ExcludedByKeyword (job_title job_company : string)
  | ExcludedByCompany (excluded_company job_title job_company : string)
  | TryingSelector (selector : string)
  | FoundNextButton (selector : string)
  | ButtonVisible (is_visible : bool)
  | ClickingNextPage
  | NoNextButton
  | ErrorNavigating (e : exn).

Definition log_record : Type := level * message.

(** ** The world and the monad *)

(** What a run can observe and change: a device [D] (the two JSON files for
    the store, the browser page for the crawler), the wall clock and the log.
    [clock n] is what the [n]-th call of [datetime.now()] returns, in
    microseconds since 0001-01-01T00:00:00; [ticks] counts the calls made. *)
Record world (D : Type) : Type := World {
  dev : D;
  clock : nat -> Z;
  ticks : nat;
  log : list log_record
}.
Arguments World {D} dev clock ticks log.
Arguments dev {D} w.
Arguments clock {D} w n.
Arguments ticks {D} w.
Arguments log {D} w.

Definition M (D A : Type) : Type := world D -> result A * world D.

Definition ret {D A} (a : A) : M D A := fun w => (Ok a, w).

Definition raise {D A} (e : exn) : M D A := fun w => (Raise e, w).

Definition bind {D A B} (m : M D A) (k : A -> M D B) : M D B :=
  fun w =>
    match m w with
    | (Ok a, w') => k a w'
    | (Raise e, w') => (Raise e, w')
    end.

Declare Scope py_scope.
Delimit Scope py_scope with py.
Notation "x <- c1 ;; c2" := (bind c1 (fun x => c2))
  (at level 100, c1 at next level, right associativity) : py_scope.
Notation "c1 ;; c2" := (bind c1 (fun _ => c2))
  (at level 100, right associativity) : py_scope.
Local Open Scope py_scope.

(** A pure computation that may raise. *)
Definition lift {D A} (r : result A) : M D A := fun w => (r, w).

Definition get_dev {D} : M D D := fun w => (Ok (dev w), w).

(** The world with its device replaced, and with one more log record. *)
Definition set_dev {D} (w : world D) (d : D) : world D :=
  World d (clock w) (ticks w) (log w).

Definition logged {D} (w : world D) (l : level) (m : message) : world D :=
  World (dev w) (clock w) (ticks w) (log w ++ [(l, m)]).

Definition put_dev {D} (d : D) : M D unit :=
  fun w => (Ok tt, set_dev w d).

(** [datetime.now()] *)
Definition now {D} : M D Z :=
  fun w => (Ok (clock w (ticks w)), World (dev w) (clock w) (S (ticks w)) (log w)).

(** [logger.debug/info/warning/error(...)] *)
Definition logger {D} (l : level) (m : message) : M D unit :=
  fun w => (Ok tt, logged w l m).

(** [try: body  except Exception as e: handler e] *)
Definition try_except {D A} (body : M D A) (handler : exn -> M D A) : M D A :=
  fun w =>
    match body w with
    | (Ok a, w') => (Ok a, w')
    | (Raise e, w') => handler e w'
    end.

(** [try: body  except PlaywrightTimeout: handler]; other classes propagate. *)
Definition try_except_timeout {D A} (body : M D A) (handler : M D A) : M D A :=
  try_except body
    (fun e => match e with PlaywrightTimeout => handler | _ => raise e end).

(** [try: body  finally: final] *)
Definition try_finally {D A} (body : M D A) (final : M D unit) : M D A :=
  fun w =>
    match body w with
    | (r, w') =>
        match final w' with
        | (Ok _, w'') => (r, w'')
        | (Raise e, w'') => (Raise e, w'')
        end
    end.

(** [[f(x) for x in xs]], evaluated left to right. *)
Fixpoint map_m {D A B} (f : A -> M D B) (xs : list A) : M D (list B) :=
  match xs with
  | [] => ret []
  | x :: xs' => y <- f x ;; ys <- map_m f xs' ;; ret (y :: ys)
  end.

(** ** Naive datetimes

    A naive [datetime] is its count of microseconds since
    0001-01-01T00:00:00.  Comparison of naive datetimes is comparison of
    these counts. *)

Definition us_per_day : Z := 86400000000.

(** [datetime.max], 9999-12-31T23:59:59.999999 *)
Definition datetime_max : Z := 3652059 * us_per_day - 1.

(** [timedelta(days=d)], in microseconds; the constructor refuses magnitudes
    above 999999999 days. *)
Definition timedelta_days (d : Z) : result Z :=
  if (Z.abs d <=? 999999999)%Z then Ok (d * us_per_day)%Z else Raise OverflowError.

(** [t - td]: the difference, refused outside the years 1..9999. *)
Definition datetime_sub (t td : Z) : result Z :=
  let r := (t - td)%Z in
  if ((0 <=? r) && (r <=? datetime_max))%Z then Ok r else Raise OverflowError.

(** *** [datetime.isoformat()]

    The proleptic Gregorian arithmetic of the standard library
    ([_ord2ymd], [_ymd2ord]) and the text [YYYY-MM-DDTHH:MM:SS[.ffffff]]. *)

Definition is_leap (year : Z) : bool :=
  ((year mod 4 =? 0) && (negb (year mod 100 =? 0) || (year mod 400 =? 0)))%Z.

Definition days_before_year (year : Z) : Z :=
  let y := (year - 1)%Z in (y * 365 + y / 4 - y / 100 + y / 400)%Z.

Definition days_in_month_table : list Z :=
  [31; 28; 31; 30; 31; 30; 31; 31; 30; 31; 30; 31]%Z.

Definition days_before_month_table : list Z :=
  [0; 31; 59; 90; 120; 151; 181; 212; 243; 273; 304; 334]%Z.

Definition days_in_month (year month : Z) : Z :=
  if ((month =? 2) && is_leap year)%Z then 29%Z
  else nth (Z.to_nat (month - 1)) days_in_month_table 0%Z.

Definition days_before_month (year month : Z) : Z :=
  (nth (Z.to_nat (month - 1)) days_before_month_table 0
   + (if (2 <? month) && is_leap year then 1 else 0))%Z.

Definition ymd2ord (year month day : Z) : Z :=
  (days_before_year year + days_before_month year month + day)%Z.

Definition ord2ymd (ordinal : Z) : Z * Z * Z :=
  let n := (ordinal - 1)%Z in
  let n400 := (n / 146097)%Z in
  let n := (n mod 146097)%Z in
  let n100 := (n / 36524)%Z in
  let n := (n mod 36524)%Z in
  let n4 := (n / 1461)%Z in
  let n := (n mod 1461)%Z in
  let n1 := (n / 365)%Z in
  let n := (n mod 365)%Z in
  let year := (n400 * 400 + 1 + n100 * 100 + n4 * 4 + n1)%Z in
  if ((n1 =? 4) || (n100 =? 4))%Z then ((year - 1)%Z, 12%Z, 31%Z)
  else
    let leapyear := ((n1 =? 3) && (negb (n4 =? 24) || (n100 =? 3)))%Z in
    let month := Z.shiftr (n + 50) 5 in
    let preceding :=
      (nth (Z.to_nat (month - 1)) days_before_month_table 0
       + (if (2 <? month) && leapyear then 1 else 0))%Z in
    if (n <? preceding)%Z then
      let month := (month - 1)%Z in
      let preceding :=
        (preceding
         - (nth (Z.to_nat (month - 1)) days_in_month_table 0
            + (if (month =? 2) && leapyear then 1 else 0)))%Z in
      (year, month, (n - preceding + 1)%Z)
    else (year, month, (n - preceding + 1)%Z).

Definition digit_char (d : Z) : ascii :=
  ascii_of_nat (48 + Z.to_nat d).

(** [n] written with exactly [width] decimal digits (the ["%0wd"] format for
    numbers that fit). *)
Fixpoint zero_padded (width : nat) (n : Z) : string :=
  match width with
  | O => EmptyString
  | S w => zero_padded w (n / 10) +:+ String (digit_char (n mod 10)) EmptyString
  end.

Definition isoformat (t : Z) : string :=
  let '(y, m, d) := ord2ymd (t / us_per_day + 1) in
  let r := (t mod us_per_day)%Z in
  let hh := (r / 3600000000)%Z in
  let mm := (r / 60000000 mod 60)%Z in
  let ss := (r / 1000000 mod 60)%Z in
  let us := (r mod 1000000)%Z in
  zero_padded 4 y +:+ "-" +:+ zero_padded 2 m +:+ "-" +:+ zero_padded 2 d
  +:+ "T" +:+ zero_padded 2 hh +:+ ":" +:+ zero_padded 2 mm
  +:+ ":" +:+ zero_padded 2 ss
  +:+ (if (us =? 0)%Z then EmptyString else "." +:+ zero_padded 6 us).

(** *** Reading the canonical text back

    [datetime.fromisoformat] accepts more spellings in later interpreter
    versions; the functions of the store take the parser as a parameter.
    [fromisoformat_canonical] reads the two spellings [isoformat] writes and
    is what the examples on concrete files use. *)

Definition digit_value (c : ascii) : option Z :=
  let n := nat_of_ascii c in
  if (48 <=? n)%nat && (n <=? 57)%nat then Some (Z.of_nat (n - 48)) else None.

Fixpoint parse_digits_from (acc : Z) (s : string) : option Z :=
  match s with
  | EmptyString => Some acc
  | String c s' =>
      match digit_value c with
      | Some d => parse_digits_from (acc * 10 + d) s'
      | None => None
      end
  end.

Definition parse_digits (s : string) : option Z := parse_digits_from 0 s.

Definition fromisoformat_canonical (s : string) : option Z :=
  let len := String.length s in
  if negb ((len =? 19)%nat || (len =? 26)%nat) then None else
  if negb (String.eqb (substring 4 1 s) "-" && String.eqb (substring 7 1 s) "-"
           && String.eqb (substring 10 1 s) "T" && String.eqb (substring 13 1 s) ":"
           && String.eqb (substring 16 1 s) ":"
           && ((len =? 19)%nat || String.eqb (substring 19 1 s) "."))
  then None else
  match parse_digits (substring 0 4 s), parse_digits (substring 5 2 s),
        parse_digits (substring 8 2 s), parse_digits (substring 11 2 s),
        parse_digits (substring 14 2 s), parse_digits (substring 17 2 s),
        parse_digits (substring 20 6 s) with
  | Some y, Some m, Some d, Some hh, Some mm, Some ss, Some us =>
      if ((1 <=? y) && (1 <=? m) && (m <=? 12) && (1 <=? d)
          && (d <=? days_in_month y m) && (hh <? 24) && (mm <? 60) && (ss <? 60))%Z
      then Some ((ymd2ord y m d - 1) * us_per_day
                 + hh * 3600000000 + mm * 60000000 + ss * 1000000 + us)%Z
      else None
  | _, _, _, _, _, _, _ => None
  end.

(** ** The record model ([src/models/job.py]) *)

(** The dataclass [Job], with the annotated type of every field.
    [scraped_at] is a [str] once [__post_init__] has run. *)
Record Job : Type := mkJob {
  title : string;
  company : string;
  location : string;
  classification : string;
  subcategory : string;
  job_url : string;
  posted_date : option string;
  salary : option string;
  job_type : option string;
  description : option string;
  scraped_at : string
}.

(** [Job(...)]: the generated [__init__] followed by [__post_init__], which
    stamps [scraped_at] with the current time when none was given. *)
Definition Job_init {D} (a_title a_company a_location a_classification
    a_subcategory a_job_url : string)
    (a_posted_date a_salary a_job_type a_description a_scraped_at : option string)
    : M D Job :=
  match a_scraped_at with
  | Some s =>
      ret (mkJob a_title a_company a_location a_classification a_subcategory
             a_job_url a_posted_date a_salary a_job_type a_description s)
  | None =>
      t <- now ;;
      ret (mkJob a_title a_company a_location a_classification a_subcategory
             a_job_url a_posted_date a_salary a_job_type a_description
             (isoformat t))
  end.

(** The values a field holds in a dictionary or in the JSON file. *)
Inductive pyval : Type :=
  | PyNone
  | PyStr (s : string).

Definition opt_val (o : option string) : pyval :=
  match o with Some s => PyStr s | None => PyNone end.

(** [Job.to_dict]: [asdict(self)] *)
Definition to_dict (job : Job) : gmap string pyval :=
  list_to_map
    [ ("title", PyStr (title job));
      ("company", PyStr (company job));
      ("location", PyStr (location job));
      ("classification", PyStr (classification job));
      ("subcategory", PyStr (subcategory job));
      ("job_url", PyStr (job_url job));
      ("posted_date", opt_val (posted_date job));
      ("salary", opt_val (salary job));
      ("job_type", opt_val (job_type job));
      ("description", opt_val (description job));
      ("scraped_at", PyStr (scraped_at job)) ].

Definition Job_field_names : list string :=
  [ "title"; "company"; "location"; "classification"; "subcategory";
    "job_url"; "posted_date"; "salary"; "job_type"; "description";
    "scraped_at" ].

(** A positional-or-keyword parameter without default: absent from the call
    it is a [TypeError].  The dataclass does not check annotations, so a
    dictionary binding such a field to [None] builds in Python an object that
    has no counterpart in the typed record; the model refuses it the same
    way. *)
Definition required_arg (data : gmap string pyval) (key : string) : result string :=
  match data !! key with
  | Some (PyStr s) => Ok s
  | _ => Raise TypeError
  end.

(** A parameter with default [None]. *)
Definition optional_arg (data : gmap string pyval) (key : string) : option string :=
  match data !! key with
  | Some (PyStr s) => Some s
  | _ => None
  end.

(** [Job.from_dict]: the class called with the entries of [data] as keyword
    arguments; a key that names no field is a [TypeError] (unexpected keyword
    argument). *)
Definition from_dict {D} (data : gmap string pyval) : M D Job :=
  if forallb (fun key => bool_decide (key ∈ Job_field_names)) (map fst (map_to_list data))
  then
    a_title <- lift (required_arg data "title") ;;
    a_company <- lift (required_arg data "company") ;;
    a_location <- lift (required_arg data "location") ;;
    a_classification <- lift (required_arg data "classification") ;;
    a_subcategory <- lift (required_arg data "subcategory") ;;
    a_job_url <- lift (required_arg data "job_url") ;;
    Job_init a_title a_company a_location a_classification a_subcategory
      a_job_url (optional_arg data "posted_date") (optional_arg data "salary")
      (optional_arg data "job_type") (optional_arg data "description")
      (optional_arg data "scraped_at")
  else raise TypeError.

(** [Job.job_id], [Job.__eq__] and [Job.__hash__] are read by neither the
    store nor the crawler; they follow further down, in front of the
    endpoints that read [job_id]. *)

(** ** The JSON store ([src/storage/json_storage.py]) *)

(** The two files of a [JSONStorage]: [None] when the path does not exist,
    otherwise the parsed JSON document. *)
Record files : Type := mkFiles {
  output_file : option (list (gmap string pyval));
  seen_file : option (gmap string string)
}.

Section JSONStorage.

(** [self.retention_days] *)
Variable retention_days : Z.

(** [datetime.fromisoformat], [None] where Python raises: [ValueError]
    from the parser, or [TypeError] from the comparison with a naive
    cutoff when the text carries a UTC offset.  No handler of the store
    tells the two apart; the model raises [ValueError]. *)
Variable fromisoformat : string -> option Z.

(** [JSONStorage.load] *)
Definition load : M files (list Job) :=
  fs <- get_dev ;;
  match output_file fs with
  | None => ret []
  | Some jobs_data => map_m from_dict jobs_data
  end.

(** [JSONStorage._load_seen_jobs] *)
Definition _load_seen_jobs : M files (gmap string string) :=
  fs <- get_dev ;;
  match seen_file fs with
  | None => ret ∅
  | Some seen_jobs => ret seen_jobs
  end.

(** [JSONStorage.exists]: [job.job_url in seen_jobs] *)
Definition exists_ (job : Job) : M files bool :=
  seen_jobs <- _load_seen_jobs ;;
  ret (bool_decide (is_Some (seen_jobs !! job_url job))).

(** [for job in jobs: seen_jobs[job.job_url] = current_time] *)
Definition mark_all (current_time : string) (jobs : list Job)
    (seen_jobs : gmap string string) : gmap string string :=
  foldl (fun seen job => <[job_url job := current_time]> seen) seen_jobs jobs.

(** [datetime.fromisoformat(timestamp) > cutoff_date] *)
Definition newer_than (cutoff_date : Z) (timestamp : string) : result bool :=
  match fromisoformat timestamp with
  | Some t => Ok (cutoff_date <? t)%Z
  | None => Raise ValueError
  end.

Definition is_newer (cutoff_date : Z) (timestamp : string) : bool :=
  match newer_than cutoff_date timestamp with Ok b => b | Raise _ => false end.

(** The dictionary comprehension of [_update_seen_jobs]: it raises as soon
    as one timestamp cannot be read, and otherwise keeps the entries newer
    than the cutoff. *)
Definition retain_recent (cutoff_date : Z) (seen_jobs : gmap string string)
    : result (gmap string string) :=
  if bool_decide (map_Forall (fun _ ts => is_Some (fromisoformat ts)) seen_jobs)
  then Ok (filter (fun kv => is_newer cutoff_date kv.2 = true) seen_jobs)
  else Raise ValueError.

(** [t - timedelta(days=self.retention_days)] *)
Definition cutoff_from (t : Z) : result Z :=
  match timedelta_days retention_days with
  | Ok td => datetime_sub t td
  | Raise e => Raise e
  end.

(** [datetime.now() - timedelta(days=self.retention_days)] *)
Definition cutoff : M files Z :=
  t <- now ;;
  lift (cutoff_from t).

(** [JSONStorage._update_seen_jobs] *)
Definition _update_seen_jobs (jobs : list Job) : M files unit :=
  seen_jobs <- _load_seen_jobs ;;
  t <- now ;;
  let current_time := isoformat t in
  let seen_jobs := mark_all current_time jobs seen_jobs in
  cutoff_date <- cutoff ;;
  seen_jobs <- lift (retain_recent cutoff_date seen_jobs) ;;
  fs <- get_dev ;;
  put_dev (mkFiles (output_file fs) (Some seen_jobs)) ;;
  logger DEBUG (UpdatedSeenJobs (size seen_jobs)).

(** [JSONStorage.save] *)
Definition save (jobs : list Job) : M files unit :=
  existing_jobs <- load ;;
  let all_jobs := existing_jobs ++ jobs in
  let jobs_data := map to_dict all_jobs in
  fs <- get_dev ;;
  put_dev (mkFiles (Some jobs_data) (seen_file fs)) ;;
  logger INFO (SavedJobs (length jobs) (length all_jobs)) ;;
  _update_seen_jobs jobs.

(** The list comprehension of [cleanup_old_jobs], left to right. *)
Fixpoint recent_only (cutoff_date : Z) (jobs : list Job) : result (list Job) :=
  match jobs with
  | [] => Ok []
  | job :: rest =>
      match newer_than cutoff_date (scraped_at job) with
      | Raise e => Raise e
      | Ok keep =>
          match recent_only cutoff_date rest with
          | Raise e => Raise e
          | Ok kept => Ok (if keep then job :: kept else kept)
          end
      end
  end.

(** [JSONStorage.cleanup_old_jobs] *)
Definition cleanup_old_jobs : M files Z :=
  jobs <- load ;;
  match jobs with
  | [] => ret 0%Z
  | _ =>
      cutoff_date <- cutoff ;;
      let original_count := Z.of_nat (length jobs) in
      recent_jobs <- lift (recent_only cutoff_date jobs) ;;
      let removed_count := (original_count - Z.of_nat (length recent_jobs))%Z in
      (if (0 <? removed_count)%Z
       then save recent_jobs ;;
            logger INFO (CleanedUp removed_count retention_days)
       else logger INFO (NothingToCleanUp retention_days)) ;;
      ret removed_count
  end.

End JSONStorage.

(** ** Text helpers *)

(** [needle in haystack] on [str] *)
Fixpoint contains (needle haystack : string) : bool :=
  if String.prefix needle haystack then true
  else
    match haystack with
    | EmptyString => false
    | String _ rest => contains needle rest
    end.

Definition dquote : string := String (ascii_of_nat 34) EmptyString.

Definition quoted (s : string) : string := dquote +:+ s +:+ dquote.

(** [str(n)] for an [int] *)
Definition str_of_int (n : Z) : string :=
  DecimalString.NilZero.string_of_int (Z.to_int n).

(** [len(s.split(','))]: one more than the number of commas *)
Fixpoint count_fields (s : string) : nat :=
  match s with
  | EmptyString => 1
  | String c rest =>
      if Ascii.eqb c (ascii_of_nat 44) then S (count_fields rest) else count_fields rest
  end.

(** The truth value of an [Optional[str]] *)
Definition truthy (o : option string) : bool :=
  match o with
  | None => false
  | Some s => negb (String.eqb s EmptyString)
  end.

(** ** The crawler ([src/scraper/seek_scraper.py]) *)

Inductive browser : Type := Firefox | Webkit | Chromium.

(** The browser automation the crawler drives, as an interface.  [doc] is
    the state of the browser and its page, [elem] an element handle.
    Queries read the current document; navigation, waits and clicks change
    it, and leave a state behind also when they raise. *)
Record PageFetcher (doc elem : Type) : Type := mkPageFetcher {
  launch : browser -> bool -> doc -> result unit * doc;
  new_page : doc -> result unit * doc;
  set_extra_http_headers : string -> doc -> result unit * doc;
  set_default_timeout : Z -> doc -> result unit * doc;
  goto : string -> doc -> result unit * doc;
  wait_for_selector : string -> Z -> doc -> result unit * doc;
  query_selector_all : string -> doc -> result (list elem);
  query_selector : string -> doc -> result (option elem);
  card_query_selector : elem -> string -> doc -> result (option elem);
  inner_text : elem -> doc -> result string;
  get_attribute : elem -> string -> doc -> result (option string);
  is_visible : elem -> doc -> result bool;
  click : elem -> doc -> result unit * doc;
  wait_for_load_state : string -> doc -> result unit * doc;
  sleep : Z -> doc -> doc;
  close : doc -> result unit * doc
}.
Arguments launch {doc elem} p _ _ _.
Arguments new_page {doc elem} p _.
Arguments set_extra_http_headers {doc elem} p _ _.
Arguments set_default_timeout {doc elem} p _ _.
Arguments goto {doc elem} p _ _.
Arguments wait_for_selector {doc elem} p _ _ _.
Arguments query_selector_all {doc elem} p _ _.
Arguments query_selector {doc elem} p _ _.
Arguments card_query_selector {doc elem} p _ _ _.
Arguments inner_text {doc elem} p _ _.
Arguments get_attribute {doc elem} p _ _.
Arguments is_visible {doc elem} p _ _.
Arguments click {doc elem} p _ _.
Arguments wait_for_load_state {doc elem} p _ _.
Arguments sleep {doc elem} p _ _.
Arguments close {doc elem} p _.

(** An action on the page. *)
Definition page_action {doc} (f : doc -> result unit * doc) : M doc unit :=
  fun w => let (r, d) := f (dev w) in (r, set_dev w d).

(** A query of the current document. *)
Definition page_query {doc A} (f : doc -> result A) : M doc A :=
  fun w => (f (dev w), w).

(** The selector lists, in the order the source tries them. *)
Definition listing_selector : string := "[data-search-sol-meta]".

Definition automation_is (value : string) : string :=
  "[data-automation=" +:+ quoted value +:+ "]".

Definition automation_has (tag value : string) : string :=
  tag +:+ "[data-automation*=" +:+ quoted value +:+ "]".

Definition title_selectors : list string :=
  [ "a[data-job-id]"; "a" +:+ automation_is "jobTitle";
    "a[href*=" +:+ quoted "/job/" +:+ "]"; "h3 a"; "article a" ].

Definition company_selectors : list string :=
  [ automation_is "jobCompany"; automation_is "advertiser-name";
    automation_has "span" "company"; automation_has "span" "advertiser" ].

Definition location_selectors : list string :=
  [ automation_is "jobLocation"; automation_is "job-location";
    automation_has "span" "location" ].

Definition salary_selectors : list string :=
  [ automation_is "jobSalary"; automation_is "job-salary";
    automation_has "span" "salary" ].

Definition subcategory_selectors : list string :=
  [ automation_is "jobClassification"; automation_is "job-classification";
    automation_has "span" "classification" ].

Definition posted_selectors : list string :=
  [ automation_is "jobListingDate"; automation_is "job-listing-date";
    automation_has "span" "date"; "time" ].

Definition description_selectors : list string :=
  [ automation_is "jobShortDescription"; automation_is "job-short-description";
    automation_has "p" "description"; automation_has "div" "snippet" ].

Definition next_selectors : list string :=
  [ "a" +:+ automation_is "page-next";
    "a[aria-label=" +:+ quoted "Next" +:+ "]";
    "nav" +:+ automation_is "pagination" +:+ " a:has-text(" +:+ quoted "Next" +:+ ")";
    "button:has-text(" +:+ quoted "Next" +:+ ")";
    "a.next";
    "[rel=" +:+ quoted "next" +:+ "]" ].

(** The library functions on text the crawler calls: [str.lower],
    [str.strip], [urllib.parse.urljoin] (which can raise [ValueError]) and
    [urllib.parse.quote] with [safe='']. *)
Record Text : Type := mkText {
  lower : string -> string;
  strip : string -> string;
  urljoin : string -> string -> result string;
  quote : string -> string
}.

(** A [SeekScraper]: the attributes [__init__] reads from the configuration,
    and the configuration keys its methods read later.  The source's
    [self.classification] is [classification_name] here. *)
Record SeekScraper : Type := mkSeekScraper {
  base_url : string;
  classification_name : string;
  excluded_subcategories : list string;
  excluded_companies : list string;
  max_pages : Z;
  retry_attempts : Z;
  retry_delay : Z;
  headless : bool;
  browser_type : string;
  subclassification_ids : option string;
  classification_slug : string;
  date_range : option Z;
  user_agent : option string;
  request_timeout : Z
}.

Section Crawler.

Context {doc elem : Type}.
Variable page : PageFetcher doc elem.
Variable py : Text.
Variable self : SeekScraper.

(** [time.sleep(seconds)] *)
Definition time_sleep (seconds : Z) : M doc unit :=
  page_action (fun d => (Ok tt, sleep page seconds d)).

(** [SeekScraper._launch_browser] *)
Definition _launch_browser : M doc unit :=
  if String.eqb self.(browser_type) "firefox"
  then page_action (launch page Firefox self.(headless))
  else if String.eqb self.(browser_type) "webkit"
  then page_action (launch page Webkit self.(headless))
  else page_action (launch page Chromium self.(headless)).

(** [SeekScraper._set_page_defaults] *)
Definition _set_page_defaults : M doc unit :=
  (match self.(user_agent) with
   | Some ua =>
       if truthy self.(user_agent) then page_action (set_extra_http_headers page ua)
       else ret tt
   | None => ret tt
   end) ;;
  let timeout := (self.(request_timeout) * 1000)%Z in
  page_action (set_default_timeout page timeout).

(** [SeekScraper._build_search_url] *)
Definition _build_search_url : string :=
  let search_base := self.(base_url) +:+ "/" +:+ self.(classification_slug) in
  let params :=
    (match self.(date_range) with
     | Some n => if (0 <? n)%Z then ["daterange=" +:+ str_of_int n] else []
     | None => []
     end)
    ++
    (match self.(subclassification_ids) with
     | Some ids =>
         if truthy self.(subclassification_ids) then ["subclassification=" +:+ py.(quote) ids]
         else []
     | None => []
     end) in
  match params with
  | [] => search_base
  | _ => search_base +:+ "?" +:+ String.concat "&" params
  end.

(** [a or b or ...] over [card.query_selector(selector)]: the first
    selector that finds an element decides; a query that raises ends the
    lookup. *)
Fixpoint query_first (card : elem) (selectors : list string) (d : doc)
    : result (option elem) :=
  match selectors with
  | [] => Ok None
  | selector :: rest =>
      match card_query_selector page card selector d with
      | Raise e => Raise e
      | Ok (Some found) => Ok (Some found)
      | Ok None => query_first card rest d
      end
  end.

(** [x.inner_text().strip() if x else fallback] *)
Definition text_or {V} (found : string -> V) (fallback : V) (x : option elem)
    (d : doc) : result V :=
  match x with
  | Some e =>
      match inner_text page e d with
      | Ok t => Ok (found (py.(strip) t))
      | Raise err => Raise err
      end
  | None => Ok fallback
  end.

(** [SeekScraper._extract_job_data] *)
Definition _extract_job_data (card : elem) : M doc (option Job) :=
  try_except
    (title_elem <- page_query (query_first card title_selectors) ;;
     match title_elem with
     | None => logger DEBUG NoTitleElement ;; ret None
     | Some title_elem =>
         text <- page_query (inner_text page title_elem) ;;
         let a_title := py.(strip) text in
         href <- page_query (get_attribute page title_elem "href") ;;
         match href with
         | Some href_text =>
             if truthy href then
               a_job_url <- lift (py.(urljoin) self.(base_url) href_text) ;;
               company_elem <- page_query (query_first card company_selectors) ;;
               a_company <- page_query (text_or id "Unknown" company_elem) ;;
               location_elem <- page_query (query_first card location_selectors) ;;
               a_location <- page_query (text_or id "Unknown" location_elem) ;;
               salary_elem <- page_query (query_first card salary_selectors) ;;
               a_salary <- page_query (text_or Some None salary_elem) ;;
               subcategory_elem <- page_query (query_first card subcategory_selectors) ;;
               a_subcategory <- page_query (text_or id "Unknown" subcategory_elem) ;;
               posted_elem <- page_query (query_first card posted_selectors) ;;
               a_posted_date <- page_query (text_or Some (Some "Recently") posted_elem) ;;
               description_elem <- page_query (query_first card description_selectors) ;;
               a_description <- page_query (text_or Some None description_elem) ;;
               job <- Job_init a_title a_company a_location self.(classification_name)
                        a_subcategory a_job_url a_posted_date a_salary None
                        a_description None ;;
               ret (Some job)
             else logger DEBUG (NoHref a_title) ;; ret None
         | None => logger DEBUG (NoHref a_title) ;; ret None
         end
     end)
    (fun e => logger ERROR (ErrorParsingJobCard e) ;; ret None).

(** [excluded.lower() in text.lower()] *)
Definition matches_in (text excluded : string) : bool :=
  contains (py.(lower) excluded) (py.(lower) text).

(** [SeekScraper._should_include_job]; the lists hold the elements of the
    two configured sets in the order the [for] loops meet them. *)
Definition _should_include_job (job : Job) : M doc bool :=
  match find (matches_in (subcategory job)) self.(excluded_subcategories) with
  | Some excluded =>
      logger DEBUG (ExcludedBySubcategory excluded (title job)) ;; ret false
  | None =>
      let company_lower := py.(lower) (company job) in
      if contains "recruitment" company_lower && contains "agency" company_lower
      then logger DEBUG (ExcludedByKeyword (title job) (company job)) ;; ret false
      else
        match find (matches_in (company job)) self.(excluded_companies) with
        | Some excluded_company =>
            logger DEBUG (ExcludedByCompany excluded_company (title job) (company job)) ;;
            ret false
        | None => ret true
        end
  end.

(** The [for card in job_cards] loop of [_scrape_page]. *)
Fixpoint scrape_cards (job_cards : list elem) (jobs : list Job) : M doc (list Job) :=
  match job_cards with
  | [] => ret jobs
  | card :: rest =>
      jobs <- try_except
                (job <- _extract_job_data card ;;
                 match job with
                 | Some j =>
                     include <- _should_include_job j ;;
                     if include then ret (jobs ++ [j])
                     else logger DEBUG (ExcludedJob (title j) (subcategory j)) ;; ret jobs
                 | None => ret jobs
                 end)
                (fun e => logger ERROR (ErrorExtractingJobData e) ;; ret jobs) ;;
      scrape_cards rest jobs
  end.

(** [SeekScraper._scrape_page] *)
Definition _scrape_page : M doc (list Job) :=
  loaded <- try_except_timeout
              (page_action (wait_for_selector page listing_selector 10000) ;; ret true)
              (logger WARNING TimeoutWaitingForListings ;; ret false) ;;
  if loaded : bool then
    job_cards <- page_query (query_selector_all page listing_selector) ;;
    logger DEBUG (FoundJobCards (length job_cards)) ;;
    scrape_cards job_cards []
  else ret [].

(** The [for selector in selectors] loop of [_goto_next_page]. *)
Fixpoint try_selectors (selectors : list string) : M doc bool :=
  match selectors with
  | [] => logger DEBUG NoNextButton ;; ret false
  | selector :: rest =>
      logger DEBUG (TryingSelector selector) ;;
      next_button <- page_query (query_selector page selector) ;;
      match next_button with
      | Some button =>
          logger DEBUG (FoundNextButton selector) ;;
          visible <- page_query (is_visible page button) ;;
          logger DEBUG (ButtonVisible visible) ;;
          if visible : bool then
            logger INFO ClickingNextPage ;;
            page_action (click page button) ;;
            page_action (wait_for_load_state page "domcontentloaded") ;;
            time_sleep 2 ;;
            ret true
          else try_selectors rest
      | None => try_selectors rest
      end
  end.

(** [SeekScraper._goto_next_page] *)
Definition _goto_next_page : M doc bool :=
  try_except (try_selectors next_selectors)
    (fun e => logger ERROR (ErrorNavigating e) ;; ret false).

(** The [while page_num <= self.max_pages] loop of [scrape].  [remaining]
    is the number of iterations the condition still allows,
    [max_pages + 1 - page_num] when that is positive and 0 otherwise, so
    the loop is left through its condition exactly when [remaining] is 0. *)
Fixpoint scrape_loop (remaining : nat) (page_num : Z) (jobs : list Job)
    : M doc (list Job) :=
  match remaining with
  | O => ret jobs
  | S remaining' =>
      logger INFO (ScrapingPage page_num) ;;
      page_jobs <- _scrape_page ;;
      let jobs := jobs ++ page_jobs in
      logger INFO (FoundJobsOnPage (length page_jobs) page_num) ;;
      more <- _goto_next_page ;;
      if more : bool then
        time_sleep 2 ;;
        scrape_loop remaining' (page_num + 1)%Z jobs
      else logger INFO NoMorePages ;; ret jobs
  end.

(** The settings [scrape] logs before it starts the browser. *)
Definition log_settings : M doc unit :=
  logger INFO StartingScraper ;;
  (match self.(subclassification_ids) with
   | Some ids =>
       if truthy self.(subclassification_ids)
       then logger INFO (UsingSubclassificationFilter (count_fields ids))
       else logger INFO (NoSubclassificationFilter (length self.(excluded_subcategories)))
   | None => logger INFO (NoSubclassificationFilter (length self.(excluded_subcategories)))
   end) ;;
  logger INFO (ExcludingCompanies (length self.(excluded_companies))).

(** The statements of [scrape] between [try:] and the loop: a new page,
    its defaults, and the navigation to the search results. *)
Definition open_search_page : M doc unit :=
  page_action (new_page page) ;;
  _set_page_defaults ;;
  let search_url := _build_search_url in
  logger INFO (NavigatingTo search_url) ;;
  page_action (goto page search_url) ;;
  time_sleep 2.

(** [SeekScraper.scrape]; entering and leaving the [sync_playwright()]
    context is part of [launch] and [close]. *)
Definition scrape : M doc (list Job) :=
  log_settings ;;
  _launch_browser ;;
  jobs <- try_finally
            (open_search_page ;;
             scrape_loop (Z.to_nat self.(max_pages)) 1%Z [])
            (page_action (close page)) ;;
  logger INFO (TotalJobsScraped (length jobs)) ;;
  ret jobs.

End Crawler.

(** ** The run's counters *)

(** [[x for x in xs if keep(x)]] where [keep] reads the store *)
Fixpoint filter_m {D A} (keep : A -> M D bool) (xs : list A) : M D (list A) :=
  match xs with
  | [] => ret []
  | x :: xs' =>
      k <- keep x ;;
      kept <- filter_m keep xs' ;;
      ret (if k : bool then x :: kept else kept)
  end.

Section Orchestrator.

Variable retention_days : Z.
Variable fromisoformat : string -> option Z.

(** Modelled from the spec: the success path of the orchestrator's
    [runJob], whose source ([job_manager.py]) is not part of the sources
    at hand.  Section 4.3: [jobsFound] is the count of accepted records of
    the run; [jobsNew] is computed by consulting the dedup store
    ([isSeen], here [JSONStorage.exists]) for each accepted record before
    anything is persisted; the records are then appended and marked seen
    ([JSONStorage.save]). *)
Definition complete_run (accepted : list Job) : M files (Z * Z) :=
  let jobs_found := Z.of_nat (length accepted) in
  new_jobs <- filter_m (fun job => seen <- exists_ job ;; ret (negb seen)) accepted ;;
  let jobs_new := Z.of_nat (length new_jobs) in
  save retention_days fromisoformat accepted ;;
  ret (jobs_found, jobs_new).

End Orchestrator.

(** ** The dedup store as the specification words it *)

(** The seen-jobs mapping of a store. *)
Definition tracked (w : world files) : gmap string string :=
  match seen_file (dev w) with
  | Some seen_jobs => seen_jobs
  | None => ∅
  end.

(** The mapping once [jobs] are marked with the reading of the clock. *)
Definition marked (jobs : list Job) (w : world files) : gmap string string :=
  mark_all (isoformat (clock w (ticks w))) jobs (tracked w).

(** "Within the retention window": the timestamp reads as an instant newer
    than [now] minus [retention_days] days. *)
Definition within_window (retention_days : Z) (fromisoformat : string -> option Z)
    (now_ : Z) (timestamp : string) : bool :=
  match fromisoformat timestamp, timedelta_days retention_days with
  | Some t, Ok td =>
      match datetime_sub now_ td with
      | Ok cutoff_date => (cutoff_date <? t)%Z
      | Raise _ => false
      end
  | _, _ => false
  end.

(** [isSeen] as section 4.4 states it: an entry exists and is within the
    retention window. *)
Definition spec_isSeen (retention_days : Z) (fromisoformat : string -> option Z)
    (now_ : Z) (seen_jobs : gmap string string) (identity : string) : bool :=
  match seen_jobs !! identity with
  | Some timestamp => within_window retention_days fromisoformat now_ timestamp
  | None => false
  end.

(** [jobsNew] as section 8 states it, with [spec_isSeen] for "present". *)
Definition spec_jobs_new (retention_days : Z) (fromisoformat : string -> option Z)
    (now_ : Z) (seen_jobs : gmap string string) (accepted : list Job) : Z :=
  Z.of_nat (length (List.filter
    (fun job => negb (spec_isSeen retention_days fromisoformat now_ seen_jobs (job_url job)))
    accepted)).

(** ** Sample data for the examples *)

(** Lower-casing of text that holds only ASCII characters, where
    [str.lower] changes the letters A to Z and nothing else. *)
Definition lower_char (c : ascii) : ascii :=
  let n := nat_of_ascii c in
  if (65 <=? n)%nat && (n <=? 90)%nat then ascii_of_nat (n + 32) else c.

Fixpoint lower_ascii (s : string) : string :=
  match s with
  | EmptyString => EmptyString
  | String c rest => String (lower_char c) (lower_ascii rest)
  end.

Fixpoint is_ascii (s : string) : bool :=
  match s with
  | EmptyString => true
  | String c rest => (nat_of_ascii c <? 128)%nat && is_ascii rest
  end.

(** [urljoin] for a base without path and a reference that is either an
    absolute http(s) URL or a path starting with a slash. *)
Definition urljoin_rooted (base href : string) : result string :=
  if String.prefix "http" href then Ok href else Ok (base +:+ href).

(** A scripted site: each page says whether the listings container shows up
    in time, which cards it lists and which controls a selector finds. *)
Inductive leaf : Type :=
  | Tag (text : string) (href : option string) (visible : bool)
  | Detached.

Inductive node : Type :=
  | Leaf (l : leaf)
  | Card (children : list (string * leaf)).

Record mock_page : Type := mkMockPage {
  listing_timeout : bool;
  cards : list node;
  controls : list (string * leaf)
}.

Fixpoint assoc {A} (key : string) (l : list (string * A)) : option A :=
  match l with
  | [] => None
  | (k, v) :: rest => if String.eqb k key then Some v else assoc key rest
  end.

(** The fetcher over a scripted site; the document is the index of the page
    shown.  A [Detached] handle raises when its text is read, a click on a
    control shows the next page. *)
Definition mock_fetcher (site : nat -> mock_page) : PageFetcher nat node :=
  {| launch := fun _ _ d => (Ok tt, d);
     new_page := fun d => (Ok tt, d);
     set_extra_http_headers := fun _ d => (Ok tt, d);
     set_default_timeout := fun _ d => (Ok tt, d);
     goto := fun _ d => (Ok tt, d);
     wait_for_selector := fun _ _ d =>
       if listing_timeout (site d) then (Raise PlaywrightTimeout, d) else (Ok tt, d);
     query_selector_all := fun _ d => Ok (cards (site d));
     query_selector := fun selector d => Ok (Leaf <$> assoc selector (controls (site d)));
     card_query_selector := fun card selector _ =>
       match card with
       | Card children => Ok (Leaf <$> assoc selector children)
       | Leaf _ => Ok None
       end;
     inner_text := fun e _ =>
       match e with
       | Leaf (Tag text _ _) => Ok text
       | Leaf Detached => Raise (PlaywrightError "Element is not attached to the DOM")
       | Card _ => Ok EmptyString
       end;
     get_attribute := fun e name _ =>
       match e with
       | Leaf (Tag _ href _) => Ok (if String.eqb name "href" then href else None)
       | _ => Ok None
       end;
     is_visible := fun e _ =>
       match e with
       | Leaf (Tag _ _ visible) => Ok visible
       | _ => Ok true
       end;
     click := fun _ d => (Ok tt, S d);
     wait_for_load_state := fun _ d => (Ok tt, d);
     sleep := fun _ d => d;
     close := fun d => (Ok tt, d) |}.

(** 2024-06-01T12:00:00 *)
Definition noon_1_june_2024 : Z := 63852840000000000.

(** A store whose seen-jobs file tracks one URL, last marked on
    2020-01-01, read on 1 June 2024. *)
Definition stale_url : string := "https://www.seek.com.au/job/1".

Definition stale_job : Job :=
  mkJob "HR Advisor" "Acme" "Sydney" "Human Resources & Recruitment" "Consulting"
    stale_url None None None None "2024-06-01T11:59:00".

Definition stale_world : world files :=
  World (mkFiles None (Some {[ stale_url := "2020-01-01T00:00:00" ]}))
    (fun _ => noon_1_june_2024) 0 [].

(** A store holding one record captured in 2020 and one captured in May
    2024, read on 1 June 2024. *)
Definition old_job : Job :=
  mkJob "HR Advisor" "Acme" "Sydney" "Human Resources & Recruitment" "Consulting"
    "https://www.seek.com.au/job/1" None None None None "2020-01-01T00:00:00".

Definition new_job : Job :=
  mkJob "HR Manager" "Bolt" "Perth" "Human Resources & Recruitment" "Management"
    "https://www.seek.com.au/job/2" None None None None "2024-05-20T09:30:00".

Definition shelf_world : world files :=
  World (mkFiles (Some [to_dict old_job; to_dict new_job]) None)
    (fun _ => noon_1_june_2024) 0 [].

(** Stripping of ASCII whitespace, as [str.strip] does on ASCII text. *)
Definition is_space (c : ascii) : bool :=
  let n := nat_of_ascii c in
  ((9 <=? n) && (n <=? 13) || (28 <=? n) && (n <=? 32))%nat.

Fixpoint lstrip (s : string) : string :=
  match s with
  | EmptyString => EmptyString
  | String c rest => if is_space c then lstrip rest else s
  end.

Fixpoint rstrip (s : string) : string :=
  match s with
  | EmptyString => EmptyString
  | String c rest =>
      let rest' := rstrip rest in
      if is_space c && String.eqb rest' EmptyString then EmptyString
      else String c rest'
  end.

Definition strip_ascii (s : string) : string := rstrip (lstrip s).

(** Three listing cards: the first names its company under the second
    company selector and its date under [time]; the second has no title
    link; the third has a title link only. *)
Definition bolt_card : node :=
  Card [ ("a" +:+ automation_is "jobTitle", Tag " HR Manager " (Some "/job/2") true);
         (automation_is "advertiser-name", Tag "Bolt" None true);
         ("time", Tag "2d ago" None true) ].

Definition untitled_card : node :=
  Card [ (automation_is "jobCompany", Tag "Nameless" None true) ].

Definition plain_card : node :=
  Card [ ("h3 a", Tag "Recruiter" (Some "https://www.seek.com.au/job/3") true) ].

(** A site whose every page lists these cards and has no next-page
    control. *)
Definition listing_site (n : nat) : mock_page :=
  mkMockPage false [bolt_card; untitled_card; plain_card] [].

(** A site whose every page has a hidden next-page control. *)
Definition last_page_site (n : nat) : mock_page :=
  mkMockPage false [plain_card] [ ("a.next", Tag "Next" None false) ].

(** A site whose every page has a visible next-page control. *)
Definition endless_site (n : nat) : mock_page :=
  mkMockPage false [plain_card] [ ("a.next", Tag "Next" None true) ].

(** A site whose listings never show up in time, with a visible next-page
    control on every page. *)
Definition timeout_site (n : nat) : mock_page :=
  mkMockPage true [] [ ("a" +:+ automation_is "page-next", Tag "Next" None true) ].

Definition seek_url : string := "https://www.seek.com.au".

Definition hr_classification : string := "Human Resources & Recruitment".

(** The text functions on ASCII text. *)
Definition ascii_text : Text :=
  {| lower := lower_ascii; strip := strip_ascii; urljoin := urljoin_rooted; quote := id |}.

(** A scraper of the HR classification without exclusion lists, allowed
    [pages] pages. *)
Definition seek_scraper (pages : Z) : SeekScraper :=
  {| base_url := seek_url;
     classification_name := hr_classification;
     excluded_subcategories := [];
     excluded_companies := [];
     max_pages := pages;
     retry_attempts := 3;
     retry_delay := 5;
     headless := true;
     browser_type := "chromium";
     subclassification_ids := None;
     classification_slug := "jobs-in-human-resources-recruitment";
     date_range := Some 3%Z;
     user_agent := None;
     request_timeout := 30 |}.

(** The crawler's world at the first page, on 1 June 2024. *)
Definition crawl_world : world nat := World 0%nat (fun _ => noon_1_june_2024) 0 [].

(** The records of [bolt_card] and of [plain_card] when they are parsed at
    noon of that day. *)
Definition bolt_record : Job :=
  mkJob "HR Manager" "Bolt" "Unknown" hr_classification "Unknown"
    "https://www.seek.com.au/job/2" (Some "2d ago") None None None
    "2024-06-01T12:00:00".

Definition plain_record : Job :=
  mkJob "Recruiter" "Unknown" "Unknown" hr_classification "Unknown"
    "https://www.seek.com.au/job/3" (Some "Recently") None None None
    "2024-06-01T12:00:00".

(** ** The filter and the field lookups as the specification words them *)

(** [needle] occurs in [haystack]. *)
Definition substring_of (needle haystack : string) : Prop :=
  exists before after, haystack = before +:+ needle +:+ after.

Section FilterSpec.

Variable py : Text.
Variable self : SeekScraper.

(** Check (a): the sub-category text contains, case-insensitively, some
    excluded sub-category. *)
Definition rejected_by_subcategory (job : Job) : Prop :=
  exists excluded, In excluded self.(excluded_subcategories)
    /\ substring_of (py.(lower) excluded) (py.(lower) (subcategory job)).

(** Check (b): the company name contains both keywords. *)
Definition rejected_by_keywords (job : Job) : Prop :=
  substring_of "recruitment" (py.(lower) (company job))
  /\ substring_of "agency" (py.(lower) (company job)).

(** Check (c): the company name contains, case-insensitively, some
    excluded company. *)
Definition rejected_by_company (job : Job) : Prop :=
  exists excluded, In excluded self.(excluded_companies)
    /\ substring_of (py.(lower) excluded) (py.(lower) (company job)).

(** The verdict of the three checks as a truth value. *)
Definition accepts (job : Job) : bool :=
  negb (existsb (fun excluded => contains (py.(lower) excluded)
                                   (py.(lower) (subcategory job)))
          self.(excluded_subcategories)
        || (contains "recruitment" (py.(lower) (company job))
            && contains "agency" (py.(lower) (company job)))
        || existsb (fun excluded => contains (py.(lower) excluded)
                                      (py.(lower) (company job)))
             self.(excluded_companies)).

End FilterSpec.

Section LookupSpec.

Context {doc elem : Type}.
Variable page : PageFetcher doc elem.
Variable py : Text.

(** No selector of the list finds an element under [card]. *)
Definition no_hit (card : elem) (selectors : list string) (d : doc) : Prop :=
  Forall (fun selector => card_query_selector page card selector d = Ok None) selectors.

(** [found] is what the first selector of the list that finds anything
    finds: the selectors before it find nothing. *)
Definition first_hit (card : elem) (selectors : list string) (d : doc)
    (found : elem) : Prop :=
  exists before selector after,
    selectors = before ++ selector :: after
    /\ no_hit card before d
    /\ card_query_selector page card selector d = Ok (Some found).

(** The value of a field: the stripped text of the first hit, wrapped by
    [wrap], or [fallback] when no selector finds anything. *)
Definition resolved {V} (card : elem) (selectors : list string) (wrap : string -> V)
    (fallback : V) (d : doc) (value : V) : Prop :=
  (exists found text,
      first_hit card selectors d found
      /\ inner_text page found d = Ok text
      /\ value = wrap (py.(strip) text))
  \/ (no_hit card selectors d /\ value = fallback).

(** The listings answer: the wait for the container ends in time or in a
    timeout, and after a wait that ended in time the cards can be
    listed. *)
Definition listing_answers (d : doc) : Prop :=
  match wait_for_selector page listing_selector 10000 d with
  | (Ok _, d') => exists job_cards, query_selector_all page listing_selector d' = Ok job_cards
  | (Raise PlaywrightTimeout, _) => True
  | (Raise _, _) => False
  end.

(** No selector of the list finds a control that reports itself
    visible. *)
Definition hides_next (d : doc) : Prop :=
  forall selector button,
    In selector next_selectors ->
    query_selector page selector d = Ok (Some button) ->
    is_visible page button d <> Ok true.

(** The ordered lookup of the next-page control ends at [button]: the
    first control found that is visible; the selectors before it find
    nothing or a hidden control. *)
Inductive finds_visible (d : doc) : list string -> elem -> Prop :=
  | finds_here selector rest button :
      query_selector page selector d = Ok (Some button) ->
      is_visible page button d = Ok true ->
      finds_visible d (selector :: rest) button
  | finds_after_absent selector rest button :
      query_selector page selector d = Ok None ->
      finds_visible d rest button ->
      finds_visible d (selector :: rest) button
  | finds_after_hidden selector rest hidden button :
      query_selector page selector d = Ok (Some hidden) ->
      is_visible page hidden d = Ok false ->
      finds_visible d rest button ->
      finds_visible d (selector :: rest) button.

(** The document exposes a visible next-page control, and activating it
    loads the following page. *)
Definition exposes_next (d : doc) : Prop :=
  exists button d1 d2,
    finds_visible d next_selectors button
    /\ click page button d = (Ok tt, d1)
    /\ wait_for_load_state page "domcontentloaded" d1 = (Ok tt, d2).

End LookupSpec.

Section RecordSpec.

Context {doc elem : Type}.
Variable page : PageFetcher doc elem.
Variable py : Text.
Variable self : SeekScraper.

(** In document [d] the card yields a candidate record, whatever the
    clock and the log are when it is parsed. *)
Definition yields_record (d : doc) (card : elem) : Prop :=
  forall w, dev w = d ->
    exists job w', _extract_job_data page py self card w = (Ok (Some job), w').



(** [extracts n page_num w pages w']: started in [w] at the page numbered
    [page_num], the run extracts [n] pages one after the other.  Each is
    announced by its "Scraping page" record and handed to [_scrape_page],
    whose records are the next list of [pages]; the number of records is
    logged, [_goto_next_page] answers true, and the run sleeps before the
    page that follows.  [w'] is the world after the last of the [n]. *)
Inductive extracts : nat -> Z -> world doc -> list (list Job) -> world doc -> Prop :=
  | extracts_none page_num w : extracts 0 page_num w [] w
  | extracts_next n page_num w page_jobs w1 w2 pages w' :
      _scrape_page page py self (logged w INFO (ScrapingPage page_num))
      = (Ok page_jobs, w1) ->
      _goto_next_page page (logged w1 INFO (FoundJobsOnPage (length page_jobs) page_num))
      = (Ok true, w2) ->
      extracts n (page_num + 1)%Z (set_dev w2 (sleep page 2 (dev w2))) pages w' ->
      extracts (S n) page_num w (page_jobs :: pages) w'.

End RecordSpec.

(** The pages a run has scraped: the "Scraping page" records of its log. *)
Definition is_scraping_page (r : log_record) : bool :=
  match r with
  | (INFO, ScrapingPage _) => true
  | _ => false
  end.

Definition pages_scraped (l : list log_record) : nat :=
  length (List.filter is_scraping_page l).

(** ** More of the record model: [job_id], [__eq__] and [__hash__] *)

(** [s.split(sep)] for a separator that is not empty.  The text is scanned
    from the left; a separator found at the current position ends the
    current piece, and the scan goes on behind it.  [skip] counts the
    characters of a separator just found that are still to be passed
    over, so the pieces are those between the separators the scan
    meets. *)
Fixpoint split_skip (sep : string) (skip : nat) (s : string) : list string :=
  match s with
  | EmptyString => [EmptyString]
  | String c rest =>
      match skip with
      | S k => split_skip sep k rest
      | O =>
          if String.prefix sep s
          then EmptyString :: split_skip sep (String.length sep - 1) rest
          else
            match split_skip sep 0 rest with
            | piece :: pieces => String c piece :: pieces
            | [] => [String c EmptyString]
            end
      end
  end.

Definition split (sep s : string) : list string := split_skip sep 0 s.

(** [s.endswith(suffix)] *)
Definition endswith (suffix s : string) : bool :=
  (String.length suffix <=? String.length s)%nat
  && String.eqb (substring (String.length s - String.length suffix)
                   (String.length suffix) s) suffix.

(** The property [Job.job_id]: the text behind the last ["/job/"] the
    split meets, up to the first question mark. *)
Definition job_id (self : Job) : string :=
  if contains "/job/" (job_url self)
  then hd EmptyString
         (split "?" (List.last (split "/job/" (job_url self)) EmptyString))
  else job_url self.

(** What [__eq__] can be compared with: a [Job], or an object of another
    class. *)
Inductive object : Type :=
  | AJob (job : Job)
  | NotAJob.

(** [Job.__eq__] *)
Definition __eq__ (self : Job) (other : object) : bool :=
  match other with
  | AJob other_job => String.eqb (job_url self) (job_url other_job)
  | NotAJob => false
  end.

(** [Job.__hash__], over the built-in [hash] of a [str] *)
Definition __hash__ (hash : string -> Z) (self : Job) : Z := hash (job_url self).

(** ** The configuration ([src/utils/config_loader.py]) *)

(** A document as [yaml.safe_load] returns it: [None], truth values,
    integers, texts, lists, and dictionaries with text keys, written as the
    list of their items.  A key is looked up from the left, so a list with
    distinct keys stands for the dictionary loaded.  Floats and dates,
    which the functions below treat as they treat integers, are left
    out. *)
#[warnings="-register-all"] Inductive yaml : Type :=
  | YNone
  | YBool (b : bool)
  | YInt (n : Z)
  | YStr (s : string)
  | YList (elements : list yaml)
  | YDict (items : list (string * yaml)).

Module Config.

(** The exceptions [Config(...)] raises on a file that is missing or is not
    a dictionary. *)
Inductive config_error : Type := FileNotFoundError | AttributeError.

(** [d.get(k)]: the value of the key, [None] when it is absent *)
Definition dict_get (items : list (string * yaml)) (k : string) : yaml :=
  match assoc k items with
  | Some value => value
  | None => YNone
  end.

(** The [for k in keys] loop of [Config.get]. *)
Fixpoint get_keys (value : yaml) (keys : list string) (default : yaml) : yaml :=
  match keys with
  | [] => value
  | k :: rest =>
      match value with
      | YDict items =>
          match dict_get items k with
          | YNone => default
          | found => get_keys found rest default
          end
      | _ => default
      end
  end.

(** [Config.get] *)
Definition get (_config : yaml) (key : string) (default : yaml) : yaml :=
  get_keys _config (split "." key) default.

(** [value[2:-1]] *)
Definition env_var_of (value : string) : string :=
  substring 2 (String.length value - 3) value.

Section Environment.

(** [os.getenv(name)]: [None] for a variable that is not set *)
Variable getenv : string -> option string.

(** What [replace_in_dict] leaves under a key that held [value]: the
    variable's text for a placeholder whose variable is set, the
    dictionary with its own values replaced, and the value itself
    otherwise. *)
Fixpoint replace_value (value : yaml) : yaml :=
  match value with
  | YStr s =>
      if String.prefix "${" s && endswith "}" s
      then YStr (default s (getenv (env_var_of s)))
      else value
  | YDict items => YDict (map (fun item => (item.1, replace_value item.2)) items)
  | _ => value
  end.

(** The inner function [replace_in_dict] of [_replace_env_vars]. *)
Definition replace_in_dict (d : list (string * yaml)) : list (string * yaml) :=
  map (fun item => (item.1, replace_value item.2)) d.

(** [Config._replace_env_vars]: [replace_in_dict(self._config)], which
    calls [d.items()] and so raises [AttributeError] on a document that is
    not a dictionary. *)
Definition _replace_env_vars (_config : yaml) : yaml + config_error :=
  match _config with
  | YDict d => inl (YDict (replace_in_dict d))
  | _ => inr AttributeError
  end.

(** [Config._load_config]; [file] is the parsed content of the file at
    [config_path], [None] when the path does not exist. *)
Definition _load_config (file : option yaml) : yaml + config_error :=
  match file with
  | None => inr FileNotFoundError
  | Some document => inl document
  end.

(** [Config.__init__]: the [_config] of the object built. *)
Definition __init__ (file : option yaml) : yaml + config_error :=
  match _load_config file with
  | inl _config => _replace_env_vars _config
  | inr e => inr e
  end.

End Environment.

End Config.

(** ** The endpoints that read the store ([src/api/app.py]) *)

(** [l[start:stop]]: a negative index counts from the end, and both
    indices are clipped to the list. *)
Definition slice_index (len i : Z) : Z :=
  if (i <? 0)%Z then Z.max 0 (i + len) else Z.min i len.

Definition slice {A} (l : list A) (start stop : Z) : list A :=
  let len := Z.of_nat (length l) in
  let first := slice_index len start in
  let last := slice_index len stop in
  firstn (Z.to_nat (last - first)) (skipn (Z.to_nat first) l).

(** [jobs.sort(key=lambda x: x.scraped_at, reverse=True)]: the stable sort
    by decreasing key, in which records with equal keys keep their order;
    written as the insertion, from the right, of each record before the
    first one whose key is not greater.  The keys are texts, compared
    character by character. *)
Fixpoint insert_newest_first (job : Job) (sorted : list Job) : list Job :=
  match sorted with
  | [] => [job]
  | x :: rest =>
      if String.ltb (scraped_at job) (scraped_at x)
      then x :: insert_newest_first job rest
      else job :: sorted
  end.

Definition sort_newest_first (jobs : list Job) : list Job :=
  foldr insert_newest_first [] jobs.

(** The [detail] of the [HTTPException]s the three endpoints raise. *)
Inductive detail : Type :=
  | FailedToRetrieveJobs (e : exn)
  | FailedToRetrieveLatestJobs (e : exn)
  | FailedToRetrieveJob (e : exn)
  | JobNotFound (a_job_id : string).

(** How an endpoint ends: with the value it returns, or with the
    [HTTPException] it raises. *)
Inductive outcome (A : Type) : Type :=
  | Returns (a : A)
  | HTTPException (status_code : Z) (d : detail).
Arguments Returns {A} a.
Arguments HTTPException {A} status_code d.

Section Endpoints.

(** The response classes of [src/api/models.py] are used through their
    constructors, which validate their arguments and may raise. *)
Context {R L : Type}.
Variable py : Text.

(** The first statements of each endpoint, [config = Config()] and
    [storage = JSONStorage(...)], which read the configuration file and
    create the directories of the two files. *)
Variable open_storage : M files unit.

(** [JobResponse], called with keyword arguments *)
Variable JobResponse : gmap string pyval -> result R.

(** [JobsListResponse(total=, page=, page_size=, jobs=)] *)
Variable JobsListResponse : Z -> Z -> Z -> list R -> result L.

(** [JobResponse] called with the entries of [j.to_dict()] and
    [job_id=j.job_id] *)
Definition job_response {D} (j : Job) : M D R :=
  lift (JobResponse (<["job_id" := PyStr (job_id j)]> (to_dict j))).

(** [if text: jobs = [j for j in jobs if text.lower() in field(j).lower()]] *)
Definition matching (text : option string) (field : Job -> string) (jobs : list Job)
    : list Job :=
  match text with
  | Some t =>
      if truthy text
      then List.filter (fun j => contains (py.(lower) t) (py.(lower) (field j))) jobs
      else jobs
  | None => jobs
  end.

(** The statements of [list_jobs] between [storage.load()] and the
    conversion to responses: the two filters, the sort and the slice of
    the page; the result is [total] and [page_jobs]. *)
Definition select_page (jobs : list Job) (page page_size : Z)
    (a_company a_location : option string) : Z * list Job :=
  let jobs := matching a_company company jobs in
  let jobs := matching a_location location jobs in
  let jobs := sort_newest_first jobs in
  let total := Z.of_nat (length jobs) in
  let start_idx := ((page - 1) * page_size)%Z in
  let end_idx := (start_idx + page_size)%Z in
  let page_jobs := slice jobs start_idx end_idx in
  (total, page_jobs).

(** The [list_jobs] endpoint, [GET /api/v1/jobs].  The framework checks
    the bounds declared for the query parameters, [page >= 1] and
    [1 <= page_size <= 200], before it calls the function. *)
Definition list_jobs (page page_size : Z) (a_company a_location : option string)
    : world files -> outcome L * world files :=
  fun w =>
    match (open_storage ;;
           jobs <- load ;;
           let '(total, page_jobs) :=
             select_page jobs page page_size a_company a_location in
           job_responses <- map_m job_response page_jobs ;;
           lift (JobsListResponse total page page_size job_responses)) w with
    | (Ok response, w') => (Returns response, w')
    | (Raise e, w') => (HTTPException 500 (FailedToRetrieveJobs e), w')
    end.

(** The [get_latest_jobs] endpoint, [GET /api/v1/jobs/latest]; the
    framework checks [1 <= limit <= 5000]. *)
Definition get_latest_jobs (limit : Z) : world files -> outcome (list R) * world files :=
  fun w =>
    match (open_storage ;;
           jobs <- load ;;
           let jobs := sort_newest_first jobs in
           let latest_jobs := slice jobs 0 limit in
           map_m job_response latest_jobs) w with
    | (Ok responses, w') => (Returns responses, w')
    | (Raise e, w') => (HTTPException 500 (FailedToRetrieveLatestJobs e), w')
    end.

(** The [get_job] endpoint, [GET /api/v1/jobs/{job_id}].  The
    [HTTPException] raised for a job that is not found passes the first
    handler unchanged; any other exception becomes a 500. *)
Definition get_job (a_job_id : string) : world files -> outcome R * world files :=
  fun w =>
    match (open_storage ;;
           jobs <- load ;;
           match find (fun job => String.eqb (job_id job) a_job_id) jobs with
           | Some job => response <- job_response job ;; ret (Returns response)
           | None => ret (HTTPException 404 (JobNotFound a_job_id))
           end) w with
    | (Ok ended, w') => (ended, w')
    | (Raise e, w') => (HTTPException 500 (FailedToRetrieveJob e), w')
    end.

End Endpoints.

(** ** The store as its callers see it *)

(** The world is one written by this store: the records file holds the
    dictionaries of [jobs], or is missing and [jobs] is empty. *)
Definition holds_records (w : world files) (jobs : list Job) : Prop :=
  output_file (dev w) = Some (map to_dict jobs)
  \/ (output_file (dev w) = None /\ jobs = []).

(** The parameters of [Job] without default. *)
Definition required_field_names : list string :=
  [ "title"; "company"; "location"; "classification"; "subcategory"; "job_url" ].

(** A dictionary [Job] cannot be called with: it has a key that names no
    field, or lacks a required one. *)
Definition misfit (data : gmap string pyval) : Prop :=
  (exists key, is_Some (data !! key) /\ ~ In key Job_field_names)
  \/ (exists key, In key required_field_names /\ data !! key = None).

(** ** The records of a run *)

(** What every record of a run has in common: it passed the filter, it
    carries the configured classification, no job type, and a posted date
    (the text found, or "Recently"). *)
Definition scraped_by (py : Text) (self : SeekScraper) (job : Job) : Prop :=
  accepts py self job = true
  /\ classification job = self.(classification_name)
  /\ job_type job = None
  /\ posted_date job <> None.

(** ** The order of a listing *)

(** [a] may stand in front of [b] in a listing, newest first: the capture
    time of [b], as text, is not greater than that of [a]. *)
Definition not_older (a b : Job) : Prop :=
  String.leb (scraped_at b) (scraped_at a) = true.

(** A filter of [list_jobs] lets [value] pass: no filter text is given (or
    an empty one), or the text occurs in the value, letter case aside. *)
Definition passes (py : Text) (text : option string) (value : string) : Prop :=
  truthy text = false
  \/ exists t, text = Some t /\ substring_of (py.(lower) t) (py.(lower) value).

(** ** More sample data *)

(** A record whose URL carries a query string. *)
Definition listed_job : Job :=
  mkJob "People Partner" "Corvus" "Hobart" hr_classification "Consulting"
    "https://www.seek.com.au/job/79012345?type=standard&ref=search-standalone"
    None None None None "2024-05-31T08:15:00".

(** The store of the two records with a seen-jobs file in which one entry
    carries a date that cannot be read. *)
Definition smudged_world : world files :=
  World (mkFiles (Some [to_dict old_job; to_dict new_job])
           (Some {[ job_url old_job := "last week" ]}))
    (fun _ => noon_1_june_2024) 0 [].

(** The store of the two records, the second of which carries a key that
    names no field. *)
Definition torn_world : world files :=
  World (mkFiles (Some [to_dict old_job; <["colour" := PyStr "red"]> (to_dict new_job)])
           None)
    (fun _ => noon_1_june_2024) 0 [].

(** Response classes for the examples: a response is the identifier among
    its keyword arguments, and a page of responses the tuple of its four
    arguments. *)
Definition plain_response (kwargs : gmap string pyval) : result string :=
  match kwargs !! "job_id" with
  | Some (PyStr a_job_id) => Ok a_job_id
  | _ => Raise TypeError
  end.

Definition plain_page (total page page_size : Z) (jobs : list string)
    : result (Z * Z * Z * list string) :=
  Ok (total, page, page_size, jobs).

(** The store of three records, the newest of which is listed second. *)
Definition stocked_world : world files :=
  World (mkFiles (Some [to_dict old_job; to_dict listed_job; to_dict new_job]) None)
    (fun _ => noon_1_june_2024) 0 [].

(** * Properties *)

Local Open Scope py_scope.

(** ** Timestamps

    The text of some instants, as the standard library writes and reads
    them. *)

Example isoformat_samples :
  isoformat 63852840000000000 = "2024-06-01T12:00:00"
  /\ isoformat 63852840000000005 = "2024-06-01T12:00:00.000005"
  /\ isoformat 63844847999999999 = "2024-02-29T23:59:59.999999"
  /\ isoformat 63082195200000000 = "1999-12-31T00:00:00"
  /\ isoformat 63087487628000000 = "2000-03-01T06:07:08"
  /\ isoformat 0 = "0001-01-01T00:00:00"
  /\ isoformat datetime_max = "9999-12-31T23:59:59.999999".
Proof. vm_compute. repeat split; reflexivity. Qed.

Example fromisoformat_samples :
  fromisoformat_canonical "2024-06-01T12:00:00" = Some noon_1_june_2024
  /\ fromisoformat_canonical "2020-01-01T00:00:00" = Some 63713433600000000%Z
  /\ fromisoformat_canonical "2024-05-20T09:30:00" = Some 63851794200000000%Z
  /\ fromisoformat_canonical "2024-02-29T23:59:59.999999" = Some 63844847999999999%Z
  /\ fromisoformat_canonical "2023-02-29T00:00:00" = None
  /\ fromisoformat_canonical "yesterday" = None.
Proof. vm_compute. repeat split; reflexivity. Qed.

(** ** The store *)

Lemma load_seen_jobs_tracked (w : world files) :
  _load_seen_jobs w = (Ok (tracked w), w).
Proof.
  unfold _load_seen_jobs, tracked, bind, get_dev. simpl.
  destruct (seen_file (dev w)); reflexivity.
Qed.

Lemma exists_tracked (job : Job) (w : world files) :
  exists_ job w = (Ok (bool_decide (is_Some (tracked w !! job_url job))), w).
Proof.
  unfold exists_, bind. rewrite load_seen_jobs_tracked. reflexivity.
Qed.

Lemma mark_all_lookup (current_time : string) (jobs : list Job)
    (seen_jobs : gmap string string) (url : string) :
  mark_all current_time jobs seen_jobs !! url
  = if bool_decide (url ∈ map job_url jobs) then Some current_time
    else seen_jobs !! url.
Proof.
  unfold mark_all. revert seen_jobs.
  induction jobs as [|job jobs IH]; intros seen_jobs; simpl.
  - reflexivity.
  - rewrite IH.
    destruct (decide (url ∈ map job_url jobs)) as [Hin|Hnin].
    + rewrite !bool_decide_eq_true_2; [reflexivity|apply elem_of_cons; auto|exact Hin].
    + rewrite (bool_decide_eq_false_2 _ Hnin), lookup_insert.
      destruct (decide (job_url job = url)) as [Heq|Hne].
      * rewrite bool_decide_eq_true_2; [reflexivity|apply elem_of_cons; auto].
      * rewrite bool_decide_eq_false_2; [reflexivity|].
        intros [?|?]%elem_of_cons; congruence.
Qed.

Lemma tracked_seen_file (w : world files) (seen_jobs : gmap string string) :
  seen_file (dev w) = Some seen_jobs -> tracked w = seen_jobs.
Proof. unfold tracked. intros ->. reflexivity. Qed.

Section StoreFacts.

Variable retention_days : Z.
Variable fromisoformat : string -> option Z.

Lemma is_newer_within (now_ cutoff_date : Z) (ts : string) :
  cutoff_from retention_days now_ = Ok cutoff_date ->
  is_newer fromisoformat cutoff_date ts
  = within_window retention_days fromisoformat now_ ts.
Proof using Type.
  unfold is_newer, newer_than, within_window, cutoff_from. intros H.
  destruct (fromisoformat ts); [|reflexivity].
  destruct (timedelta_days retention_days); [|discriminate].
  rewrite H. reflexivity.
Qed.

(** The three ways [_update_seen_jobs] ends: the cutoff overflows, a
    timestamp cannot be read, or the pruned mapping is written.  The clock
    is read twice in each. *)
Lemma update_seen_jobs_run (jobs : list Job) (w : world files) :
  _update_seen_jobs retention_days fromisoformat jobs w
  = match cutoff_from retention_days (clock w (S (ticks w))) with
    | Raise e => (Raise e, World (dev w) (clock w) (S (S (ticks w))) (log w))
    | Ok cutoff_date =>
        match retain_recent fromisoformat cutoff_date (marked jobs w) with
        | Raise e => (Raise e, World (dev w) (clock w) (S (S (ticks w))) (log w))
        | Ok kept =>
            (Ok tt,
             World (mkFiles (output_file (dev w)) (Some kept)) (clock w)
               (S (S (ticks w))) (log w ++ [(DEBUG, UpdatedSeenJobs (size kept))]))
        end
    end.
Proof using Type.
  unfold _update_seen_jobs. unfold bind at 1. rewrite load_seen_jobs_tracked.
  unfold bind at 1, now at 1. cbn [dev clock ticks log].
  unfold bind at 1, cutoff, bind at 1, now at 1, lift at 1. cbn [dev clock ticks log].
  destruct (cutoff_from retention_days (clock w (S (ticks w)))) as [cutoff_date|e];
    [|reflexivity].
  unfold bind at 1, lift at 1, marked.
  destruct (retain_recent fromisoformat cutoff_date _) as [kept|e]; reflexivity.
Qed.

Lemma retain_recent_lookup (cutoff_date : Z) (seen_jobs kept : gmap string string) :
  retain_recent fromisoformat cutoff_date seen_jobs = Ok kept ->
  forall url ts,
    kept !! url = Some ts
    <-> seen_jobs !! url = Some ts /\ is_newer fromisoformat cutoff_date ts = true.
Proof using Type.
  unfold retain_recent. case_bool_decide; [|discriminate].
  intros [= <-] url ts. apply map_lookup_filter_Some.
Qed.

(** Marking the retained mapping again with the same time and pruning it
    with the same cutoff gives it back. *)
Lemma retain_recent_again (cutoff_date : Z) (current_time : string) (jobs : list Job)
    (seen_jobs kept : gmap string string) :
  retain_recent fromisoformat cutoff_date (mark_all current_time jobs seen_jobs) = Ok kept ->
  retain_recent fromisoformat cutoff_date (mark_all current_time jobs kept) = Ok kept.
Proof using Type.
  intros Hkept. pose proof (retain_recent_lookup _ _ _ Hkept) as Hlookup.
  revert Hkept. unfold retain_recent.
  case_bool_decide as Hall; [|discriminate]. intros _.
  rewrite bool_decide_eq_true_2.
  - f_equal. apply map_eq. intros url. apply option_eq. intros ts.
    rewrite map_lookup_filter_Some. cbn [snd].
    rewrite mark_all_lookup, Hlookup, mark_all_lookup.
    case_bool_decide; [tauto|]. rewrite Hlookup, mark_all_lookup.
    rewrite bool_decide_eq_false_2 by assumption. tauto.
  - apply map_Forall_lookup. intros url ts.
    rewrite mark_all_lookup. case_bool_decide as Hin.
    + intros [= <-]. apply (map_Forall_lookup_1 _ _ url _ Hall).
      rewrite mark_all_lookup, bool_decide_eq_true_2 by exact Hin. reflexivity.
    + intros [Hts _]%Hlookup. apply (map_Forall_lookup_1 _ _ url _ Hall), Hts.
Qed.

(** C1 (amended). [exists] answers by key alone: it returns true exactly
    when the seen-jobs mapping has an entry for the job's URL, whatever the
    entry's age, and changes nothing.  An entry older than the retention
    window leaves the mapping at the next normal return of
    [_update_seen_jobs], whose result holds exactly the marked entries that
    are within the window at its second reading of the clock. *)
Theorem exists_ignores_retention (job : Job) (w : world files) :
  (exists b, exists_ job w = (Ok b, w)
     /\ (b = true <-> exists ts, tracked w !! job_url job = Some ts))
  /\ (forall jobs w',
        _update_seen_jobs retention_days fromisoformat jobs w = (Ok tt, w') ->
        forall url ts,
          tracked w' !! url = Some ts <->
          marked jobs w !! url = Some ts
          /\ within_window retention_days fromisoformat (clock w (S (ticks w))) ts = true).
Proof using Type.
  split.
  - eexists. split; [apply exists_tracked|].
    rewrite bool_decide_eq_true. unfold is_Some. reflexivity.
  - intros jobs w'. rewrite update_seen_jobs_run.
    destruct (cutoff_from retention_days (clock w (S (ticks w)))) as [c|e] eqn:Hc;
      [|discriminate].
    destruct (retain_recent fromisoformat c (marked jobs w)) as [kept|e] eqn:Hkept;
      [|discriminate].
    intros [= <-] url ts. unfold tracked at 1. cbn [dev seen_file].
    rewrite (retain_recent_lookup _ _ _ Hkept), (is_newer_within _ c ts Hc).
    reflexivity.
Qed.

(** C7. When the clock reads the same at the second marking as at the
    first, marking the same records twice ends as marking them once ended
    and leaves the same seen-jobs mapping, hence the same set of keys. *)
Theorem update_seen_jobs_idempotent (jobs : list Job) (w : world files) :
  clock w (S (S (ticks w))) = clock w (ticks w) ->
  clock w (S (S (S (ticks w)))) = clock w (S (ticks w)) ->
  fst (_update_seen_jobs retention_days fromisoformat jobs
         (snd (_update_seen_jobs retention_days fromisoformat jobs w)))
  = fst (_update_seen_jobs retention_days fromisoformat jobs w)
  /\ tracked (snd (_update_seen_jobs retention_days fromisoformat jobs
                    (snd (_update_seen_jobs retention_days fromisoformat jobs w))))
     = tracked (snd (_update_seen_jobs retention_days fromisoformat jobs w))
  /\ dom (tracked (snd (_update_seen_jobs retention_days fromisoformat jobs
                         (snd (_update_seen_jobs retention_days fromisoformat jobs w)))))
     = dom (tracked (snd (_update_seen_jobs retention_days fromisoformat jobs w))).
Proof using Type.
  intros Hnow Hcut.
  assert (Hboth :
    fst (_update_seen_jobs retention_days fromisoformat jobs
           (snd (_update_seen_jobs retention_days fromisoformat jobs w)))
    = fst (_update_seen_jobs retention_days fromisoformat jobs w)
    /\ tracked (snd (_update_seen_jobs retention_days fromisoformat jobs
                      (snd (_update_seen_jobs retention_days fromisoformat jobs w))))
       = tracked (snd (_update_seen_jobs retention_days fromisoformat jobs w))).
  2: { destruct Hboth as [Hr Ht]. rewrite Ht. auto. }
  rewrite (update_seen_jobs_run jobs w). unfold marked, tracked.
  destruct (cutoff_from retention_days (clock w (S (ticks w)))) as [c|e] eqn:Hc.
  - destruct (retain_recent fromisoformat c _) as [kept|e] eqn:Hkept.
    + cbn [snd fst]. rewrite update_seen_jobs_run. unfold marked, tracked.
      cbn [clock ticks dev log seen_file].
      rewrite Hcut, Hc, Hnow, (retain_recent_again _ _ _ _ _ Hkept).
      split; reflexivity.
    + cbn [snd fst]. rewrite update_seen_jobs_run. unfold marked, tracked.
      cbn [clock ticks dev log seen_file].
      rewrite Hcut, Hc, Hnow, Hkept. split; reflexivity.
  - cbn [snd fst]. rewrite update_seen_jobs_run. cbn [clock ticks dev log].
    rewrite Hcut, Hc. split; reflexivity.
Qed.

End StoreFacts.

(** C1 (as stated) fails: the URL marked on 2020-01-01 is reported as seen
    on 1 June 2024 under a retention of 30 days, although the entry is not
    within the retention window. *)
Lemma exists_sees_expired_entry :
  fst (exists_ stale_job stale_world) = Ok true
  /\ spec_isSeen 30 fromisoformat_canonical (clock stale_world (ticks stale_world))
       (tracked stale_world) (job_url stale_job) = false.
Proof. split; vm_compute; reflexivity. Qed.

(** The expired entry is gone after the next marking. *)
Lemma exists_ignores_retention_witness :
  exists w',
    _update_seen_jobs 30 fromisoformat_canonical [new_job] stale_world = (Ok tt, w')
    /\ fst (exists_ stale_job stale_world) = Ok true
    /\ tracked w' !! stale_url = None
    /\ tracked w' !! job_url new_job = Some "2024-06-01T12:00:00".
Proof.
  eexists. split; [vm_compute; reflexivity|].
  split; [vm_compute; reflexivity|].
  match goal with |- tracked ?w' !! _ = _ /\ _ =>
    pose proof (proj2 (exists_ignores_retention 30 fromisoformat_canonical stale_job
                         stale_world) [new_job] w') as Hlookup
  end.
  specialize (Hlookup ltac:(vm_compute; reflexivity)).
  split.
  - apply eq_None_not_Some. intros [ts Hts]. apply Hlookup in Hts.
    destruct Hts as [Hmark Hwin]. vm_compute in Hmark. injection Hmark as <-.
    vm_compute in Hwin. discriminate.
  - apply Hlookup. split; vm_compute; reflexivity.
Defined.

(** The same marking, done twice at one clock reading: both return
    normally, with the same keys. *)
Lemma update_seen_jobs_idempotent_witness :
  fst (_update_seen_jobs 30 fromisoformat_canonical [new_job] stale_world) = Ok tt
  /\ fst (_update_seen_jobs 30 fromisoformat_canonical [new_job]
            (snd (_update_seen_jobs 30 fromisoformat_canonical [new_job] stale_world)))
     = Ok tt
  /\ dom (tracked (snd (_update_seen_jobs 30 fromisoformat_canonical [new_job]
                          (snd (_update_seen_jobs 30 fromisoformat_canonical [new_job]
                                  stale_world)))))
     = dom (tracked (snd (_update_seen_jobs 30 fromisoformat_canonical [new_job]
                            stale_world))).
Proof.
  pose proof (update_seen_jobs_idempotent 30 fromisoformat_canonical [new_job]
                stale_world eq_refl eq_refl) as (Hr & _ & Hdom).
  assert (H1 : fst (_update_seen_jobs 30 fromisoformat_canonical [new_job] stale_world)
               = Ok tt) by (vm_compute; reflexivity).
  split; [exact H1|]. split; [rewrite Hr; exact H1|exact Hdom].
Defined.
(** ** Records and files *)

Lemma from_dict_to_dict {D} (job : Job) (w : world D) :
  from_dict (to_dict job) w = (Ok job, w).
Proof.
  destruct job as [t c l cl sc u pd sa jt de s].
  unfold from_dict. vm_compute.
  destruct pd, sa, jt, de; reflexivity.
Qed.

Lemma load_written {D} (jobs : list Job) (w : world D) :
  map_m from_dict (map to_dict jobs) w = (Ok jobs, w).
Proof.
  induction jobs as [|job jobs IH]; simpl.
  - reflexivity.
  - unfold bind. rewrite from_dict_to_dict, IH. reflexivity.
Qed.

Section FileFacts.

Variable retention_days : Z.
Variable fromisoformat : string -> option Z.

(** [_update_seen_jobs] leaves the records file alone, however it ends. *)
Lemma update_seen_jobs_output (jobs : list Job) (w : world files) :
  output_file (dev (snd (_update_seen_jobs retention_days fromisoformat jobs w)))
  = output_file (dev w).
Proof using Type.
  rewrite update_seen_jobs_run.
  destruct (cutoff_from retention_days _) as [c|e]; [|reflexivity].
  destruct (retain_recent fromisoformat c _) as [kept|e]; reflexivity.
Qed.

(** [save] once the stored records are read. *)
Lemma save_run (jobs existing : list Job) (w w1 : world files) :
  load w = (Ok existing, w1) ->
  save retention_days fromisoformat jobs w
  = _update_seen_jobs retention_days fromisoformat jobs
      (World (mkFiles (Some (map to_dict (existing ++ jobs))) (seen_file (dev w1)))
         (clock w1) (ticks w1)
         (log w1 ++ [(INFO, SavedJobs (length jobs) (length (existing ++ jobs)))])).
Proof using Type.
  intros Hload. unfold save. unfold bind at 1. rewrite Hload. reflexivity.
Qed.

(** What [save] leaves in the records file, however the marking ends. *)
Lemma save_then_load (jobs existing : list Job) (w w1 : world files) :
  load w = (Ok existing, w1) ->
  load (snd (save retention_days fromisoformat jobs w))
  = (Ok (existing ++ jobs), snd (save retention_days fromisoformat jobs w)).
Proof using Type.
  intros Hload. rewrite (save_run jobs existing w w1 Hload).
  set (w2 := World _ _ _ _).
  pose proof (update_seen_jobs_output jobs w2) as Hout.
  destruct (_update_seen_jobs retention_days fromisoformat jobs w2) as [r w'].
  cbn [snd] in *. unfold load, bind, get_dev.
  rewrite Hout. subst w2. cbn [dev output_file].
  apply load_written.
Qed.

(** C9 (amended). The orchestrator's counters: [jobsFound] counts the
    accepted records, [jobsNew] counts those whose URL has no entry at
    all in the seen-jobs mapping when the run is finalized, so
    [0 <= jobsNew <= jobsFound]. *)
Theorem complete_run_counters (accepted : list Job) (w w' : world files)
    (jobs_found jobs_new : Z) :
  complete_run retention_days fromisoformat accepted w = (Ok (jobs_found, jobs_new), w') ->
  (0 <= jobs_new <= jobs_found)%Z
  /\ jobs_found = Z.of_nat (length accepted)
  /\ jobs_new
     = Z.of_nat (length (List.filter
         (fun job => bool_decide (tracked w !! job_url job = None)) accepted)).
Proof using Type.
  unfold complete_run. unfold bind at 1.
  assert (Hnew : forall jobs,
    filter_m (fun job => seen <- exists_ job ;; ret (negb seen)) jobs w
    = (Ok (List.filter (fun job => bool_decide (tracked w !! job_url job = None)) jobs), w)).
  { induction jobs as [|job jobs IH]; simpl; [reflexivity|].
    unfold bind at 1. unfold bind at 1. rewrite exists_tracked.
    unfold ret at 1. unfold bind at 1. rewrite IH. unfold ret.
    destruct (tracked w !! job_url job) as [ts|] eqn:Hts.
    - rewrite bool_decide_eq_true_2 by eauto. reflexivity.
    - rewrite bool_decide_eq_false_2 by (intros [? ?]; discriminate). reflexivity. }
  rewrite Hnew. unfold bind.
  destruct (save retention_days fromisoformat accepted w) as [[[]|e] w2]; [|discriminate].
  unfold ret. intros [= <- <- <-].
  split; [|split; reflexivity].
  pose proof (filter_length_le (fun job => bool_decide (tracked w !! job_url job = None))
                accepted). lia.
Qed.

End FileFacts.

(** C10. [Job.from_dict(job.to_dict())] is the job itself, field for
    field, and reads no clock; hence the records read back after a [save]
    are the records read before it followed by the saved ones, unchanged. *)
Theorem Job_dict_round_trip :
  (forall (D : Type) (job : Job) (w : world D), from_dict (to_dict job) w = (Ok job, w))
  /\ (forall retention_days fromisoformat (jobs existing : list Job) (w w1 : world files),
        load w = (Ok existing, w1) ->
        load (snd (save retention_days fromisoformat jobs w))
        = (Ok (existing ++ jobs), snd (save retention_days fromisoformat jobs w))).
Proof.
  split.
  - intros D job w. apply from_dict_to_dict.
  - intros. eapply save_then_load. eassumption.
Qed.

(** The two stored records and a saved third are read back as they were. *)
Lemma Job_dict_round_trip_witness :
  fst (load (snd (save 30 fromisoformat_canonical [stale_job] shelf_world)))
  = Ok [old_job; new_job; stale_job].
Proof.
  rewrite (proj2 Job_dict_round_trip 30%Z fromisoformat_canonical [stale_job]
             [old_job; new_job] shelf_world shelf_world).
  - reflexivity.
  - vm_compute. reflexivity.
Defined.

(** C2 (the code at the failing input). With a record of 2020 and a record
    of May 2024 on file, [cleanup_old_jobs] under a retention of 30 days on
    1 June 2024 returns 1 and leaves the old record on file, followed by a
    second copy of the recent one. *)
Theorem cleanup_old_jobs_keeps_old_record :
  fst (cleanup_old_jobs 30 fromisoformat_canonical shelf_world) = Ok 1%Z
  /\ output_file (dev (snd (cleanup_old_jobs 30 fromisoformat_canonical shelf_world)))
     = Some [to_dict old_job; to_dict new_job; to_dict new_job]
  /\ fst (load (snd (cleanup_old_jobs 30 fromisoformat_canonical shelf_world)))
     = Ok [old_job; new_job; new_job].
Proof. repeat split; vm_compute; reflexivity. Qed.

(** C9 (as stated) fails: the only accepted record has a URL whose entry
    expired years ago, so the specification's count of new records is 1,
    and the run counts 0. *)
Lemma complete_run_counts_expired_as_seen :
  fst (complete_run 30 fromisoformat_canonical [stale_job] stale_world) = Ok (1, 0)%Z
  /\ spec_jobs_new 30 fromisoformat_canonical (clock stale_world (ticks stale_world))
       (tracked stale_world) [stale_job] = 1%Z.
Proof. split; vm_compute; reflexivity. Qed.

(** A run accepting a tracked and an untracked URL. *)
Lemma complete_run_counters_witness :
  exists w',
    complete_run 30 fromisoformat_canonical [stale_job; new_job] stale_world
    = (Ok (2, 1)%Z, w')
    /\ (0 <= 1 <= 2)%Z.
Proof.
  eexists. split.
  - vm_compute. reflexivity.
  - eapply (complete_run_counters 30 fromisoformat_canonical [stale_job; new_job]
              stale_world _ 2 1).
    vm_compute. reflexivity.
Defined.

(** ** The filter *)

Lemma append_cons (c : ascii) (s rest : string) :
  String c s +:+ rest = String c (s +:+ rest).
Proof. reflexivity. Qed.

Lemma prefix_split (s1 s2 : string) :
  String.prefix s1 s2 = true <-> exists rest, s2 = s1 +:+ rest.
Proof.
  revert s2. induction s1 as [|a s1 IH]; intros s2; simpl.
  - destruct s2; simpl; split; eauto.
  - destruct s2 as [|b s2]; simpl.
    + split; [discriminate|]. intros [rest H]. rewrite append_cons in H. discriminate.
    + destruct (ascii_dec a b) as [->|Hne].
      * rewrite IH. split; intros [rest H]; exists rest;
          rewrite append_cons in *; congruence.
      * split; [discriminate|]. intros [rest H]. rewrite append_cons in H. congruence.
Qed.

Lemma contains_unfold (needle haystack : string) :
  contains needle haystack
  = if String.prefix needle haystack then true
    else match haystack with
         | EmptyString => false
         | String _ rest => contains needle rest
         end.
Proof. destruct haystack; reflexivity. Qed.

Lemma contains_substring (needle haystack : string) :
  contains needle haystack = true <-> substring_of needle haystack.
Proof.
  unfold substring_of. split.
  - induction haystack as [|c rest IH]; rewrite contains_unfold;
      destruct (String.prefix needle _) eqn:Hp.
    + intros _. apply prefix_split in Hp. destruct Hp as [after Ha].
      exists EmptyString, after. exact Ha.
    + discriminate.
    + intros _. apply prefix_split in Hp. destruct Hp as [after Ha].
      exists EmptyString, after. exact Ha.
    + intros H. destruct (IH H) as (before & after & ->).
      exists (String c before), after. reflexivity.
  - intros (before & after & ->).
    induction before as [|c before IH]; rewrite contains_unfold.
    + replace (String.prefix needle _) with true; [reflexivity|].
      symmetry. apply prefix_split. eauto.
    + rewrite append_cons, IH.
      destruct (String.prefix needle _); reflexivity.
Qed.

Lemma existsb_substring (lower : string -> string) (text : string) (l : list string) :
  existsb (fun excluded => contains (lower excluded) (lower text)) l = true
  <-> exists excluded, In excluded l /\ substring_of (lower excluded) (lower text).
Proof.
  rewrite existsb_exists.
  split; intros (x & Hin & H); exists x; split; auto; apply contains_substring; exact H.
Qed.

Lemma find_existsb {A} (f : A -> bool) (l : list A) :
  match find f l with
  | Some x => In x l /\ f x = true /\ existsb f l = true
  | None => existsb f l = false
  end.
Proof.
  induction l as [|a l IH]; simpl; [reflexivity|].
  destruct (f a) eqn:Hfa; simpl; [auto|].
  destruct (find f l); [|exact IH]. tauto.
Qed.

Section FilterFacts.

Context {doc : Type}.
Variable py : Text.
Variable self : SeekScraper.

Lemma accepts_false (job : Job) :
  accepts py self job = false
  <-> rejected_by_subcategory py self job
      \/ rejected_by_keywords py job
      \/ rejected_by_company py self job.
Proof using Type.
  unfold accepts, rejected_by_subcategory, rejected_by_keywords, rejected_by_company.
  rewrite negb_false_iff, !orb_true_iff, andb_true_iff.
  rewrite !existsb_substring, !contains_substring. tauto.
Qed.

(** The run of [_should_include_job]: its verdict and the one record it
    logs. *)
Lemma should_include_job_run (job : Job) (w : world doc) :
  exists events,
    _should_include_job py self job w
    = (Ok (accepts py self job),
       World (dev w) (clock w) (ticks w) (log w ++ events))
    /\ (rejected_by_subcategory py self job ->
        exists excluded, In excluded self.(excluded_subcategories)
          /\ substring_of (py.(lower) excluded) (py.(lower) (subcategory job))
          /\ events = [(DEBUG, ExcludedBySubcategory excluded (title job))])
    /\ (~ rejected_by_subcategory py self job -> rejected_by_keywords py job ->
        events = [(DEBUG, ExcludedByKeyword (title job) (company job))])
    /\ (~ rejected_by_subcategory py self job -> ~ rejected_by_keywords py job ->
        rejected_by_company py self job ->
        exists excluded, In excluded self.(excluded_companies)
          /\ substring_of (py.(lower) excluded) (py.(lower) (company job))
          /\ events = [(DEBUG, ExcludedByCompany excluded (title job) (company job))])
    /\ (~ rejected_by_subcategory py self job -> ~ rejected_by_keywords py job ->
        ~ rejected_by_company py self job ->
        events = []).
Proof using Type.
  unfold _should_include_job, accepts, matches_in.
  pose proof (find_existsb
    (fun excluded => contains (py.(lower) excluded) (py.(lower) (subcategory job)))
    self.(excluded_subcategories)) as Ha.
  pose proof (find_existsb
    (fun excluded => contains (py.(lower) excluded) (py.(lower) (company job)))
    self.(excluded_companies)) as Hc.
  pose proof (existsb_substring py.(lower) (subcategory job)
                self.(excluded_subcategories)) as Sa.
  pose proof (existsb_substring py.(lower) (company job) self.(excluded_companies)) as Sc.
  fold (rejected_by_subcategory py self job) in Sa.
  fold (rejected_by_company py self job) in Sc.
  destruct (find _ self.(excluded_subcategories)) as [ex|].
  - destruct Ha as (Hin & Hm & He). rewrite He. cbn.
    exists [(DEBUG, ExcludedBySubcategory ex (title job))].
    split; [reflexivity|].
    assert (rejected_by_subcategory py self job) by (apply Sa; exact He).
    repeat split; try tauto.
    intros _. exists ex. apply contains_substring in Hm. auto.
  - rewrite Ha. cbn [orb].
    assert (Hna : ~ rejected_by_subcategory py self job)
      by (rewrite <- Sa, Ha; discriminate).
    assert (Sb : contains "recruitment" (py.(lower) (company job))
                 && contains "agency" (py.(lower) (company job)) = true
                 <-> rejected_by_keywords py job).
    { unfold rejected_by_keywords. rewrite andb_true_iff, !contains_substring. tauto. }
    destruct (contains "recruitment" (py.(lower) (company job))
              && contains "agency" (py.(lower) (company job))).
    + cbn. exists [(DEBUG, ExcludedByKeyword (title job) (company job))].
      assert (rejected_by_keywords py job) by (apply Sb; reflexivity).
      repeat split; tauto.
    + assert (Hnb : ~ rejected_by_keywords py job) by (rewrite <- Sb; discriminate).
      cbn [orb]. destruct (find _ self.(excluded_companies)) as [ex|].
      * destruct Hc as (Hin & Hm & He). rewrite He. cbn.
        exists [(DEBUG, ExcludedByCompany ex (title job) (company job))].
        assert (rejected_by_company py self job) by (apply Sc; exact He).
        repeat split; try tauto.
        intros _ _ _. exists ex. apply contains_substring in Hm. auto.
      * rewrite Hc. cbn. exists [].
        assert (~ rejected_by_company py self job) by (rewrite <- Sc, Hc; discriminate).
        rewrite app_nil_r. destruct w. repeat split; tauto.
Qed.

(** C3. [_should_include_job] returns false exactly when one of the
    three checks matches -- (a) excluded sub-category, (b) both keywords
    in the company name, (c) excluded company -- and the record it logs
    names the first check that matched, in that order; it returns true,
    logging nothing, when none matches.  Where [py.(lower)] lower-cases ASCII
    text as Python does, the company "Acme Recruitment Agency Pty Ltd" is
    rejected by check (b) whatever the exclusion lists hold, and check (b)
    does not match "Acme Recruiting". *)
Theorem should_include_job_checks (job : Job) (w : world doc) :
  (forall s, is_ascii s = true -> py.(lower) s = lower_ascii s) ->
  (exists verdict events,
      _should_include_job py self job w
      = (Ok verdict, World (dev w) (clock w) (ticks w) (log w ++ events))
      /\ (verdict = false
          <-> rejected_by_subcategory py self job
              \/ rejected_by_keywords py job
              \/ rejected_by_company py self job)
      /\ (rejected_by_subcategory py self job ->
          exists excluded, In excluded self.(excluded_subcategories)
            /\ substring_of (py.(lower) excluded) (py.(lower) (subcategory job))
            /\ events = [(DEBUG, ExcludedBySubcategory excluded (title job))])
      /\ (~ rejected_by_subcategory py self job -> rejected_by_keywords py job ->
          events = [(DEBUG, ExcludedByKeyword (title job) (company job))])
      /\ (~ rejected_by_subcategory py self job -> ~ rejected_by_keywords py job ->
          rejected_by_company py self job ->
          exists excluded, In excluded self.(excluded_companies)
            /\ substring_of (py.(lower) excluded) (py.(lower) (company job))
            /\ events = [(DEBUG, ExcludedByCompany excluded (title job) (company job))])
      /\ (~ rejected_by_subcategory py self job -> ~ rejected_by_keywords py job ->
          ~ rejected_by_company py self job ->
          verdict = true /\ events = []))
  /\ (company job = "Acme Recruitment Agency Pty Ltd" ->
      rejected_by_keywords py job /\ fst (_should_include_job py self job w) = Ok false)
  /\ (company job = "Acme Recruiting" -> ~ rejected_by_keywords py job).
Proof using Type.
  intros Hlower.
  destruct (should_include_job_run job w) as (events & Hrun & Ha & Hb & Hc & Hnone).
  pose proof (accepts_false job) as Hverdict.
  split; [|split].
  - exists (accepts py self job), events.
    split; [exact Hrun|]. clear Hrun.
    split; [exact Hverdict|].
    split; [exact Ha|]. split; [exact Hb|]. split; [exact Hc|].
    intros Hna Hnb Hnc. split; [|auto].
    destruct (accepts py self job);
      [reflexivity|].
    destruct (proj1 Hverdict eq_refl) as [?|[?|?]]; contradiction.
  - intros Hcompany.
    assert (Hk : rejected_by_keywords py job).
    { unfold rejected_by_keywords. rewrite Hcompany, Hlower by reflexivity.
      rewrite <- !contains_substring. split; reflexivity. }
    split; [exact Hk|]. rewrite Hrun. cbn [fst]. f_equal. apply Hverdict. auto.
  - intros Hcompany. unfold rejected_by_keywords.
    rewrite Hcompany, Hlower by reflexivity.
    rewrite <- !contains_substring. intros [H _]. discriminate.
Qed.

End FilterFacts.

(** The two companies of the example, with empty exclusion lists: check (b)
    alone rejects the first and lets the second through. *)
Lemma should_include_job_checks_witness :
  fst (_should_include_job ascii_text (seek_scraper 20)
         (mkJob "Consultant" "Acme Recruitment Agency Pty Ltd" "Sydney" "HR" "Unknown"
            "https://www.seek.com.au/job/7" None None None None "2024-06-01T12:00:00")
         crawl_world)
  = Ok false
  /\ fst (_should_include_job ascii_text (seek_scraper 20)
         (mkJob "Consultant" "Acme Recruiting" "Sydney" "HR" "Unknown"
            "https://www.seek.com.au/job/8" None None None None "2024-06-01T12:00:00")
         crawl_world)
     = Ok true.
Proof.
  split.
  - apply (should_include_job_checks ascii_text (seek_scraper 20) _ _
             (fun s _ => eq_refl)).
    reflexivity.
  - destruct (should_include_job_checks ascii_text (seek_scraper 20)
      (mkJob "Consultant" "Acme Recruiting" "Sydney" "HR" "Unknown"
         "https://www.seek.com.au/job/8" None None None None "2024-06-01T12:00:00")
      crawl_world (fun s _ => eq_refl))
      as ((verdict & events & Hrun & _ & _ & _ & _ & Hnone) & _ & Hb).
    rewrite Hrun. cbn [fst]. f_equal. apply Hnone.
    + intros (ex & [] & _).
    + apply Hb. reflexivity.
    + intros (ex & [] & _).
Defined.
(** ** Running the monad *)

Lemma bind_ret {D A B} (a : A) (k : A -> M D B) (w : world D) :
  (x <- ret a ;; k x) w = k a w.
Proof. reflexivity. Qed.

Lemma bind_lift {D A B} (r : result A) (k : A -> M D B) (w : world D) :
  (x <- lift r ;; k x) w
  = match r with Ok a => k a w | Raise e => (Raise e, w) end.
Proof. unfold bind, lift. destruct r; reflexivity. Qed.

Lemma bind_logger {D B} (l : level) (m : message) (k : unit -> M D B) (w : world D) :
  (x <- logger l m ;; k x) w = k tt (logged w l m).
Proof. reflexivity. Qed.

Lemma bind_now {D B} (k : Z -> M D B) (w : world D) :
  (t <- now ;; k t) w
  = k (clock w (ticks w)) (World (dev w) (clock w) (S (ticks w)) (log w)).
Proof. reflexivity. Qed.

Lemma bind_page_query {doc A B} (f : doc -> result A) (k : A -> M doc B) (w : world doc) :
  (x <- page_query f ;; k x) w
  = match f (dev w) with Ok a => k a w | Raise e => (Raise e, w) end.
Proof. unfold bind, page_query. destruct (f (dev w)); reflexivity. Qed.

Lemma bind_page_action {doc B} (f : doc -> result unit * doc) (k : unit -> M doc B)
    (w : world doc) :
  (x <- page_action f ;; k x) w
  = match fst (f (dev w)) with
    | Ok a => k a (set_dev w (snd (f (dev w))))
    | Raise e => (Raise e, set_dev w (snd (f (dev w))))
    end.
Proof. unfold bind, page_action. destruct (f (dev w)) as [[a|e] d]; reflexivity. Qed.

Lemma bind_assoc {D A B C} (m : M D A) (k : A -> M D B) (h : B -> M D C) (w : world D) :
  (y <- (x <- m ;; k x) ;; h y) w = (x <- m ;; y <- k x ;; h y) w.
Proof. unfold bind. destruct (m w) as [[a|e] w1]; reflexivity. Qed.

(** ** Relations every step of a computation keeps *)

Definition respects {D A} (R : world D -> world D -> Prop) (m : M D A) : Prop :=
  forall w, R w (snd (m w)).

Definition preorder {D} (R : world D -> world D -> Prop) : Prop :=
  (forall w, R w w) /\ (forall w1 w2 w3, R w1 w2 -> R w2 w3 -> R w1 w3).

Section Respects.

Context {D : Type}.
Variable R : world D -> world D -> Prop.
Hypothesis R_preorder : preorder R.

Lemma respects_ret {A} (a : A) : respects R (ret a).
Proof using R_preorder. intros w. apply R_preorder. Qed.

Lemma respects_raise {A} (e : exn) : respects R (@raise D A e).
Proof using R_preorder. intros w. apply R_preorder. Qed.

Lemma respects_lift {A} (r : result A) : respects R (lift r).
Proof using R_preorder. intros w. apply R_preorder. Qed.

Lemma respects_bind {A B} (m : M D A) (k : A -> M D B) :
  respects R m -> (forall a, respects R (k a)) -> respects R (bind m k).
Proof using R_preorder.
  intros Hm Hk w. unfold bind. specialize (Hm w).
  destruct (m w) as [[a|e] w1]; cbn [snd] in *; [|exact Hm].
  eapply (proj2 R_preorder); [exact Hm|apply Hk].
Qed.

Lemma respects_try_except {A} (body : M D A) (handler : exn -> M D A) :
  respects R body -> (forall e, respects R (handler e)) ->
  respects R (try_except body handler).
Proof using R_preorder.
  intros Hm Hk w. unfold try_except. specialize (Hm w).
  destruct (body w) as [[a|e] w1]; cbn [snd] in *; [exact Hm|].
  eapply (proj2 R_preorder); [exact Hm|apply Hk].
Qed.

Lemma respects_try_except_timeout {A} (body handler : M D A) :
  respects R body -> respects R handler ->
  respects R (try_except_timeout body handler).
Proof using R_preorder.
  intros Hm Hk. apply respects_try_except; [exact Hm|].
  intros []; first [exact Hk | apply respects_raise].
Qed.

End Respects.

(** The page shown stays the same. *)
Definition same_page {doc} (w w' : world doc) : Prop := dev w' = dev w.

(** No page is added to the pages scraped. *)
Definition same_pages {D} (w w' : world D) : Prop :=
  pages_scraped (log w') = pages_scraped (log w).

Lemma pages_scraped_logged {D} (w : world D) (l : level) (m : message) :
  pages_scraped (log (logged w l m))
  = (pages_scraped (log w) + if is_scraping_page (l, m) then 1 else 0)%nat.
Proof.
  unfold pages_scraped, logged. cbn [log].
  rewrite List.filter_app, length_app. cbn [List.filter].
  destruct (is_scraping_page (l, m)); reflexivity.
Qed.

Lemma same_page_preorder {doc} : preorder (@same_page doc).
Proof. unfold same_page. split; congruence. Qed.

Lemma same_pages_preorder {D} : preorder (@same_pages D).
Proof. unfold same_pages. split; congruence. Qed.

Lemma same_page_logger {doc} (l : level) (m : message) :
  respects (@same_page doc) (logger l m).
Proof. intros w. reflexivity. Qed.

Lemma same_page_query {doc A} (f : doc -> result A) :
  respects same_page (page_query f).
Proof. intros w. reflexivity. Qed.

Lemma same_page_now {doc} : respects (@same_page doc) now.
Proof. intros w. reflexivity. Qed.

Lemma same_pages_logger {D} (l : level) (m : message) :
  is_scraping_page (l, m) = false -> respects (@same_pages D) (logger l m).
Proof.
  intros H w. unfold same_pages. cbn [snd logger].
  rewrite pages_scraped_logged, H. lia.
Qed.

Lemma same_pages_query {doc A} (f : doc -> result A) :
  respects same_pages (page_query f).
Proof. intros w. reflexivity. Qed.

Lemma same_pages_action {doc} (f : doc -> result unit * doc) :
  respects same_pages (page_action f).
Proof. intros w. unfold page_action. destruct (f (dev w)). reflexivity. Qed.

Lemma same_pages_now {D} : respects (@same_pages D) now.
Proof. intros w. reflexivity. Qed.

(** Splits a goal [respects R m] along the shape of [m]. *)
Ltac respects_steps order leaf :=
  repeat first
    [ apply respects_bind; [solve [order]| |intros ?]
    | apply respects_ret; solve [order]
    | apply respects_raise; solve [order]
    | apply respects_lift; solve [order]
    | apply respects_try_except; [solve [order]| |intros ?]
    | apply respects_try_except_timeout; [solve [order]| |]
    | leaf
    | match goal with
      | |- respects _ (match ?x with _ => _ end) => destruct x
      end ].

Ltac same_page_steps :=
  respects_steps ltac:(apply same_page_preorder)
    ltac:(first [ apply same_page_logger | apply same_page_query | apply same_page_now ]).

Ltac same_pages_steps :=
  respects_steps ltac:(apply same_pages_preorder)
    ltac:(first [ apply same_pages_logger; reflexivity | apply same_pages_query
                | apply same_pages_action | apply same_pages_now ]).

Section CrawlFacts.

Context {doc elem : Type}.
Variable page : PageFetcher doc elem.
Variable py : Text.
Variable self : SeekScraper.

(** *** Field lookups *)

Lemma query_first_None (card : elem) (selectors : list string) (d : doc) :
  query_first page card selectors d = Ok None <-> no_hit page card selectors d.
Proof using Type.
  unfold no_hit. induction selectors as [|selector rest IH]; simpl.
  - split; [constructor|reflexivity].
  - rewrite Forall_cons_iff, <- IH.
    destruct (card_query_selector page card selector d) as [[found|]|e].
    + split; [discriminate|intros [H _]; discriminate].
    + split; [intros H; split; [reflexivity|exact H]|intros [_ H]; exact H].
    + split; [discriminate|intros [H _]; discriminate].
Qed.

Lemma query_first_Some (card : elem) (selectors : list string) (d : doc) (found : elem) :
  query_first page card selectors d = Ok (Some found)
  <-> first_hit page card selectors d found.
Proof using Type.
  unfold first_hit, no_hit. induction selectors as [|selector rest IH]; simpl.
  - split; [discriminate|].
    intros (before & s & after & H & _). destruct before; discriminate.
  - split.
    + destruct (card_query_selector page card selector d) as [[x|]|e] eqn:Hq;
        [| |discriminate].
      * intros [= ->]. exists [], selector, rest. repeat split; [constructor|exact Hq].
      * intros H. apply IH in H. destruct H as (before & s & after & -> & Hno & Hs).
        exists (selector :: before), s, after.
        repeat split; [constructor; assumption|exact Hs].
    + intros (before & s & after & Heq & Hno & Hs).
      destruct before as [|b before]; simpl in Heq; injection Heq as -> ->.
      * rewrite Hs. reflexivity.
      * apply Forall_cons_iff in Hno. destruct Hno as [Hb Hno]. rewrite Hb.
        apply IH. eauto 6.
Qed.

Lemma field_resolved {V} (card : elem) (selectors : list string) (wrap : string -> V)
    (fallback : V) (d : doc) (x : option elem) (value : V) :
  query_first page card selectors d = Ok x ->
  text_or page py wrap fallback x d = Ok value ->
  resolved page py card selectors wrap fallback d value.
Proof using Type.
  intros Hq Ht. destruct x as [found|]; simpl in Ht.
  - left. destruct (inner_text page found d) as [text|e] eqn:Htext; [|discriminate].
    injection Ht as <-. exists found, text.
    split; [apply query_first_Some, Hq|auto].
  - right. injection Ht as <-. split; [apply query_first_None, Hq|reflexivity].
Qed.

(** *** Extraction of one card *)

Lemma extract_same_page (card : elem) :
  respects same_page (_extract_job_data page py self card).
Proof using Type.
  unfold _extract_job_data, Job_init. same_page_steps.
Qed.

Lemma extract_never_raises (card : elem) (w : world doc) :
  exists outcome w',
    _extract_job_data page py self card w = (Ok outcome, w') /\ dev w' = dev w.
Proof using Type.
  pose proof (extract_same_page card w) as Hsame. unfold same_page in Hsame.
  destruct (_extract_job_data page py self card w) as [[outcome|e] w'] eqn:Hrun.
  - eauto.
  - exfalso. revert Hrun. unfold _extract_job_data, try_except.
    destruct (bind _ _ w) as [[o|e'] w1]; discriminate.
Qed.

Lemma extract_no_title (card : elem) (w : world doc) :
  query_first page card title_selectors (dev w) = Ok None ->
  _extract_job_data page py self card w = (Ok None, logged w DEBUG NoTitleElement).
Proof using Type.
  intros Hq. unfold _extract_job_data, try_except.
  rewrite bind_page_query, Hq. reflexivity.
Qed.


(** C8. Whenever a card yields a record, each of its optional fields is
    what the ordered list of selectors of that field resolves to: the
    stripped text of the element found by the first selector that finds
    one, and the field's fallback when no selector finds anything --
    "Unknown" for company, location and sub-category, "Recently" for the
    posted date, [None] for salary and description. *)
Theorem extract_fields_resolved (card : elem) (w w' : world doc) (job : Job) :
  _extract_job_data page py self card w = (Ok (Some job), w') ->
  resolved page py card company_selectors id "Unknown" (dev w) (company job)
  /\ resolved page py card location_selectors id "Unknown" (dev w) (location job)
  /\ resolved page py card salary_selectors Some None (dev w) (salary job)
  /\ resolved page py card subcategory_selectors id "Unknown" (dev w)
       (subcategory job)
  /\ resolved page py card posted_selectors Some (Some "Recently") (dev w)
       (posted_date job)
  /\ resolved page py card description_selectors Some None (dev w)
       (description job).
Proof using Type.
  unfold _extract_job_data, try_except.
  destruct (bind _ _ w) as [[outcome|e] w1] eqn:Hbody; [|discriminate].
  intros [= -> ->]. revert Hbody.
  rewrite bind_page_query.
  destruct (query_first page card title_selectors (dev w)) as [[title_elem|]|e];
    [|discriminate..].
  rewrite bind_page_query.
  destruct (inner_text page title_elem (dev w)) as [text|e]; [|discriminate].
  rewrite bind_page_query.
  destruct (get_attribute page title_elem "href" (dev w)) as [[href|]|e];
    [|discriminate..].
  destruct (truthy (Some href)); [|discriminate].
  rewrite bind_lift.
  destruct (py.(urljoin) self.(base_url) href) as [url|e]; [|discriminate].
  rewrite bind_page_query.
  destruct (query_first page card company_selectors (dev w)) as [x1|e] eqn:Q1;
    [|discriminate].
  rewrite bind_page_query.
  destruct (text_or page py id "Unknown" x1 (dev w)) as [v1|e] eqn:V1; [|discriminate].
  rewrite bind_page_query.
  destruct (query_first page card location_selectors (dev w)) as [x2|e] eqn:Q2;
    [|discriminate].
  rewrite bind_page_query.
  destruct (text_or page py id "Unknown" x2 (dev w)) as [v2|e] eqn:V2; [|discriminate].
  rewrite bind_page_query.
  destruct (query_first page card salary_selectors (dev w)) as [x3|e] eqn:Q3;
    [|discriminate].
  rewrite bind_page_query.
  destruct (text_or page py Some None x3 (dev w)) as [v3|e] eqn:V3; [|discriminate].
  rewrite bind_page_query.
  destruct (query_first page card subcategory_selectors (dev w)) as [x4|e] eqn:Q4;
    [|discriminate].
  rewrite bind_page_query.
  destruct (text_or page py id "Unknown" x4 (dev w)) as [v4|e] eqn:V4; [|discriminate].
  rewrite bind_page_query.
  destruct (query_first page card posted_selectors (dev w)) as [x5|e] eqn:Q5;
    [|discriminate].
  rewrite bind_page_query.
  destruct (text_or page py Some (Some "Recently") x5 (dev w)) as [v5|e] eqn:V5;
    [|discriminate].
  rewrite bind_page_query.
  destruct (query_first page card description_selectors (dev w)) as [x6|e] eqn:Q6;
    [|discriminate].
  rewrite bind_page_query.
  destruct (text_or page py Some None x6 (dev w)) as [v6|e] eqn:V6; [|discriminate].
  unfold Job_init, bind, now, ret. intros [= <- _]. cbn.
  repeat split; eapply field_resolved; eassumption.
Qed.

(** *** The cards of a page *)

Lemma should_include_accepted (job : Job) (w : world doc) :
  exists w',
    _should_include_job py self job w = (Ok (accepts py self job), w') /\ dev w' = dev w.
Proof using Type.
  destruct (should_include_job_run py self job w)
    as (events & Hrun & _).
  eexists. split; [exact Hrun|reflexivity].
Qed.

(** One turn of the loop over the cards: the card's outcome is added when
    it is a record the filter accepts, and the loop goes on with the
    remaining cards on the same page. *)
Lemma cards_loop_step (card : elem) (rest : list elem) (jobs : list Job)
    (w : world doc) :
  exists outcome w1 w2,
    _extract_job_data page py self card w = (Ok outcome, w1)
    /\ dev w2 = dev w
    /\ scrape_cards page py self (card :: rest) jobs w
       = scrape_cards page py self rest
           (jobs ++ List.filter (accepts py self) (option_list outcome)) w2.
Proof using Type.
  destruct (extract_never_raises card w) as (outcome & w1 & Hrun & Hdev).
  exists outcome, w1. cbn [scrape_cards].
  unfold bind at 1. unfold try_except. unfold bind at 1. rewrite Hrun.
  destruct outcome as [job|]; unfold option_list, option_rect; cbn [List.filter].
  - destruct (should_include_accepted job w1) as (w2 & Hinc & Hdev2).
    unfold bind at 1. rewrite Hinc.
    destruct (accepts py self job).
    + exists w2. split; [reflexivity|]. split; [congruence|reflexivity].
    + exists (logged w2 DEBUG (ExcludedJob (title job) (subcategory job))).
      rewrite app_nil_r. split; [reflexivity|]. split; [cbn; congruence|reflexivity].
  - exists w1. rewrite app_nil_r. split; [reflexivity|]. split; [exact Hdev|reflexivity].
Qed.

Lemma cards_loop_returns (job_cards : list elem) (jobs : list Job) (w : world doc) :
  exists found w',
    scrape_cards page py self job_cards jobs w = (Ok (jobs ++ found), w') /\ dev w' = dev w.
Proof using Type.
  revert jobs w. induction job_cards as [|card rest IH]; intros jobs w.
  - exists [], w. rewrite app_nil_r. split; reflexivity.
  - destruct (cards_loop_step card rest jobs w) as (outcome & w1 & w2 & _ & Hdev & ->).
    destruct (IH (jobs ++ List.filter (accepts py self) (option_list outcome)) w2)
      as (found & w' & -> & Hdev').
    exists (List.filter (accepts py self) (option_list outcome) ++ found), w'.
    rewrite app_assoc. split; [reflexivity|congruence].
Qed.

Lemma cards_loop_skip (card : elem) (rest : list elem) (jobs : list Job)
    (w : world doc) :
  query_first page card title_selectors (dev w) = Ok None ->
  scrape_cards page py self (card :: rest) jobs w
  = scrape_cards page py self rest jobs (logged w DEBUG NoTitleElement).
Proof using Type.
  intros Hq. cbn [scrape_cards].
  unfold bind at 1. unfold try_except. unfold bind at 1.
  rewrite (extract_no_title _ _ Hq). reflexivity.
Qed.

Lemma cards_loop_yield (card : elem) (rest : list elem) (jobs : list Job)
    (w : world doc) :
  yields_record page py self (dev w) card ->
  exists job w',
    dev w' = dev w
    /\ scrape_cards page py self (card :: rest) jobs w
       = scrape_cards page py self rest (jobs ++ List.filter (accepts py self) [job]) w'.
Proof using Type.
  intros Hy. destruct (Hy w eq_refl) as (job & w1 & Hrun).
  destruct (cards_loop_step card rest jobs w) as (outcome & w1' & w2 & Hrun' & Hdev & Heq).
  rewrite Hrun in Hrun'. injection Hrun' as <- <-.
  exists job, w2. split; [exact Hdev|exact Heq].
Qed.

(** *** The outcomes of the cards, one by one *)











(** [_scrape_page] once the listings have shown up. *)
Lemma scrape_page_listed (w : world doc) (d' : doc) (job_cards : list elem) :
  wait_for_selector page listing_selector 10000 (dev w) = (Ok tt, d') ->
  query_selector_all page listing_selector d' = Ok job_cards ->
  _scrape_page page py self w
  = scrape_cards page py self job_cards []
      (logged (set_dev w d') DEBUG (FoundJobCards (length job_cards))).
Proof using Type.
  intros Hwait Hall. unfold _scrape_page, try_except_timeout, try_except.
  unfold bind at 1. rewrite bind_page_action, Hwait. cbn [fst snd ret].
  rewrite bind_page_query. cbn [dev set_dev]. rewrite Hall. reflexivity.
Qed.


(** *** Pages *)

Lemma should_include_same_pages (job : Job) :
  respects same_pages (@_should_include_job doc py self job).
Proof using Type. unfold _should_include_job. same_pages_steps. Qed.

Lemma extract_same_pages (card : elem) :
  respects same_pages (_extract_job_data page py self card).
Proof using Type. unfold _extract_job_data, Job_init. same_pages_steps. Qed.

Lemma cards_loop_same_pages (job_cards : list elem) (jobs : list Job) :
  respects same_pages (scrape_cards page py self job_cards jobs).
Proof using Type.
  revert jobs. induction job_cards as [|card rest IH]; intros jobs; cbn [scrape_cards].
  - same_pages_steps.
  - same_pages_steps; [apply should_include_same_pages|apply IH].
Qed.

Lemma scrape_page_same_pages : respects same_pages (_scrape_page page py self).
Proof using Type. unfold _scrape_page. same_pages_steps; apply cards_loop_same_pages. Qed.

Lemma try_selectors_same_pages (selectors : list string) :
  respects same_pages (try_selectors page selectors).
Proof using Type.
  induction selectors as [|selector rest IH]; cbn [try_selectors].
  - same_pages_steps.
  - same_pages_steps; apply IH.
Qed.

Lemma goto_next_page_same_pages : respects same_pages (_goto_next_page page).
Proof using Type.
  unfold _goto_next_page. same_pages_steps; apply try_selectors_same_pages.
Qed.

Lemma goto_next_page_returns (w : world doc) :
  exists more w', _goto_next_page page w = (Ok more, w').
Proof using Type.
  unfold _goto_next_page, try_except.
  destruct (try_selectors page next_selectors w) as [[more|e] w1]; cbn; eauto.
Qed.

(** The lookup does not answer true while every control found is
    hidden. *)
Lemma try_selectors_hidden (selectors : list string) (w : world doc) :
  (forall selector button,
      In selector selectors ->
      query_selector page selector (dev w) = Ok (Some button) ->
      is_visible page button (dev w) <> Ok true) ->
  fst (try_selectors page selectors w) <> Ok true.
Proof using Type.
  revert w. induction selectors as [|selector rest IH]; intros w Hhidden;
    cbn [try_selectors].
  - cbn. discriminate.
  - rewrite bind_logger, bind_page_query. cbn [dev logged].
    destruct (query_selector page selector (dev w)) as [[button|]|e] eqn:Hq.
    + rewrite bind_logger, bind_page_query. cbn [dev logged].
      destruct (is_visible page button (dev w)) as [[|]|e] eqn:Hv.
      * exfalso. apply (Hhidden selector button); auto. left. reflexivity.
      * rewrite bind_logger. apply IH. cbn [dev logged].
        intros s b Hin. apply Hhidden. right. exact Hin.
      * cbn. discriminate.
    + apply IH. cbn [dev logged].
      intros s b Hin. apply Hhidden. right. exact Hin.
    + cbn. discriminate.
Qed.

Lemma goto_next_page_hidden (w : world doc) :
  hides_next page (dev w) -> exists w', _goto_next_page page w = (Ok false, w').
Proof using Type.
  intros Hhidden. pose proof (try_selectors_hidden next_selectors w Hhidden) as Hno.
  unfold _goto_next_page, try_except.
  destruct (try_selectors page next_selectors w) as [[[|]|e] w1]; cbn in *; eauto.
  congruence.
Qed.

(** The lookup answers true, on the page loaded by the click, when it
    ends at a visible control whose activation succeeds. *)
Lemma try_selectors_visible (selectors : list string) (d d1 d2 : doc) (button : elem) :
  finds_visible page d selectors button ->
  click page button d = (Ok tt, d1) ->
  wait_for_load_state page "domcontentloaded" d1 = (Ok tt, d2) ->
  forall w, dev w = d -> exists w', try_selectors page selectors w = (Ok true, w').
Proof using Type.
  intros Hfinds Hclick Hload.
  induction Hfinds as [selector rest button Hq Hv
                      |selector rest button Hq _ IH
                      |selector rest hidden button Hq Hv _ IH];
    intros w <-; cbn [try_selectors]; unfold time_sleep;
    rewrite bind_logger, bind_page_query; cbn [dev logged]; rewrite Hq.
  - rewrite bind_logger, bind_page_query. cbn [dev logged]. rewrite Hv.
    rewrite !bind_logger, bind_page_action. cbn [dev logged]. rewrite Hclick.
    cbn [fst snd]. rewrite bind_page_action. cbn [dev set_dev]. rewrite Hload.
    cbn [fst snd]. rewrite bind_page_action. cbn [fst snd]. eauto.
  - apply IH; [exact Hclick|reflexivity].
  - rewrite bind_logger, bind_page_query. cbn [dev logged]. rewrite Hv.
    rewrite bind_logger. apply IH; [exact Hclick|reflexivity].
Qed.

Lemma goto_next_page_exposed (w : world doc) :
  exposes_next page (dev w) -> exists w', _goto_next_page page w = (Ok true, w').
Proof using Type.
  intros (button & d1 & d2 & Hfinds & Hclick & Hload).
  destruct (try_selectors_visible _ _ _ _ _ Hfinds Hclick Hload w eq_refl) as [w' Hrun].
  unfold _goto_next_page, try_except. rewrite Hrun. eauto.
Qed.

(** [_scrape_page] when the wait for the listings times out. *)
Lemma scrape_page_timeout (w : world doc) (d' : doc) :
  wait_for_selector page listing_selector 10000 (dev w) = (Raise PlaywrightTimeout, d') ->
  _scrape_page page py self w
  = (Ok [], logged (set_dev w d') WARNING TimeoutWaitingForListings).
Proof using Type.
  intros Hwait. unfold _scrape_page, try_except_timeout, try_except.
  unfold bind at 1. rewrite bind_page_action, Hwait. reflexivity.
Qed.

Lemma scrape_page_answers (w : world doc) :
  listing_answers page (dev w) ->
  exists jobs w', _scrape_page page py self w = (Ok jobs, w').
Proof using Type.
  unfold listing_answers.
  destruct (wait_for_selector page listing_selector 10000 (dev w)) as [[[]|e] d'] eqn:Hwait.
  - intros [job_cards Hall]. rewrite (scrape_page_listed w d' job_cards Hwait Hall).
    destruct (cards_loop_returns job_cards []
                (logged (set_dev w d') DEBUG (FoundJobCards (length job_cards))))
      as (found & w' & Hrun & _).
    eauto.
  - destruct e; try contradiction. intros _.
    rewrite (scrape_page_timeout w d' Hwait). eauto.
Qed.

(** One turn of the loop over the pages. *)
Lemma loop_turn (remaining : nat) (page_num : Z) (jobs : list Job) (w : world doc) :
  scrape_loop page py self (S remaining) page_num jobs w
  = match _scrape_page page py self (logged w INFO (ScrapingPage page_num)) with
    | (Raise e, w1) => (Raise e, w1)
    | (Ok page_jobs, w1) =>
        match _goto_next_page page
                (logged w1 INFO (FoundJobsOnPage (length page_jobs) page_num)) with
        | (Raise e, w2) => (Raise e, w2)
        | (Ok true, w2) =>
            scrape_loop page py self remaining (page_num + 1)%Z (jobs ++ page_jobs)
              (set_dev w2 (sleep page 2 (dev w2)))
        | (Ok false, w2) => (Ok (jobs ++ page_jobs), logged w2 INFO NoMorePages)
        end
    end.
Proof using Type.
  cbn [scrape_loop]. rewrite bind_logger. unfold bind at 1.
  destruct (_scrape_page page py self _) as [[page_jobs|e] w1]; [|reflexivity].
  rewrite bind_logger. unfold bind at 1.
  destruct (_goto_next_page page _) as [[[|]|e] w2]; reflexivity.
Qed.

Lemma loop_bound (remaining : nat) (page_num : Z) (jobs : list Job) (w : world doc) :
  (pages_scraped (log (snd (scrape_loop page py self remaining page_num jobs w)))
   <= pages_scraped (log w) + remaining)%nat.
Proof using Type.
  revert page_num jobs w. induction remaining as [|remaining IH]; intros page_num jobs w.
  - cbn. lia.
  - rewrite loop_turn.
    pose proof (pages_scraped_logged w INFO (ScrapingPage page_num)) as H0.
    cbn [is_scraping_page] in H0.
    pose proof (scrape_page_same_pages (logged w INFO (ScrapingPage page_num))) as H1.
    unfold same_pages in H1.
    destruct (_scrape_page page py self _) as [[page_jobs|e] w1]; cbn [snd] in *; [|lia].
    pose proof (goto_next_page_same_pages
                  (logged w1 INFO (FoundJobsOnPage (length page_jobs) page_num))) as H2.
    unfold same_pages in H2. rewrite pages_scraped_logged in H2. cbn in H2.
    destruct (_goto_next_page page _) as [[[|]|e] w2]; cbn [snd] in *.
    + specialize (IH (page_num + 1)%Z (jobs ++ page_jobs)
                     (set_dev w2 (sleep page 2 (dev w2)))).
      cbn [log set_dev] in IH. lia.
    + rewrite pages_scraped_logged. cbn. lia.
    + lia.
Qed.

Lemma extracts_length (n : nat) (page_num : Z) (w w' : world doc)
    (pages : list (list Job)) :
  extracts page py self n page_num w pages w' -> length pages = n.
Proof using Type. induction 1; cbn [length]; congruence. Qed.

(** How the loop ends, whatever the fetcher does: it extracts some pages,
    no more than it is allowed, and then is left through its condition,
    through an exception of [_scrape_page], or through the [break] behind
    one more page. *)
Lemma loop_ends (remaining : nat) (page_num : Z) (jobs : list Job) (w : world doc) :
  exists n pages wn,
    (n <= remaining)%nat
    /\ extracts page py self n page_num w pages wn
    /\ ((n = remaining
         /\ scrape_loop page py self remaining page_num jobs w
            = (Ok (jobs ++ concat pages), wn))
        \/ ((n < remaining)%nat
            /\ exists e w1,
                 _scrape_page page py self
                   (logged wn INFO (ScrapingPage (page_num + Z.of_nat n)))
                 = (Raise e, w1)
                 /\ scrape_loop page py self remaining page_num jobs w = (Raise e, w1))
        \/ ((n < remaining)%nat
            /\ exists page_jobs w1 w2,
                 _scrape_page page py self
                   (logged wn INFO (ScrapingPage (page_num + Z.of_nat n)))
                 = (Ok page_jobs, w1)
                 /\ _goto_next_page page
                      (logged w1 INFO
                         (FoundJobsOnPage (length page_jobs) (page_num + Z.of_nat n)))
                    = (Ok false, w2)
                 /\ scrape_loop page py self remaining page_num jobs w
                    = (Ok (jobs ++ concat pages ++ page_jobs),
                       logged w2 INFO NoMorePages))).
Proof using Type.
  revert page_num jobs w. induction remaining as [|remaining IH]; intros page_num jobs w.
  - exists 0%nat, [], w. split; [lia|]. split; [constructor|].
    left. split; [reflexivity|]. cbn. unfold ret. rewrite app_nil_r. reflexivity.
  - rewrite loop_turn.
    destruct (_scrape_page page py self (logged w INFO (ScrapingPage page_num)))
      as [[page_jobs|e] w1] eqn:Hpage.
    + destruct (_goto_next_page page
                  (logged w1 INFO (FoundJobsOnPage (length page_jobs) page_num)))
        as [[[|]|e] w2] eqn:Hgo.
      * destruct (IH (page_num + 1)%Z (jobs ++ page_jobs)
                    (set_dev w2 (sleep page 2 (dev w2))))
          as (n & pages & wn & Hn & Hex & Hend).
        exists (S n), (page_jobs :: pages), wn.
        split; [lia|]. split; [econstructor; eassumption|].
        replace (page_num + Z.of_nat (S n))%Z with (page_num + 1 + Z.of_nat n)%Z by lia.
        cbn [concat]. rewrite <- !app_assoc in *.
        destruct Hend as [[-> Hrun]|[[Hlt Hrun]|[Hlt Hrun]]].
        -- left. split; [reflexivity|exact Hrun].
        -- right. left. split; [lia|exact Hrun].
        -- right. right. split; [lia|].
           destruct Hrun as (last_jobs & w3 & w4 & Hlast & Hstop & Hrun).
           exists last_jobs, w3, w4.
           split; [exact Hlast|]. split; [exact Hstop|].
           rewrite Hrun, <- !app_assoc. reflexivity.
      * exists 0%nat, [], w. split; [lia|]. split; [constructor|].
        right. right. split; [lia|].
        rewrite Z.add_0_r. exists page_jobs, w1, w2.
        split; [exact Hpage|]. split; [exact Hgo|reflexivity].
      * exfalso. destruct (goto_next_page_returns
                             (logged w1 INFO (FoundJobsOnPage (length page_jobs) page_num)))
          as (more & w2' & Hret).
        congruence.
    + exists 0%nat, [], w. split; [lia|]. split; [constructor|].
      right. left. split; [lia|].
      rewrite Z.add_0_r. exists e, w1. split; [exact Hpage|reflexivity].
Qed.

Lemma loop_hidden (remaining : nat) (page_num : Z) (jobs : list Job) (w : world doc) :
  (forall d, hides_next page d) ->
  pages_scraped (log (snd (scrape_loop page py self (S remaining) page_num jobs w)))
  = (pages_scraped (log w) + 1)%nat
  /\ (forall e w1,
        _scrape_page page py self (logged w INFO (ScrapingPage page_num)) = (Raise e, w1) ->
        scrape_loop page py self (S remaining) page_num jobs w = (Raise e, w1))
  /\ (listing_answers page (dev w) ->
      exists page_jobs w1 w2,
        _scrape_page page py self (logged w INFO (ScrapingPage page_num))
        = (Ok page_jobs, w1)
        /\ _goto_next_page page
             (logged w1 INFO (FoundJobsOnPage (length page_jobs) page_num))
           = (Ok false, w2)
        /\ scrape_loop page py self (S remaining) page_num jobs w
           = (Ok (jobs ++ page_jobs), logged w2 INFO NoMorePages)).
Proof using Type.
  intros Hhidden. rewrite loop_turn.
  pose proof (pages_scraped_logged w INFO (ScrapingPage page_num)) as H0.
  cbn [is_scraping_page] in H0.
  pose proof (scrape_page_same_pages (logged w INFO (ScrapingPage page_num))) as H1.
  unfold same_pages in H1.
  pose proof (scrape_page_answers (logged w INFO (ScrapingPage page_num))) as Hans.
  destruct (_scrape_page page py self _) as [[page_jobs|e] w1]; cbn [snd] in *.
  - pose proof (goto_next_page_same_pages
                  (logged w1 INFO (FoundJobsOnPage (length page_jobs) page_num))) as H2.
    unfold same_pages in H2. rewrite pages_scraped_logged in H2. cbn in H2.
    destruct (goto_next_page_hidden
                (logged w1 INFO (FoundJobsOnPage (length page_jobs) page_num))
                (Hhidden _)) as [w2 Hgo].
    rewrite Hgo in *. cbn [snd fst] in *. rewrite pages_scraped_logged. cbn.
    split; [lia|]. split; [discriminate|].
    intros _. exists page_jobs, w1, w2. auto.
  - split; [lia|]. split; [intros e' w1' [= <- <-]; reflexivity|].
    intros Hl. destruct (Hans Hl) as (? & ? & [=]).
Qed.

Lemma loop_exposed (remaining : nat) (page_num : Z) (jobs : list Job) (w : world doc) :
  (forall d, exposes_next page d) ->
  (forall d, listing_answers page d) ->
  exists pages w',
    extracts page py self remaining page_num w pages w'
    /\ scrape_loop page py self remaining page_num jobs w = (Ok (jobs ++ concat pages), w')
    /\ pages_scraped (log w') = (pages_scraped (log w) + remaining)%nat.
Proof using Type.
  intros Hnext Hlist. revert page_num jobs w.
  induction remaining as [|remaining IH]; intros page_num jobs w.
  - exists [], w. split; [constructor|].
    cbn. unfold ret. rewrite app_nil_r. split; [reflexivity|lia].
  - rewrite loop_turn.
    pose proof (pages_scraped_logged w INFO (ScrapingPage page_num)) as H0.
    cbn [is_scraping_page] in H0.
    pose proof (scrape_page_same_pages (logged w INFO (ScrapingPage page_num))) as H1.
    unfold same_pages in H1.
    destruct (scrape_page_answers (logged w INFO (ScrapingPage page_num)) (Hlist _))
      as (page_jobs & w1 & Hpage).
    rewrite Hpage in *. cbn [snd] in H1.
    pose proof (goto_next_page_same_pages
                  (logged w1 INFO (FoundJobsOnPage (length page_jobs) page_num))) as H2.
    unfold same_pages in H2. rewrite pages_scraped_logged in H2. cbn in H2.
    destruct (goto_next_page_exposed
                (logged w1 INFO (FoundJobsOnPage (length page_jobs) page_num))
                (Hnext _)) as [w2 Hgo].
    rewrite Hgo in *. cbn [snd] in H2.
    destruct (IH (page_num + 1)%Z (jobs ++ page_jobs)
                (set_dev w2 (sleep page 2 (dev w2))))
      as (pages & w' & Hex & Hrun & Hcount).
    exists (page_jobs :: pages), w'.
    split; [econstructor; eassumption|].
    split; [rewrite Hrun; cbn [concat]; rewrite <- app_assoc; reflexivity|].
    cbn [log set_dev] in Hcount. lia.
Qed.

(** C4. The loop over the pages is a total function.  Against any fetcher
    it extracts no more than [max_pages] pages: it calls [_scrape_page] on
    some number of pages, each followed by a move to the next page, and
    then ends -- through its condition after [max_pages] pages, through an
    exception of [_scrape_page], or through the [break] behind one more
    page -- with the records of the pages extracted as its result.  For
    [max_pages >= 1], against a fetcher that never exposes a visible
    next-page control the run is one call of [_scrape_page], on page 1,
    whose records it returns; against a fetcher that always exposes one --
    with an activation that loads the next page and listings that answer
    -- the run extracts exactly [max_pages] pages, and returns their
    records in the order of the pages. *)
Theorem scrape_loop_pages (max_pages : Z) (w : world doc) :
  (1 <= max_pages)%Z ->
  let run := scrape_loop page py self (Z.to_nat max_pages) 1%Z [] w in
  ((pages_scraped (log (snd run)) <= pages_scraped (log w) + Z.to_nat max_pages)%nat
   /\ exists n pages wn,
        (n <= Z.to_nat max_pages)%nat
        /\ extracts page py self n 1%Z w pages wn
        /\ ((n = Z.to_nat max_pages /\ run = (Ok (concat pages), wn))
            \/ ((n < Z.to_nat max_pages)%nat
                /\ exists e w1,
                     _scrape_page page py self
                       (logged wn INFO (ScrapingPage (1 + Z.of_nat n)))
                     = (Raise e, w1)
                     /\ run = (Raise e, w1))
            \/ ((n < Z.to_nat max_pages)%nat
                /\ exists page_jobs w1 w2,
                     _scrape_page page py self
                       (logged wn INFO (ScrapingPage (1 + Z.of_nat n)))
                     = (Ok page_jobs, w1)
                     /\ _goto_next_page page
                          (logged w1 INFO
                             (FoundJobsOnPage (length page_jobs) (1 + Z.of_nat n)))
                        = (Ok false, w2)
                     /\ run = (Ok (concat pages ++ page_jobs),
                               logged w2 INFO NoMorePages))))
  /\ ((forall d, hides_next page d) ->
      pages_scraped (log (snd run)) = (pages_scraped (log w) + 1)%nat
      /\ (forall e w1,
            _scrape_page page py self (logged w INFO (ScrapingPage 1)) = (Raise e, w1) ->
            run = (Raise e, w1))
      /\ (listing_answers page (dev w) ->
          exists page_jobs w1 w2,
            _scrape_page page py self (logged w INFO (ScrapingPage 1)) = (Ok page_jobs, w1)
            /\ _goto_next_page page
                 (logged w1 INFO (FoundJobsOnPage (length page_jobs) 1))
               = (Ok false, w2)
            /\ run = (Ok page_jobs, logged w2 INFO NoMorePages)))
  /\ ((forall d, exposes_next page d) ->
      (forall d, listing_answers page d) ->
      exists pages w',
        extracts page py self (Z.to_nat max_pages) 1%Z w pages w'
        /\ length pages = Z.to_nat max_pages
        /\ run = (Ok (concat pages), w')
        /\ pages_scraped (log w') = (pages_scraped (log w) + Z.to_nat max_pages)%nat).
Proof using Type.
  intros Hmax run. subst run. split; [split|split].
  - apply loop_bound.
  - apply (loop_ends (Z.to_nat max_pages) 1%Z [] w).
  - intros Hhidden.
    destruct (Z.to_nat max_pages) as [|remaining] eqn:Hn; [lia|].
    apply (loop_hidden remaining 1%Z [] w Hhidden).
  - intros Hnext Hlist.
    destruct (loop_exposed (Z.to_nat max_pages) 1%Z [] w Hnext Hlist)
      as (pages & w' & Hex & Hrun & Hcount).
    exists pages, w'. split; [exact Hex|].
    split; [exact (extracts_length _ _ _ _ _ Hex)|].
    split; [exact Hrun|exact Hcount].
Qed.

(** C5 (amended). When the wait for the listings container times out,
    [_scrape_page] returns the empty list without raising.  The run does
    not stop on that account: it records zero jobs for the page and looks
    for the next-page control as after any other page, going on to the
    next page when the control is found. *)
Theorem listing_timeout_continues (w : world doc) (d' : doc) :
  wait_for_selector page listing_selector 10000 (dev w) = (Raise PlaywrightTimeout, d') ->
  _scrape_page page py self w
  = (Ok [], logged (set_dev w d') WARNING TimeoutWaitingForListings)
  /\ forall remaining page_num jobs,
      scrape_loop page py self (S remaining) page_num jobs w
      = match _goto_next_page page
                (logged (logged (set_dev (logged w INFO (ScrapingPage page_num)) d')
                           WARNING TimeoutWaitingForListings)
                   INFO (FoundJobsOnPage 0 page_num)) with
        | (Raise e, w2) => (Raise e, w2)
        | (Ok true, w2) =>
            scrape_loop page py self remaining (page_num + 1)%Z jobs
              (set_dev w2 (sleep page 2 (dev w2)))
        | (Ok false, w2) => (Ok jobs, logged w2 INFO NoMorePages)
        end.
Proof using Type.
  intros Hwait. split; [apply scrape_page_timeout, Hwait|].
  intros remaining page_num jobs. rewrite loop_turn.
  rewrite (scrape_page_timeout (logged w INFO (ScrapingPage page_num)) d' Hwait).
  cbn [length]. rewrite app_nil_r. reflexivity.
Qed.

End CrawlFacts.

(** *** The run around the loop *)

Section RunFacts.

Context {doc elem : Type}.
Variable page : PageFetcher doc elem.
Variable py : Text.
Variable self : SeekScraper.

Lemma settings_run (w : world doc) :
  exists w', log_settings self w = (Ok tt, w')
    /\ dev w' = dev w /\ pages_scraped (log w') = pages_scraped (log w).
Proof using Type.
  unfold log_settings. rewrite bind_logger.
  destruct self.(subclassification_ids) as [ids|]; [destruct (truthy (Some ids))|];
    rewrite bind_logger; eexists; (split; [reflexivity|]); split; try reflexivity;
    cbn [logger snd]; rewrite !pages_scraped_logged; cbn; lia.
Qed.

Lemma launch_browser_same_pages : respects same_pages (_launch_browser page self).
Proof using Type.
  unfold _launch_browser.
  destruct (String.eqb self.(browser_type) "firefox"); [apply same_pages_action|].
  destruct (String.eqb self.(browser_type) "webkit"); apply same_pages_action.
Qed.

Lemma open_page_same_pages : respects same_pages (open_search_page page py self).
Proof using Type.
  unfold open_search_page, _set_page_defaults, time_sleep. same_pages_steps.
Qed.

(** Once the browser is launched and the search page is open, [scrape]
    scrapes the pages its loop scrapes, starting at page 1 with
    [self.(max_pages)] turns allowed. *)
Lemma scrape_runs_loop (w w0 w1 : world doc) :
  (log_settings self ;; _launch_browser page self) w = (Ok tt, w0) ->
  open_search_page page py self w0 = (Ok tt, w1) ->
  pages_scraped (log w1) = pages_scraped (log w)
  /\ pages_scraped (log (snd (scrape page py self w)))
     = pages_scraped
         (log (snd (scrape_loop page py self (Z.to_nat self.(max_pages)) 1%Z [] w1))).
Proof using Type.
  intros Hstart Hopen.
  destruct (settings_run w) as (ws & Hs & _ & Hcount).
  pose proof (launch_browser_same_pages ws) as Hl.
  pose proof (open_page_same_pages w0) as Ho.
  unfold same_pages in Hl, Ho.
  revert Hstart. unfold bind at 1. rewrite Hs. intros Hstart.
  rewrite Hstart in Hl. rewrite Hopen in Ho. cbn [snd] in Hl, Ho.
  split; [congruence|].
  unfold scrape. unfold bind at 1. rewrite Hs.
  unfold bind at 1. rewrite Hstart.
  unfold bind at 1, try_finally, bind at 1. rewrite Hopen.
  destruct (scrape_loop page py self (Z.to_nat self.(max_pages)) 1%Z [] w1) as [r w2].
  cbn [snd].
  pose proof (same_pages_action (close page) w2) as Hc. unfold same_pages in Hc.
  destruct (page_action (close page) w2) as [[[]|e] w3]; cbn [snd] in *;
    [|exact Hc].
  destruct r as [jobs|e]; [|exact Hc].
  rewrite bind_logger. cbn [ret snd]. rewrite pages_scraped_logged. cbn. lia.
Qed.

End RunFacts.
(** ** The properties on the scripted sites *)

Lemma mock_listing_answers (site : nat -> mock_page) (d : nat) :
  listing_answers (mock_fetcher site) d.
Proof.
  unfold listing_answers. cbn.
  destruct (listing_timeout (site d)); [exact I|eauto].
Qed.

Lemma endless_site_exposes_next (d : nat) : exposes_next (mock_fetcher endless_site) d.
Proof.
  exists (Leaf (Tag "Next" None true)), (S d), (S d).
  split; [|split; reflexivity].
  unfold next_selectors.
  do 4 (apply finds_after_absent; [reflexivity|]).
  apply finds_here; reflexivity.
Qed.

Lemma last_page_site_hides_next (d : nat) : hides_next (mock_fetcher last_page_site) d.
Proof.
  intros selector button Hin Hq. unfold next_selectors in Hin.
  repeat (destruct Hin as [<-|Hin]; [vm_compute in Hq|]); try contradiction;
    first [ discriminate Hq | injection Hq as <-; vm_compute; discriminate ].
Qed.

(** Three pages allowed.  With the control hidden the run is the
    extraction of page 1, and returns the one record listed there; with
    the control always visible it extracts three pages, and returns the
    record of each. *)
Lemma scrape_loop_pages_witness :
  (exists page_jobs w1 w2,
      _scrape_page (mock_fetcher last_page_site) ascii_text (seek_scraper 3)
        (logged crawl_world INFO (ScrapingPage 1))
      = (Ok page_jobs, w1)
      /\ _goto_next_page (mock_fetcher last_page_site)
           (logged w1 INFO (FoundJobsOnPage (length page_jobs) 1))
         = (Ok false, w2)
      /\ scrape_loop (mock_fetcher last_page_site) ascii_text (seek_scraper 3)
           (Z.to_nat 3) 1 [] crawl_world
         = (Ok page_jobs, logged w2 INFO NoMorePages))
  /\ fst (scrape_loop (mock_fetcher last_page_site) ascii_text (seek_scraper 3)
            (Z.to_nat 3) 1 [] crawl_world)
     = Ok [plain_record]
  /\ (exists pages w',
        extracts (mock_fetcher endless_site) ascii_text (seek_scraper 3)
          (Z.to_nat 3) 1 crawl_world pages w'
        /\ length pages = Z.to_nat 3
        /\ scrape_loop (mock_fetcher endless_site) ascii_text (seek_scraper 3)
             (Z.to_nat 3) 1 [] crawl_world
           = (Ok (concat pages), w')
        /\ pages_scraped (log w') = 3%nat)
  /\ fst (scrape_loop (mock_fetcher endless_site) ascii_text (seek_scraper 3)
            (Z.to_nat 3) 1 [] crawl_world)
     = Ok [plain_record; plain_record; plain_record].
Proof.
  split; [|split; [|split]].
  - apply (scrape_loop_pages (mock_fetcher last_page_site) ascii_text (seek_scraper 3)
             3 crawl_world); [lia| |].
    + exact last_page_site_hides_next.
    + exact (mock_listing_answers last_page_site 0%nat).
  - vm_compute. reflexivity.
  - apply (scrape_loop_pages (mock_fetcher endless_site) ascii_text (seek_scraper 3)
             3 crawl_world); [lia| |].
    + exact endless_site_exposes_next.
    + exact (mock_listing_answers endless_site).
  - vm_compute. reflexivity.
Defined.

(** C5 (as stated) fails: the listings of the first page time out, and the
    run goes on to scrape the second and the third page. *)
Lemma listing_timeout_does_not_stop_run :
  fst (wait_for_selector (mock_fetcher timeout_site) listing_selector 10000
         (dev crawl_world))
  = Raise PlaywrightTimeout
  /\ fst (scrape_loop (mock_fetcher timeout_site) ascii_text (seek_scraper 3) 3 1 []
            crawl_world)
     = Ok []
  /\ pages_scraped
       (log (snd (scrape_loop (mock_fetcher timeout_site) ascii_text (seek_scraper 3)
                    3 1 [] crawl_world)))
     = 3%nat.
Proof. repeat split; vm_compute; reflexivity. Qed.

(** The page that times out gives the empty list. *)
Lemma listing_timeout_continues_witness :
  _scrape_page (mock_fetcher timeout_site) ascii_text (seek_scraper 3) crawl_world
  = (Ok [], logged (set_dev crawl_world 0%nat) WARNING TimeoutWaitingForListings).
Proof.
  apply (listing_timeout_continues (mock_fetcher timeout_site) ascii_text
           (seek_scraper 3) crawl_world 0%nat).
  reflexivity.
Defined.




(** The first card: company by the second selector, date by the fourth,
    fallbacks elsewhere. *)
Lemma extract_fields_resolved_witness :
  exists job w',
    _extract_job_data (mock_fetcher listing_site) ascii_text (seek_scraper 3) bolt_card
      crawl_world
    = (Ok (Some job), w')
    /\ company job = "Bolt"
    /\ location job = "Unknown"
    /\ posted_date job = Some "2d ago"
    /\ salary job = None
    /\ resolved (mock_fetcher listing_site) ascii_text bolt_card company_selectors
         id "Unknown" 0%nat (company job)
    /\ resolved (mock_fetcher listing_site) ascii_text bolt_card salary_selectors
         Some None 0%nat (salary job).
Proof.
  eexists _, _. split; [vm_compute; reflexivity|].
  repeat (split; [reflexivity|]).
  pose proof (extract_fields_resolved (mock_fetcher listing_site) ascii_text
                (seek_scraper 3) bolt_card crawl_world _ _ eq_refl) as H.
  split; [exact (proj1 H)|exact (proj1 (proj2 (proj2 H)))].
Defined.

(** A whole run over the site of three cards: one page, two records. *)
Example scrape_listing_site :
  exists w',
    scrape (mock_fetcher listing_site) ascii_text (seek_scraper 20) crawl_world
    = (Ok [bolt_record; plain_record], w')
    /\ log w'
       = [ (INFO, StartingScraper); (INFO, NoSubclassificationFilter 0);
           (INFO, ExcludingCompanies 0);
           (INFO, NavigatingTo
              "https://www.seek.com.au/jobs-in-human-resources-recruitment?daterange=3");
           (INFO, ScrapingPage 1); (DEBUG, FoundJobCards 3); (DEBUG, NoTitleElement);
           (INFO, FoundJobsOnPage 2 1) ]
         ++ map (fun selector => (DEBUG, TryingSelector selector)) next_selectors
         ++ [ (DEBUG, NoNextButton); (INFO, NoMorePages); (INFO, TotalJobsScraped 2) ].
Proof. eexists. split; vm_compute; reflexivity. Qed.
(** * Further properties of the code *)

(** ** Splitting text, and the identifier of a record *)

Lemma append_length (s1 s2 : string) :
  String.length (s1 +:+ s2) = (String.length s1 + String.length s2)%nat.
Proof. induction s1 as [|c s1 IH]; [reflexivity|]. rewrite append_cons. simpl. lia. Qed.

Lemma append_assoc (s1 s2 s3 : string) : (s1 +:+ s2) +:+ s3 = s1 +:+ s2 +:+ s3.
Proof.
  induction s1 as [|c s1 IH]; [reflexivity|]. rewrite !append_cons, IH. reflexivity.
Qed.

Lemma append_empty_r (s : string) : s +:+ EmptyString = s.
Proof. induction s as [|c s IH]; [reflexivity|]. rewrite append_cons, IH. reflexivity. Qed.

Lemma prefix_cons (c : ascii) (p s : string) :
  String.prefix (String c p) (String c s) = String.prefix p s.
Proof. simpl. destruct (ascii_dec c c); [reflexivity|contradiction]. Qed.

Lemma prefix_empty (s : string) : String.prefix EmptyString s = true.
Proof. destruct s; reflexivity. Qed.

Lemma prefix_transitive (s1 s2 s3 : string) :
  String.prefix s1 s2 = true -> String.prefix s2 s3 = true -> String.prefix s1 s3 = true.
Proof.
  rewrite !prefix_split. intros [r1 ->] [r2 ->]. exists (r1 +:+ r2). apply append_assoc.
Qed.

(** A text without [needle] has no prefix with [needle]. *)
Lemma contains_prefix (needle p s : string) :
  String.prefix p s = true -> contains needle s = false -> contains needle p = false.
Proof.
  intros [rest ->]%prefix_split Hs.
  destruct (contains needle p) eqn:Hp; [|reflexivity].
  apply contains_substring in Hp. destruct Hp as (before & after & ->).
  rewrite <- Hs. symmetry. apply contains_substring.
  exists before, (after +:+ rest). rewrite !append_assoc. reflexivity.
Qed.

Lemma split_skip_nonempty (sep : string) (skip : nat) (s : string) :
  split_skip sep skip s <> [].
Proof.
  revert skip. induction s as [|c rest IH]; intros skip; cbn [split_skip]; [discriminate|].
  destruct skip as [|k]; [|apply IH].
  destruct (String.prefix sep (String c rest)); [discriminate|].
  destruct (split_skip sep 0 rest); discriminate.
Qed.

Lemma split_cons (sep : string) (c : ascii) (rest : string) :
  split sep (String c rest)
  = if String.prefix sep (String c rest)
    then EmptyString :: split_skip sep (String.length sep - 1) rest
    else match split sep rest with
         | piece :: pieces => String c piece :: pieces
         | [] => [String c EmptyString]
         end.
Proof. reflexivity. Qed.

(** Passing over the rest of a separator leaves a split that starts
    further right. *)
Lemma split_skip_behind (sep : string) (skip : nat) (s : string) :
  exists passed t,
    s = passed +:+ t /\ split_skip sep skip s = split sep t
    /\ (String.length passed <= skip)%nat.
Proof.
  revert s. induction skip as [|k IH]; intros s.
  - exists EmptyString, s. split; [reflexivity|]. split; [reflexivity|simpl; lia].
  - destruct s as [|c rest].
    + exists EmptyString, EmptyString.
      split; [reflexivity|]. split; [reflexivity|simpl; lia].
    + destruct (IH rest) as (passed & t & -> & Heq & Hlen).
      exists (String c passed), t. split; [reflexivity|]. split; [exact Heq|simpl; lia].
Qed.

(** A text without the separator is one piece. *)
Lemma split_absent (sep s : string) : contains sep s = false -> split sep s = [s].
Proof.
  induction s as [|c rest IH]; [reflexivity|].
  rewrite contains_unfold, split_cons.
  destruct (String.prefix sep (String c rest)); [discriminate|].
  intros H. rewrite (IH H). reflexivity.
Qed.

(** The first piece is a prefix of the text, and no piece holds the
    separator. *)
Lemma split_pieces (sep s : string) :
  sep <> EmptyString ->
  exists piece pieces,
    split sep s = piece :: pieces
    /\ String.prefix piece s = true
    /\ Forall (fun p => contains sep p = false) (piece :: pieces).
Proof.
  intros Hsep.
  assert (Hempty : contains sep EmptyString = false).
  { destruct sep; [contradiction|reflexivity]. }
  remember (String.length s) as n eqn:Hn.
  assert (Hle : (String.length s <= n)%nat) by lia. clear Hn.
  revert s Hle. induction n as [|n IH]; intros s Hle.
  - destruct s; [|simpl in Hle; lia].
    exists EmptyString, []. repeat split; auto.
  - destruct s as [|c rest].
    + exists EmptyString, []. repeat split; auto.
    + simpl in Hle. rewrite split_cons.
      destruct (String.prefix sep (String c rest)) eqn:Hp.
      * destruct (split_skip_behind sep (String.length sep - 1) rest)
          as (passed & t & Hrest & -> & _).
        destruct (IH t) as (piece & pieces & -> & _ & Hall).
        { subst rest. rewrite append_length in Hle. lia. }
        exists EmptyString, (piece :: pieces). repeat split; auto.
      * destruct (IH rest ltac:(lia)) as (piece & pieces & -> & Hpre & Hall).
        exists (String c piece), pieces. split; [reflexivity|].
        split; [rewrite prefix_cons; exact Hpre|].
        apply Forall_cons_iff in Hall. destruct Hall as [Hpiece Hall].
        constructor; [|exact Hall].
        rewrite contains_unfold, Hpiece.
        destruct (String.prefix sep (String c piece)) eqn:Hq; [|reflexivity].
        rewrite <- Hp. symmetry.
        apply (prefix_transitive _ _ _ Hq). rewrite prefix_cons. exact Hpre.
Qed.

(** A separator of one character cuts the text wherever it stands. *)
Lemma split_char_app (ch : ascii) (a b : string) :
  split (String ch EmptyString) (a +:+ String ch b)
  = split (String ch EmptyString) a ++ split (String ch EmptyString) b.
Proof.
  induction a as [|c a IH].
  - change (EmptyString +:+ String ch b) with (String ch b).
    rewrite split_cons, prefix_cons. destruct b; reflexivity.
  - rewrite append_cons, !split_cons.
    assert (Hp : forall s, String.prefix (String ch EmptyString) (String c s)
                           = if ascii_dec ch c then true else false).
    { intros s. simpl. destruct (ascii_dec ch c); [destruct s|]; reflexivity. }
    rewrite !Hp. destruct (ascii_dec ch c).
    + cbn [String.length Nat.sub].
      change (split_skip _ 0 ?s) with (split (String ch EmptyString) s).
      rewrite IH. reflexivity.
    + rewrite IH.
      destruct (split (String ch EmptyString) a) as [|piece pieces] eqn:Ha;
        [exfalso; exact (split_skip_nonempty _ _ _ Ha)|].
      reflexivity.
Qed.

Lemma last_app_nonempty {A} (l1 l2 : list A) (d : A) :
  l2 <> [] -> List.last (l1 ++ l2) d = List.last l2 d.
Proof.
  intros H. induction l1 as [|x l1 IH]; [reflexivity|].
  cbn [app]. destruct (l1 ++ l2) eqn:E; [|exact IH].
  destruct l1; [contradiction|discriminate].
Qed.

Lemma endswith_suffix (suffix b : string) : endswith suffix (b +:+ suffix) = true.
Proof.
  unfold endswith. rewrite append_length.
  replace (String.length b + String.length suffix - String.length suffix)%nat
    with (String.length b) by lia.
  apply andb_true_intro. split; [apply Nat.leb_le; lia|].
  apply String.eqb_eq.
  induction b as [|c b IH].
  - cbn [String.length]. apply prefix_correct. apply prefix_split.
    exists EmptyString. symmetry. apply append_empty_r.
  - rewrite append_cons. cbn [String.length substring]. exact IH.
Qed.

(** Behind a ["/job/"] that no earlier one overlaps, the split goes on as
    on the text behind it. *)
Lemma split_job_behind (base rest : string) (skip : nat) :
  endswith "/job" base = false ->
  (skip <= String.length base)%nat ->
  exists init,
    init <> []
    /\ split_skip "/job/" skip (base +:+ "/job/" +:+ rest) = init ++ split "/job/" rest.
Proof.
  intros Hend.
  assert (Hbase : forall pre b, base = pre +:+ b -> b <> "/job").
  { intros pre b -> ->. rewrite endswith_suffix in Hend. discriminate. }
  clear Hend. revert skip.
  assert (Hgen : forall b, (exists pre, base = pre +:+ b) -> forall skip,
             (skip <= String.length b)%nat ->
             exists init, init <> []
               /\ split_skip "/job/" skip (b +:+ "/job/" +:+ rest)
                  = init ++ split "/job/" rest).
  2: { intros skip. apply Hgen. exists EmptyString. reflexivity. }
  intros b. induction b as [|c b IH]; intros [pre Hpre] skip Hskip.
  - cbn [String.length] in Hskip. assert (skip = 0)%nat as -> by lia.
    exists [EmptyString]. split; [discriminate|].
    change (EmptyString +:+ "/job/" +:+ rest)
      with (String "/" (String "j" (String "o" (String "b" (String "/" rest))))).
    change (split_skip "/job/" 0 ?s) with (split "/job/" s).
    rewrite split_cons, !prefix_cons, prefix_empty. reflexivity.
  - assert (Htail : exists pre', base = pre' +:+ b).
    { exists (pre +:+ String c EmptyString). rewrite append_assoc. exact Hpre. }
    rewrite append_cons. destruct skip as [|k].
    + change (split_skip "/job/" 0 ?s) with (split "/job/" s). rewrite split_cons.
      destruct (String.prefix "/job/" (String c (b +:+ "/job/" +:+ rest))) eqn:Hp.
      * change (String.length "/job/" - 1)%nat with 4%nat.
        destruct (IH Htail 4%nat) as (init & Hne & ->).
        { destruct b as [|c1 [|c2 [|c3 [|c4 b]]]]; try (simpl; lia); exfalso;
            apply prefix_split in Hp; destruct Hp as [r Hr]; cbn in Hr;
            try discriminate Hr.
          injection Hr as -> -> -> -> _. exact (Hbase _ _ Hpre eq_refl). }
        exists (EmptyString :: init). split; [discriminate|reflexivity].
      * destruct (IH Htail 0%nat ltac:(lia)) as (init & Hne & Heq).
        change (split_skip "/job/" 0 ?s) with (split "/job/" s) in Heq. rewrite Heq.
        destruct init as [|piece pieces]; [contradiction|].
        exists (String c piece :: pieces). split; [discriminate|reflexivity].
    + cbn [split_skip]. apply (IH Htail). simpl in Hskip. lia.
Qed.

Lemma Forall_last {A} (P : A -> Prop) (l : list A) (d : A) :
  l <> [] -> Forall P l -> P (List.last l d).
Proof.
  intros Hne Hall. induction Hall as [|x l Hx Hall IH]; [contradiction|].
  destruct l as [|y l]; [exact Hx|]. apply IH. discriminate.
Qed.

(** X1. For a URL [base/job/rest] whose base does not end in ["/job"] and
    whose rest holds no further ["/job/"], [job_id] is the rest up to its
    first question mark: the whole rest when it has none, and the text in
    front of the query string otherwise. *)
Theorem job_id_behind_last_job (self : Job) (base rest : string) :
  job_url self = base +:+ "/job/" +:+ rest ->
  endswith "/job" base = false ->
  contains "/job/" rest = false ->
  job_id self = hd EmptyString (split "?" rest)
  /\ (contains "?" rest = false -> job_id self = rest)
  /\ (forall id query,
        rest = id +:+ "?" +:+ query -> contains "?" id = false -> job_id self = id).
Proof.
  intros Hurl Hbase Hrest.
  assert (Hid : job_id self = hd EmptyString (split "?" rest)).
  { unfold job_id. rewrite Hurl.
    replace (contains "/job/" (base +:+ "/job/" +:+ rest)) with true
      by (symmetry; apply contains_substring; exists base, rest; reflexivity).
    destruct (split_job_behind base rest 0 Hbase ltac:(lia)) as (init & _ & Hsplit).
    change (split_skip "/job/" 0 ?s) with (split "/job/" s) in Hsplit.
    rewrite Hsplit, (split_absent _ _ Hrest), last_last. reflexivity. }
  split; [exact Hid|]. split.
  - intros Hq. rewrite Hid, (split_absent _ _ Hq). reflexivity.
  - intros id query -> Hq. rewrite Hid.
    change ("?" +:+ query) with (String "?" query).
    rewrite split_char_app, (split_absent _ _ Hq). reflexivity.
Qed.

(** X2. [job_id] never holds ["/job/"]; it holds no question mark when the
    URL has a ["/job/"]; and it is its own identifier: a record whose URL
    is the [job_id] of another has the same [job_id]. *)
Theorem job_id_holds_no_separator (self : Job) :
  contains "/job/" (job_id self) = false
  /\ (contains "/job/" (job_url self) = true -> contains "?" (job_id self) = false)
  /\ (forall other, job_url other = job_id self -> job_id other = job_id self).
Proof.
  assert (Hfree : contains "/job/" (job_id self) = false
                  /\ (contains "/job/" (job_url self) = true ->
                      contains "?" (job_id self) = false)).
  { unfold job_id. destruct (contains "/job/" (job_url self)) eqn:Hc.
    - destruct (split_pieces "/job/" (job_url self) ltac:(discriminate))
        as (piece & pieces & Hsplit & _ & Hall).
      rewrite Hsplit.
      pose proof (Forall_last _ (piece :: pieces) EmptyString ltac:(discriminate) Hall)
        as Hlast. cbv beta in Hlast.
      destruct (split_pieces "?" (List.last (piece :: pieces) EmptyString)
                  ltac:(discriminate)) as (front & others & -> & Hpre & Hq).
      cbn [hd]. split.
      + exact (contains_prefix _ _ _ Hpre Hlast).
      + intros _. apply Forall_cons_iff in Hq. apply Hq.
    - split; [exact Hc|discriminate]. }
  destruct Hfree as [Hjob Hq]. split; [exact Hjob|]. split; [exact Hq|].
  intros other Hother. unfold job_id at 1. rewrite Hother, Hjob. reflexivity.
Qed.

(** The query string is cut off the identifier of a listing URL. *)
Lemma job_id_behind_last_job_witness : job_id listed_job = "79012345".
Proof.
  apply (proj2 (proj2 (job_id_behind_last_job listed_job seek_url
                         "79012345?type=standard&ref=search-standalone"
                         eq_refl eq_refl eq_refl))
           "79012345" "type=standard&ref=search-standalone" eq_refl eq_refl).
Defined.

(** Where a ["/job/"] overlaps the one in front of it, the split takes the
    earlier one. *)
Example job_id_overlapping :
  split "/job/" "https://www.seek.com.au/job/job/7" = ["https://www.seek.com.au"; "job/7"]
  /\ split "/job/" "https://www.seek.com.au/job/8?next=/job/9"
     = ["https://www.seek.com.au"; "8?next="; "9"].
Proof. split; reflexivity. Qed.

Section EqualJobs.

Variable retention_days : Z.
Variable fromisoformat : string -> option Z.

Lemma mark_all_same_url (current_time : string) (a b : Job) (jobs : list Job)
    (seen_jobs : gmap string string) :
  job_url a = job_url b ->
  mark_all current_time (a :: jobs) seen_jobs = mark_all current_time (b :: jobs) seen_jobs.
Proof using Type. unfold mark_all. cbn [foldl]. intros ->. reflexivity. Qed.

(** X3. [__eq__] holds between two records exactly when their URLs are
    equal, and never between a record and another object.  Records that
    are equal have the same hash and the same [job_id], get the same
    answer from [exists], and mark the same entry when they head the list
    given to [_update_seen_jobs]. *)
Theorem eq_is_equality_of_urls (a b : Job) :
  (__eq__ a (AJob b) = true <-> job_url a = job_url b)
  /\ __eq__ a NotAJob = false
  /\ (__eq__ a (AJob b) = true ->
      (forall hash, __hash__ hash a = __hash__ hash b)
      /\ job_id a = job_id b
      /\ (forall w, exists_ a w = exists_ b w)
      /\ (forall jobs w,
            _update_seen_jobs retention_days fromisoformat (a :: jobs) w
            = _update_seen_jobs retention_days fromisoformat (b :: jobs) w)).
Proof using Type.
  split; [apply String.eqb_eq|]. split; [reflexivity|].
  intros Heq%String.eqb_eq. split; [|split; [|split]].
  - intros hash. unfold __hash__. rewrite Heq. reflexivity.
  - unfold job_id. rewrite Heq. reflexivity.
  - intros w. rewrite !exists_tracked, Heq. reflexivity.
  - intros jobs w. rewrite !update_seen_jobs_run. unfold marked.
    rewrite (mark_all_same_url _ a b jobs _ Heq). reflexivity.
Qed.

End EqualJobs.

(** ** More of the store *)

Lemma from_dict_same_files {D} (data : gmap string pyval) :
  respects (@same_page D) (from_dict data).
Proof. unfold from_dict, Job_init. same_page_steps. Qed.

Lemma map_m_respects {D A B} (R : world D -> world D -> Prop) (f : A -> M D B)
    (xs : list A) :
  preorder R -> (forall x, respects R (f x)) -> respects R (map_m f xs).
Proof.
  intros HR Hf. induction xs as [|x xs IH]; cbn [map_m].
  - apply respects_ret, HR.
  - apply respects_bind; [exact HR|apply Hf|intros y].
    apply respects_bind; [exact HR|exact IH|intros ys]. apply respects_ret, HR.
Qed.

(** [load] reads: it leaves the two files as they are. *)
Lemma load_same_files : respects same_page load.
Proof.
  intros w. unfold load, bind, get_dev.
  destruct (output_file (dev w)) as [jobs_data|]; [|reflexivity].
  apply (map_m_respects same_page from_dict jobs_data same_page_preorder).
  intros data. apply from_dict_same_files.
Qed.

Lemma load_holds_records (w : world files) (jobs : list Job) :
  holds_records w jobs -> load w = (Ok jobs, w).
Proof.
  unfold load, bind, get_dev. intros [-> | [-> ->]]; [|reflexivity].
  apply load_written.
Qed.

Section MoreStoreFacts.

Variable retention_days : Z.
Variable fromisoformat : string -> option Z.

Lemma cutoff_from_value (t c : Z) :
  cutoff_from retention_days t = Ok c -> c = (t - retention_days * us_per_day)%Z.
Proof using Type.
  unfold cutoff_from, timedelta_days, datetime_sub.
  destruct (Z.abs retention_days <=? 999999999)%Z; [|discriminate].
  destruct (_ && _); [|discriminate]. intros [= <-]. reflexivity.
Qed.

(** X4. After a [save] that returned, [exists] answers for each saved
    record whether the first reading of the clock is newer than the second
    minus the retention: true under a retention of at least one day when
    less than a day passed between the readings, and false under a
    retention of zero or fewer days when the clock did not go back. *)
Theorem save_then_exists (jobs existing : list Job) (job : Job) (w w1 w' : world files) :
  load w = (Ok existing, w1) ->
  save retention_days fromisoformat jobs w = (Ok tt, w') ->
  In job jobs ->
  fromisoformat (isoformat (clock w1 (ticks w1))) = Some (clock w1 (ticks w1)) ->
  exists_ job w'
  = (Ok (clock w1 (S (ticks w1)) - retention_days * us_per_day <? clock w1 (ticks w1))%Z,
     w')
  /\ ((1 <= retention_days)%Z ->
      (clock w1 (S (ticks w1)) < clock w1 (ticks w1) + us_per_day)%Z ->
      fst (exists_ job w') = Ok true)
  /\ ((retention_days <= 0)%Z ->
      (clock w1 (ticks w1) <= clock w1 (S (ticks w1)))%Z ->
      fst (exists_ job w') = Ok false).
Proof using Type.
  intros Hload Hsave Hin Hread.
  assert (Hex : exists_ job w'
    = (Ok (clock w1 (S (ticks w1)) - retention_days * us_per_day
           <? clock w1 (ticks w1))%Z, w')).
  { rewrite (save_run _ _ jobs existing w w1 Hload), update_seen_jobs_run in Hsave.
    cbn [clock ticks dev log] in Hsave.
    destruct (cutoff_from retention_days (clock w1 (S (ticks w1)))) as [c|e] eqn:Hc;
      [|discriminate].
    apply cutoff_from_value in Hc. subst c.
    destruct (retain_recent fromisoformat _ _) as [kept|e] eqn:Hkept; [|discriminate].
    injection Hsave as <-. rewrite exists_tracked. f_equal. f_equal.
    unfold tracked. cbn [dev seen_file].
    assert (Hlookup : forall ts,
      kept !! job_url job = Some ts
      <-> ts = isoformat (clock w1 (ticks w1))
          /\ (clock w1 (S (ticks w1)) - retention_days * us_per_day
              <? clock w1 (ticks w1))%Z = true).
    { intros ts. rewrite (retain_recent_lookup _ _ _ _ Hkept). unfold marked.
      cbn [clock ticks]. rewrite mark_all_lookup.
      rewrite bool_decide_eq_true_2 by (apply list_elem_of_In, in_map, Hin).
      unfold is_newer, newer_than.
      split.
      - intros [[= <-] Hnew]. rewrite Hread in Hnew. auto.
      - intros [-> Hnew]. rewrite Hread. auto. }
    destruct (_ <? _)%Z eqn:Hnew.
    - apply bool_decide_eq_true_2. exists (isoformat (clock w1 (ticks w1))).
      apply Hlookup. auto.
    - apply bool_decide_eq_false_2. intros [ts [_ Hts]%Hlookup]. discriminate. }
  split; [exact Hex|]. rewrite Hex. cbn [fst]. unfold us_per_day. split.
  - intros Hret Hclock. f_equal. apply Z.ltb_lt. lia.
  - intros Hret Hclock. f_equal. apply Z.ltb_ge. lia.
Qed.

Lemma save_bad_timestamp_run (jobs existing : list Job) (url ts : string)
    (w w1 : world files) :
  load w = (Ok existing, w1) ->
  tracked w !! url = Some ts ->
  fromisoformat ts = None ->
  ~ In url (map job_url jobs) ->
  exists e w',
    save retention_days fromisoformat jobs w = (Raise e, w')
    /\ (e = ValueError \/ e = OverflowError)
    /\ output_file (dev w') = Some (map to_dict (existing ++ jobs))
    /\ seen_file (dev w') = seen_file (dev w).
Proof using Type.
  intros Hload Hts Hbad Hnin.
  pose proof (load_same_files w) as Hdev. rewrite Hload in Hdev.
  unfold same_page in Hdev. cbn [snd] in Hdev.
  rewrite (save_run _ _ jobs existing w w1 Hload), update_seen_jobs_run.
  cbn [clock ticks dev log].
  destruct (cutoff_from retention_days (clock w1 (S (ticks w1)))) as [c|e] eqn:Hc.
  - assert (Hraise : retain_recent fromisoformat c
              (marked jobs
                 (World (mkFiles (Some (map to_dict (existing ++ jobs)))
                           (seen_file (dev w1)))
                    (clock w1) (ticks w1)
                    (log w1 ++ [(INFO, SavedJobs (length jobs)
                                         (length (existing ++ jobs)))])))
            = Raise ValueError).
    { unfold retain_recent. rewrite bool_decide_eq_false_2; [reflexivity|].
      intros Hall. specialize (Hall url ts). cbv beta in Hall.
      rewrite Hbad in Hall. destruct Hall as [? [=]].
      unfold marked. rewrite mark_all_lookup.
      rewrite bool_decide_eq_false_2 by (rewrite list_elem_of_In; exact Hnin).
      unfold tracked in *. cbn [dev seen_file]. rewrite Hdev. exact Hts. }
    rewrite Hraise. eexists _, _. split; [reflexivity|].
    split; [auto|]. cbn [dev output_file seen_file]. rewrite Hdev. auto.
  - eexists _, _. split; [reflexivity|]. split.
    + right. revert Hc. unfold cutoff_from, timedelta_days, datetime_sub.
      destruct (_ <=? _)%Z; [destruct (_ && _)|]; congruence.
    + cbn [dev output_file seen_file]. rewrite Hdev. auto.
Qed.

(** X5. [save] writes the records file before it marks the records.  When
    the seen-jobs file holds, for a URL that is not being saved, a date
    that cannot be read, [save] raises with the records already appended
    and the seen-jobs file untouched; a second attempt raises again and
    appends the records a second time. *)
Theorem save_fails_after_writing (jobs existing : list Job) (url ts : string)
    (w w1 : world files) :
  load w = (Ok existing, w1) ->
  tracked w !! url = Some ts ->
  fromisoformat ts = None ->
  ~ In url (map job_url jobs) ->
  exists e w',
    save retention_days fromisoformat jobs w = (Raise e, w')
    /\ (e = ValueError \/ e = OverflowError)
    /\ output_file (dev w') = Some (map to_dict (existing ++ jobs))
    /\ seen_file (dev w') = seen_file (dev w)
    /\ exists e' w'',
         save retention_days fromisoformat jobs w' = (Raise e', w'')
         /\ output_file (dev w'') = Some (map to_dict (existing ++ jobs ++ jobs))
         /\ seen_file (dev w'') = seen_file (dev w).
Proof using Type.
  intros Hload Hts Hbad Hnin.
  destruct (save_bad_timestamp_run jobs existing url ts w w1 Hload Hts Hbad Hnin)
    as (e & w' & Hsave & He & Hout & Hseen).
  exists e, w'. repeat (split; [assumption|]).
  assert (Hload' : load w' = (Ok (existing ++ jobs), w')).
  { apply load_holds_records. left. exact Hout. }
  assert (Hts' : tracked w' !! url = Some ts).
  { unfold tracked in *. rewrite Hseen. exact Hts. }
  destruct (save_bad_timestamp_run jobs (existing ++ jobs) url ts w' w' Hload' Hts' Hbad
              Hnin) as (e' & w'' & Hsave' & _ & Hout' & Hseen').
  exists e', w''. split; [exact Hsave'|]. rewrite <- app_assoc in Hout'.
  split; [exact Hout'|congruence].
Qed.

End MoreStoreFacts.

(** A second attempt to save one record next to the unreadable entry. *)
Lemma save_fails_after_writing_witness :
  exists e w',
    save 30 fromisoformat_canonical [listed_job] smudged_world = (Raise e, w')
    /\ output_file (dev w') = Some (map to_dict [old_job; new_job; listed_job])
    /\ exists e' w'',
         save 30 fromisoformat_canonical [listed_job] w' = (Raise e', w'')
         /\ output_file (dev w'')
            = Some (map to_dict [old_job; new_job; listed_job; listed_job]).
Proof.
  destruct (save_fails_after_writing 30 fromisoformat_canonical [listed_job]
              [old_job; new_job] (job_url old_job) "last week" smudged_world smudged_world)
    as (e & w' & Hsave & _ & Hout & _ & e' & w'' & Hsave' & Hout' & _).
  - vm_compute. reflexivity.
  - vm_compute. reflexivity.
  - vm_compute. reflexivity.
  - vm_compute. intros [H|[]]. discriminate H.
  - exists e, w'. split; [exact Hsave|]. split; [exact Hout|].
    exists e', w''. split; [exact Hsave'|exact Hout'].
Defined.

(** A record saved on 1 June 2024 under a retention of 30 days is seen
    afterwards. *)
Lemma save_then_exists_witness :
  fst (save 30 fromisoformat_canonical [listed_job] shelf_world) = Ok tt
  /\ fst (exists_ listed_job
            (snd (save 30 fromisoformat_canonical [listed_job] shelf_world)))
     = Ok true.
Proof.
  assert (Hfst : fst (save 30 fromisoformat_canonical [listed_job] shelf_world) = Ok tt)
    by (vm_compute; reflexivity).
  split; [exact Hfst|].
  destruct (save 30 fromisoformat_canonical [listed_job] shelf_world) as [r w'] eqn:Hrun.
  cbn [fst snd] in *. subst r.
  apply (proj1 (proj2 (save_then_exists 30 fromisoformat_canonical [listed_job]
                         [old_job; new_job] listed_job shelf_world shelf_world w'
                         ltac:(vm_compute; reflexivity) Hrun
                         ltac:(left; reflexivity) ltac:(vm_compute; reflexivity)))).
  - lia.
  - vm_compute. reflexivity.
Defined.

(** *** Dictionaries that are not records *)

Lemma from_dict_misfit {D} (data : gmap string pyval) (w : world D) :
  misfit data -> from_dict data w = (Raise TypeError, w).
Proof.
  intros Hmis. unfold from_dict.
  destruct (forallb _ _) eqn:Hkeys; [|reflexivity].
  destruct Hmis as [(key & [v Hv] & Hnot) | (key & Hin & Hnone)].
  - exfalso. rewrite forallb_forall in Hkeys.
    specialize (Hkeys key). rewrite bool_decide_eq_true, list_elem_of_In in Hkeys.
    apply Hnot, Hkeys. apply in_map_iff. exists (key, v). split; [reflexivity|].
    apply list_elem_of_In, elem_of_map_to_list, Hv.
  - unfold required_arg.
    repeat (rewrite bind_lift;
            match goal with
            | |- context [data !! ?k] => destruct (data !! k) as [[|?]|] eqn:?
            end; try reflexivity).
    exfalso. cbn in Hin. intuition (subst; congruence).
Qed.

Lemma from_dict_raises {D} (data : gmap string pyval) (w w' : world D) (e : exn) :
  from_dict data w = (Raise e, w') -> e = TypeError.
Proof.
  unfold from_dict. destruct (forallb _ _); [|intros [= <- _]; reflexivity].
  unfold required_arg.
  repeat (rewrite bind_lift;
          match goal with
          | |- context [data !! ?k] => destruct (data !! k) as [[|?]|]
          end; try (intros [= <- _]; reflexivity)).
  unfold Job_init. destruct (optional_arg data "scraped_at"); discriminate.
Qed.

Lemma load_misfit {D} (jobs_data : list (gmap string pyval)) (data : gmap string pyval)
    (w : world D) :
  In data jobs_data -> misfit data ->
  exists w1, map_m from_dict jobs_data w = (Raise TypeError, w1).
Proof.
  intros Hin Hmis. revert w.
  induction jobs_data as [|d rest IH]; intros w; [contradiction|].
  cbn [map_m]. unfold bind at 1.
  destruct (from_dict d w) as [[job|e] w1] eqn:Hd.
  - destruct Hin as [-> | Hin].
    + rewrite (from_dict_misfit data w Hmis) in Hd. discriminate.
    + destruct (IH Hin w1) as [w2 Hrest]. unfold bind at 1. rewrite Hrest. eauto.
  - apply from_dict_raises in Hd as ->. eauto.
Qed.

Lemma load_blocked (jobs_data : list (gmap string pyval)) (data : gmap string pyval)
    (w : world files) :
  output_file (dev w) = Some jobs_data -> In data jobs_data -> misfit data ->
  exists w1, load w = (Raise TypeError, w1).
Proof.
  intros Hfile Hin Hmis.
  destruct (load_misfit jobs_data data w Hin Hmis) as [w1 Hmap].
  exists w1. unfold load, bind, get_dev. rewrite Hfile. exact Hmap.
Qed.

(** X6. One stored dictionary that is no record -- it has a key that names
    no field, or lacks a required one -- makes the whole file unreadable:
    [load] raises [TypeError], and so do [save] and [cleanup_old_jobs],
    which leave both files as they were. *)
Theorem misfit_record_blocks_store (retention_days : Z)
    (fromisoformat : string -> option Z) (jobs_data : list (gmap string pyval))
    (data : gmap string pyval) (w : world files) :
  output_file (dev w) = Some jobs_data ->
  In data jobs_data ->
  misfit data ->
  exists w1,
    load w = (Raise TypeError, w1)
    /\ dev w1 = dev w
    /\ (forall jobs, save retention_days fromisoformat jobs w = (Raise TypeError, w1))
    /\ cleanup_old_jobs retention_days fromisoformat w = (Raise TypeError, w1).
Proof.
  intros Hfile Hin Hmis.
  destruct (load_blocked jobs_data data w Hfile Hin Hmis) as [w1 Hload].
  exists w1. split; [exact Hload|]. split.
  - pose proof (load_same_files w) as Hdev. rewrite Hload in Hdev. exact Hdev.
  - split.
    + intros jobs. unfold save. unfold bind at 1. rewrite Hload. reflexivity.
    + unfold cleanup_old_jobs. unfold bind at 1. rewrite Hload. reflexivity.
Qed.

(** X7. What [from_dict] builds holds what the dictionary held: the
    record's own dictionary agrees with the given one on every key but a
    missing or empty [scraped_at], which is stamped with the reading of
    the clock; a [scraped_at] that is given is kept and the clock is not
    read. *)
Theorem from_dict_keeps_entries {D} (data : gmap string pyval) (job : Job)
    (w w' : world D) :
  from_dict data w = (Ok job, w') ->
  (forall key value,
      data !! key = Some value -> key <> "scraped_at" ->
      to_dict job !! key = Some value)
  /\ (forall s, data !! "scraped_at" = Some (PyStr s) -> scraped_at job = s /\ w' = w)
  /\ (data !! "scraped_at" = None \/ data !! "scraped_at" = Some PyNone ->
      scraped_at job = isoformat (clock w (ticks w))
      /\ w' = World (dev w) (clock w) (S (ticks w)) (log w)).
Proof.
  unfold from_dict. destruct (forallb _ _) eqn:Hkeys; [|discriminate].
  rewrite forallb_forall in Hkeys.
  assert (Hfield : forall key value, data !! key = Some value -> In key Job_field_names).
  { intros key value Hv. apply list_elem_of_In.
    specialize (Hkeys key). rewrite bool_decide_eq_true in Hkeys. apply Hkeys.
    apply in_map_iff. exists (key, value). split; [reflexivity|].
    apply list_elem_of_In, elem_of_map_to_list, Hv. }
  clear Hkeys. unfold required_arg.
  rewrite bind_lift. destruct (data !! "title") as [[|v1]|] eqn:H1; try discriminate.
  rewrite bind_lift. destruct (data !! "company") as [[|v2]|] eqn:H2; try discriminate.
  rewrite bind_lift. destruct (data !! "location") as [[|v3]|] eqn:H3; try discriminate.
  rewrite bind_lift.
  destruct (data !! "classification") as [[|v4]|] eqn:H4; try discriminate.
  rewrite bind_lift. destruct (data !! "subcategory") as [[|v5]|] eqn:H5; try discriminate.
  rewrite bind_lift. destruct (data !! "job_url") as [[|v6]|] eqn:H6; try discriminate.
  intros Hinit.
  assert (Hrest : forall key value,
    data !! key = Some value -> key <> "scraped_at" ->
    forall stamp,
      to_dict (mkJob v1 v2 v3 v4 v5 v6 (optional_arg data "posted_date")
                 (optional_arg data "salary") (optional_arg data "job_type")
                 (optional_arg data "description") stamp) !! key = Some value).
  { intros key value Hv Hne stamp. pose proof (Hfield key value Hv) as Hin.
    unfold optional_arg. cbn in Hin.
    repeat (destruct Hin as [<-|Hin];
      [first [ contradiction
             | rewrite H1 in Hv; injection Hv as <-; vm_compute; reflexivity
             | rewrite H2 in Hv; injection Hv as <-; vm_compute; reflexivity
             | rewrite H3 in Hv; injection Hv as <-; vm_compute; reflexivity
             | rewrite H4 in Hv; injection Hv as <-; vm_compute; reflexivity
             | rewrite H5 in Hv; injection Hv as <-; vm_compute; reflexivity
             | rewrite H6 in Hv; injection Hv as <-; vm_compute; reflexivity
             | rewrite Hv; destruct value; vm_compute; reflexivity ]|]).
    contradiction. }
  revert Hinit. unfold Job_init.
  destruct (data !! "scraped_at") as [[|stamp]|] eqn:Hstamp.
  - replace (optional_arg data "scraped_at") with (@None string)
      by (unfold optional_arg; rewrite Hstamp; reflexivity).
    cbv [bind now ret]. intros [= <- <-].
    split; [intros; apply Hrest; assumption|]. split; [discriminate|]. auto.
  - replace (optional_arg data "scraped_at") with (Some stamp)
      by (unfold optional_arg; rewrite Hstamp; reflexivity).
    cbv [ret]. intros [= <- <-].
    split; [intros; apply Hrest; assumption|].
    split; [intros s [= <-]; auto|]. intros [[=]|[=]].
  - replace (optional_arg data "scraped_at") with (@None string)
      by (unfold optional_arg; rewrite Hstamp; reflexivity).
    cbv [bind now ret]. intros [= <- <-].
    split; [intros; apply Hrest; assumption|]. split; [discriminate|]. auto.
Qed.

(** A file with a dictionary that has a key too many. *)
Lemma misfit_record_blocks_store_witness :
  exists w1,
    load torn_world = (Raise TypeError, w1)
    /\ dev w1 = dev torn_world
    /\ save 30 fromisoformat_canonical [listed_job] torn_world = (Raise TypeError, w1).
Proof.
  destruct (misfit_record_blocks_store 30 fromisoformat_canonical
              [to_dict old_job; <["colour" := PyStr "red"]> (to_dict new_job)]
              (<["colour" := PyStr "red"]> (to_dict new_job)) torn_world)
    as (w1 & Hload & Hdev & Hsave & _).
  - reflexivity.
  - right. left. reflexivity.
  - left. exists "colour". split.
    + exists (PyStr "red"). vm_compute. reflexivity.
    + vm_compute. intuition discriminate.
  - exists w1. auto.
Defined.

(** A dictionary without [scraped_at], read on 1 June 2024 at noon. *)
Lemma from_dict_keeps_entries_witness :
  exists job w',
    from_dict (delete "scraped_at" (to_dict new_job)) stale_world = (Ok job, w')
    /\ to_dict job !! "title" = Some (PyStr "HR Manager")
    /\ scraped_at job = isoformat noon_1_june_2024.
Proof.
  assert (Hrun :
    from_dict (delete "scraped_at" (to_dict new_job)) stale_world
    = (Ok (mkJob "HR Manager" "Bolt" "Perth" hr_classification "Management"
             "https://www.seek.com.au/job/2" None None None None
             "2024-06-01T12:00:00"),
       World (dev stale_world) (clock stale_world) 1 [])).
  { vm_compute. reflexivity. }
  eexists _, _. split; [exact Hrun|].
  destruct (from_dict_keeps_entries _ _ _ _ Hrun) as (Hkeep & _ & Hstamp).
  split.
  - apply Hkeep; [vm_compute; reflexivity|discriminate].
  - apply Hstamp. left. vm_compute. reflexivity.
Defined.

(** *** Cleaning up *)

Section CleanupFacts.

Variable retention_days : Z.
Variable fromisoformat : string -> option Z.

Lemma recent_only_filter (cutoff_date : Z) (jobs recent : list Job) :
  recent_only fromisoformat cutoff_date jobs = Ok recent ->
  recent
  = List.filter (fun job => is_newer fromisoformat cutoff_date (scraped_at job)) jobs.
Proof using Type.
  revert recent. induction jobs as [|job jobs IH]; intros recent; cbn [recent_only].
  - intros [= <-]. reflexivity.
  - cbn [List.filter].
    assert (Hnew : forall keep,
      newer_than fromisoformat cutoff_date (scraped_at job) = Ok keep ->
      is_newer fromisoformat cutoff_date (scraped_at job) = keep).
    { intros keep Hk. unfold is_newer. rewrite Hk. reflexivity. }
    destruct (newer_than fromisoformat cutoff_date (scraped_at job)) as [keep|e];
      [|discriminate].
    rewrite (Hnew keep eq_refl).
    destruct (recent_only fromisoformat cutoff_date jobs) as [kept|e]; [|discriminate].
    intros [= <-]. rewrite <- (IH kept eq_refl). reflexivity.
Qed.

Lemma cutoff_run (w : world files) :
  cutoff retention_days w
  = (cutoff_from retention_days (clock w (ticks w)),
     World (dev w) (clock w) (S (ticks w)) (log w)).
Proof using Type.
  unfold cutoff, bind, now, lift.
  destruct (cutoff_from retention_days (clock w (ticks w))); reflexivity.
Qed.

(** [cleanup_old_jobs] on a store that holds records. *)
Lemma cleanup_run (job : Job) (jobs : list Job) (w : world files) :
  holds_records w (job :: jobs) ->
  cleanup_old_jobs retention_days fromisoformat w
  = let w1 := World (dev w) (clock w) (S (ticks w)) (log w) in
    match cutoff_from retention_days (clock w (ticks w)) with
    | Raise e => (Raise e, w1)
    | Ok cutoff_date =>
        match recent_only fromisoformat cutoff_date (job :: jobs) with
        | Raise e => (Raise e, w1)
        | Ok recent_jobs =>
            let removed_count :=
              (Z.of_nat (length (job :: jobs)) - Z.of_nat (length recent_jobs))%Z in
            if (0 <? removed_count)%Z
            then
              match save retention_days fromisoformat recent_jobs w1 with
              | (Ok _, w2) =>
                  (Ok removed_count,
                   logged w2 INFO (CleanedUp removed_count retention_days))
              | (Raise e, w2) => (Raise e, w2)
              end
            else (Ok removed_count, logged w1 INFO (NothingToCleanUp retention_days))
        end
    end.
Proof using Type.
  intros Hholds. unfold cleanup_old_jobs. unfold bind at 1.
  rewrite (load_holds_records w _ Hholds).
  unfold bind at 1. rewrite cutoff_run. cbv zeta.
  destruct (cutoff_from retention_days (clock w (ticks w))) as [c|e]; [|reflexivity].
  rewrite bind_lift.
  destruct (recent_only fromisoformat c (job :: jobs)) as [recent|e]; [|reflexivity].
  destruct (0 <? _)%Z.
  - unfold bind at 1. unfold bind at 1.
    destruct (save retention_days fromisoformat recent _) as [[[]|e] w2]; reflexivity.
  - reflexivity.
Qed.

(** X8. On a store written by [save], [cleanup_old_jobs] never takes a
    record off the file, however it ends: the file holds afterwards the
    records it held, followed by some more.  When it returns, it returns
    the number of records that are not newer than the first reading of
    the clock minus the retention; if that is zero the two files are as
    they were, and otherwise the file holds the old records followed by a
    second copy of the recent ones. *)
Theorem cleanup_old_jobs_never_removes (jobs : list Job) (w : world files) :
  holds_records w jobs ->
  (exists extra,
      holds_records (snd (cleanup_old_jobs retention_days fromisoformat w))
        (jobs ++ extra))
  /\ forall removed w',
      cleanup_old_jobs retention_days fromisoformat w = (Ok removed, w') ->
      let recent :=
        List.filter
          (fun job =>
             is_newer fromisoformat (clock w (ticks w) - retention_days * us_per_day)
               (scraped_at job)) jobs in
      removed = (Z.of_nat (length jobs) - Z.of_nat (length recent))%Z
      /\ (removed = 0%Z -> dev w' = dev w)
      /\ ((0 < removed)%Z ->
          output_file (dev w') = Some (map to_dict (jobs ++ recent))).
Proof using Type.
  intros Hholds.
  assert (Hsame : forall w1, dev w1 = dev w -> holds_records w1 (jobs ++ [])).
  { intros w1 Hdev. rewrite app_nil_r. unfold holds_records. rewrite Hdev.
    exact Hholds. }
  destruct jobs as [|job jobs].
  - assert (Hrun : cleanup_old_jobs retention_days fromisoformat w = (Ok 0%Z, w)).
    { unfold cleanup_old_jobs. unfold bind at 1.
      rewrite (load_holds_records w _ Hholds). reflexivity. }
    rewrite Hrun. split; [exists []; apply Hsame; reflexivity|].
    intros removed w' [= <- <-]. cbn. split; [reflexivity|]. split; [auto|lia].
  - rewrite (cleanup_run job jobs w Hholds). cbv zeta.
    set (w1 := World (dev w) (clock w) (S (ticks w)) (log w)).
    assert (Hholds1 : holds_records w1 (job :: jobs)) by exact Hholds.
    destruct (cutoff_from retention_days (clock w (ticks w))) as [c|e] eqn:Hc.
    2: { split; [exists []; apply Hsame; reflexivity|discriminate]. }
    apply cutoff_from_value in Hc. subst c.
    destruct (recent_only fromisoformat _ (job :: jobs)) as [recent|e] eqn:Hrecent.
    2: { split; [exists []; apply Hsame; reflexivity|discriminate]. }
    apply recent_only_filter in Hrecent.
    destruct (0 <? _)%Z eqn:Hpos.
    + assert (Hout : output_file
                       (dev (snd (save retention_days fromisoformat recent w1)))
                     = Some (map to_dict ((job :: jobs) ++ recent))).
      { rewrite (save_run retention_days fromisoformat recent (job :: jobs) w1 w1
                   (load_holds_records w1 _ Hholds1)).
        rewrite update_seen_jobs_output. reflexivity. }
      destruct (save retention_days fromisoformat recent w1) as [[[]|e] w2];
        cbn [snd] in *.
      * split; [exists recent; left; exact Hout|].
        intros removed w' [= <- <-]. cbv zeta. rewrite <- Hrecent.
        split; [reflexivity|]. apply Z.ltb_lt in Hpos.
        split; [intros Hzero; exfalso; cbn [length] in *; lia|].
        intros _. exact Hout.
      * split; [exists recent; left; exact Hout|discriminate].
    + split; [exists []; apply Hsame; reflexivity|].
      intros removed w' [= <- <-]. cbv zeta. rewrite <- Hrecent.
      split; [reflexivity|]. apply Z.ltb_ge in Hpos.
      split; [reflexivity|intros Hmore; exfalso; cbn [length] in *; lia].
Qed.

End CleanupFacts.

(** The store of the two records, cleaned up on 1 June 2024. *)
Lemma cleanup_old_jobs_never_removes_witness :
  fst (cleanup_old_jobs 30 fromisoformat_canonical shelf_world) = Ok 1%Z
  /\ output_file (dev (snd (cleanup_old_jobs 30 fromisoformat_canonical shelf_world)))
     = Some (map to_dict ([old_job; new_job] ++ [new_job])).
Proof.
  assert (Hfst : fst (cleanup_old_jobs 30 fromisoformat_canonical shelf_world) = Ok 1%Z)
    by (vm_compute; reflexivity).
  split; [exact Hfst|].
  destruct (cleanup_old_jobs 30 fromisoformat_canonical shelf_world) as [r w'] eqn:Hrun.
  cbn [fst snd] in *. subst r.
  pose proof (proj2 (cleanup_old_jobs_never_removes 30 fromisoformat_canonical
                       [old_job; new_job] shelf_world ltac:(left; reflexivity))
                1%Z w' Hrun) as (_ & _ & Hfile).
  rewrite (Hfile ltac:(lia)). reflexivity.
Defined.

(** ** More of the crawler *)

Section MoreCrawlFacts.

Context {doc elem : Type}.
Variable page : PageFetcher doc elem.
Variable py : Text.
Variable self : SeekScraper.

(** *** The next-page control *)

Lemma try_selectors_true (selectors : list string) (w w' : world doc) :
  try_selectors page selectors w = (Ok true, w') ->
  exists button d1 d2,
    finds_visible page (dev w) selectors button
    /\ click page button (dev w) = (Ok tt, d1)
    /\ wait_for_load_state page "domcontentloaded" d1 = (Ok tt, d2).
Proof using Type.
  revert w. induction selectors as [|selector rest IH]; intros w; cbn [try_selectors].
  - rewrite bind_logger. discriminate.
  - rewrite bind_logger, bind_page_query. cbn [dev logged].
    destruct (query_selector page selector (dev w)) as [[button|]|e] eqn:Hq;
      [| |discriminate].
    + rewrite bind_logger, bind_page_query. cbn [dev logged].
      destruct (is_visible page button (dev w)) as [[|]|e] eqn:Hv; [| |discriminate].
      * rewrite !bind_logger, bind_page_action. cbn [dev logged].
        destruct (click page button (dev w)) as [[[]|e] d1] eqn:Hclick;
          cbn [fst snd]; [|discriminate].
        rewrite bind_page_action. cbn [dev set_dev].
        destruct (wait_for_load_state page "domcontentloaded" d1) as [[[]|e] d2]
          eqn:Hload; cbn [fst snd]; [|discriminate].
        intros _. exists button, d1, d2. split; [|split; assumption].
        apply finds_here; assumption.
      * rewrite bind_logger. intros Hrun. apply IH in Hrun. cbn [dev logged] in Hrun.
        destruct Hrun as (b & d1 & d2 & Hf & Hc & Hl).
        exists b, d1, d2. split; [|split; assumption].
        eapply finds_after_hidden; eassumption.
    + intros Hrun. apply IH in Hrun. cbn [dev logged] in Hrun.
      destruct Hrun as (b & d1 & d2 & Hf & Hc & Hl).
      exists b, d1, d2. split; [|split; assumption].
      apply finds_after_absent; assumption.
Qed.

(** X9. [_goto_next_page] never raises, and it answers true exactly when
    the document exposes a next-page control: the ordered lookup ends at a
    control that reports itself visible, the click on it succeeds and so
    does the wait for the page it loads.  In every other case -- no
    control, hidden controls only, a query, a click or a wait that raises
    -- it answers false. *)
Theorem goto_next_page_decides (w : world doc) :
  (exists more w', _goto_next_page page w = (Ok more, w'))
  /\ (fst (_goto_next_page page w) = Ok true <-> exposes_next page (dev w))
  /\ (fst (_goto_next_page page w) = Ok false <-> ~ exposes_next page (dev w)).
Proof using Type.
  assert (Htrue : fst (_goto_next_page page w) = Ok true <-> exposes_next page (dev w)).
  { split.
    - unfold _goto_next_page, try_except.
      destruct (try_selectors page next_selectors w) as [[[|]|e] w1] eqn:Hrun;
        try discriminate.
      intros _. apply try_selectors_true in Hrun. exact Hrun.
    - intros Hnext. destruct (goto_next_page_exposed page w Hnext) as [w' ->].
      reflexivity. }
  destruct (goto_next_page_returns page w) as (more & w' & Hrun).
  split; [eauto|]. split; [exact Htrue|].
  rewrite <- Htrue, Hrun. cbn [fst]. destruct more; split; congruence.
Qed.

(** *** Errors on a page *)

(** X10. [_scrape_page] raises exactly when the wait for the listings
    raises something other than a timeout, or the wait ends in time and
    the cards cannot be listed; the exception is the one of the page.
    The loop over the pages has no handler for it, so it leaves the loop
    together with the records of the pages before. *)
Theorem scrape_page_raises (w : world doc) (e : exn) :
  (fst (_scrape_page page py self w) = Raise e
   <-> (exists d', wait_for_selector page listing_selector 10000 (dev w) = (Raise e, d')
                   /\ e <> PlaywrightTimeout)
       \/ (exists d', wait_for_selector page listing_selector 10000 (dev w) = (Ok tt, d')
                      /\ query_selector_all page listing_selector d' = Raise e))
  /\ (forall remaining page_num jobs,
        fst (_scrape_page page py self (logged w INFO (ScrapingPage page_num))) = Raise e ->
        fst (scrape_loop page py self (S remaining) page_num jobs w) = Raise e).
Proof using Type.
  split.
  - destruct (wait_for_selector page listing_selector 10000 (dev w)) as [[[]|e0] d']
      eqn:Hwait.
    + destruct (query_selector_all page listing_selector d') as [job_cards|e1] eqn:Hall.
      * rewrite (scrape_page_listed page py self w d' job_cards Hwait Hall).
        destruct (cards_loop_returns page py self job_cards []
                    (logged (set_dev w d') DEBUG (FoundJobCards (length job_cards))))
          as (found & w' & -> & _).
        cbn [fst]. split; [discriminate|].
        intros [(d & [=] & _) | (d & [= <-] & Hq)]. congruence.
      * unfold _scrape_page, try_except_timeout, try_except.
        unfold bind at 1. rewrite bind_page_action, Hwait. cbn [fst snd ret].
        rewrite bind_page_query. cbn [dev set_dev]. rewrite Hall. cbn [fst].
        split.
        -- intros [= <-]. right. eauto.
        -- intros [(d & [=] & _) | (d & [= <-] & Hq)]. congruence.
    + unfold _scrape_page, try_except_timeout, try_except.
      unfold bind at 1. rewrite bind_page_action, Hwait. cbn [fst snd].
      destruct e0; cbn [fst]; split;
        try (intros [= <-]; left; eexists; split; [reflexivity|discriminate]);
        try discriminate;
        try (intros [(d & [= <- _] & _) | (d & [=] & _)]; reflexivity).
      intros [(d & [= <- _] & Hne) | (d & [=] & _)]. contradiction.
  - intros remaining page_num jobs Hraise. rewrite loop_turn.
    destruct (_scrape_page page py self _) as [[page_jobs|e'] w1];
      cbn [fst] in *; [discriminate|exact Hraise].
Qed.

(** *** What a run returns *)

Lemma text_or_posted (x : option elem) (d : doc) (value : option string) :
  text_or page py Some (Some "Recently") x d = Ok value -> value <> None.
Proof using Type.
  unfold text_or. destruct x as [found|].
  - destruct (inner_text page found d); intros [= <-]; discriminate.
  - intros [= <-]. discriminate.
Qed.

Lemma extract_fixed_fields (card : elem) (w w' : world doc) (job : Job) :
  _extract_job_data page py self card w = (Ok (Some job), w') ->
  classification job = self.(classification_name)
  /\ job_type job = None
  /\ posted_date job <> None.
Proof using Type.
  unfold _extract_job_data, try_except.
  destruct (bind _ _ w) as [[outcome|e] w1] eqn:Hbody; [|discriminate].
  intros [= -> ->]. revert Hbody.
  rewrite bind_page_query.
  destruct (query_first page card title_selectors (dev w)) as [[title_elem|]|e];
    [|discriminate..].
  rewrite bind_page_query.
  destruct (inner_text page title_elem (dev w)) as [text|e]; [|discriminate].
  rewrite bind_page_query.
  destruct (get_attribute page title_elem "href" (dev w)) as [[href|]|e];
    [|discriminate..].
  destruct (truthy (Some href)); [|discriminate].
  rewrite bind_lift.
  destruct (py.(urljoin) self.(base_url) href) as [url|e]; [|discriminate].
  repeat (rewrite bind_page_query;
          match goal with
          | |- context [query_first page card ?l (dev w)] =>
              destruct (query_first page card l (dev w)) as [?x|?e]; [|discriminate]
          end;
          rewrite bind_page_query;
          match goal with
          | |- context [text_or page py ?f ?d ?x (dev w)] =>
              destruct (text_or page py f d x (dev w)) as [?v|?e] eqn:?V; [|discriminate]
          end).
  unfold Job_init, bind, now, ret. intros [= <- _]. cbn.
  split; [reflexivity|]. split; [reflexivity|].
  eapply text_or_posted. eassumption.
Qed.

Lemma cards_loop_scraped (job_cards : list elem) (jobs found : list Job)
    (w w' : world doc) :
  Forall (scraped_by py self) jobs ->
  scrape_cards page py self job_cards jobs w = (Ok found, w') ->
  Forall (scraped_by py self) found /\ (length found <= length jobs + length job_cards)%nat.
Proof using Type.
  revert jobs w. induction job_cards as [|card rest IH]; intros jobs w Hjobs.
  - intros [= <- _]. split; [exact Hjobs|cbn; lia].
  - destruct (cards_loop_step page py self card rest jobs w)
      as (outcome & w1 & w2 & Hex & _ & ->).
    intros Hrun. apply IH in Hrun.
    + destruct Hrun as [Hall Hlen]. split; [exact Hall|].
      rewrite length_app in Hlen.
      pose proof (filter_length_le (accepts py self) (option_list outcome)) as Hf.
      destruct outcome; cbn in *; lia.
    + apply Forall_app. split; [exact Hjobs|].
      destruct outcome as [job|]; unfold option_list, option_rect; cbn [List.filter];
        [|constructor].
      destruct (accepts py self job) eqn:Hacc; constructor; [|constructor].
      destruct (extract_fixed_fields card w w1 job Hex) as (Hc & Ht & Hp).
      repeat split; assumption.
Qed.

Lemma scrape_page_scraped (w w' : world doc) (found : list Job) :
  _scrape_page page py self w = (Ok found, w') -> Forall (scraped_by py self) found.
Proof using Type.
  unfold _scrape_page, try_except_timeout, try_except.
  unfold bind at 1. rewrite bind_page_action.
  destruct (wait_for_selector page listing_selector 10000 (dev w)) as [[[]|e] d'];
    cbn [fst snd ret].
  - rewrite bind_page_query.
    destruct (query_selector_all page listing_selector _) as [job_cards|e];
      [|discriminate].
    rewrite bind_logger. intros Hrun.
    apply (cards_loop_scraped job_cards [] found _ w' ltac:(constructor) Hrun).
  - destruct e; try discriminate. rewrite bind_logger. cbn [ret].
    intros [= <- _]. constructor.
Qed.

Lemma loop_scraped (remaining : nat) (page_num : Z) (jobs found : list Job)
    (w w' : world doc) :
  Forall (scraped_by py self) jobs ->
  scrape_loop page py self remaining page_num jobs w = (Ok found, w') ->
  Forall (scraped_by py self) found.
Proof using Type.
  revert page_num jobs w.
  induction remaining as [|remaining IH]; intros page_num jobs w Hjobs.
  - intros [= <- _]. exact Hjobs.
  - rewrite loop_turn.
    destruct (_scrape_page page py self _) as [[page_jobs|e] w1] eqn:Hpage;
      [|discriminate].
    apply scrape_page_scraped in Hpage.
    assert (Hall : Forall (scraped_by py self) (jobs ++ page_jobs))
      by (apply Forall_app; auto).
    destruct (_goto_next_page page _) as [[[|]|e] w2]; [| |discriminate].
    + apply IH, Hall.
    + intros [= <- _]. exact Hall.
Qed.

(** X11. Every record [scrape] returns passed the filter, carries the
    configured classification and no job type, and has a posted date; the
    same holds of every record [_scrape_page] returns, which returns at
    most one record for each card listed. *)
Theorem scrape_returns_accepted :
  (forall w w' found,
      scrape page py self w = (Ok found, w') -> Forall (scraped_by py self) found)
  /\ (forall w w' found,
        _scrape_page page py self w = (Ok found, w') ->
        Forall (scraped_by py self) found)
  /\ (forall w d' job_cards,
        wait_for_selector page listing_selector 10000 (dev w) = (Ok tt, d') ->
        query_selector_all page listing_selector d' = Ok job_cards ->
        exists found w',
          _scrape_page page py self w = (Ok found, w')
          /\ (length found <= length job_cards)%nat).
Proof using Type.
  split; [|split; [exact scrape_page_scraped|]].
  - intros w w' found. unfold scrape.
    unfold bind at 1.
    destruct (log_settings self w) as [[[]|e] w0]; [|discriminate].
    unfold bind at 1.
    destruct (_launch_browser page self w0) as [[[]|e] w1]; [|discriminate].
    unfold bind at 1, try_finally.
    destruct (bind (open_search_page page py self) _ w1) as [[jobs|e] w2] eqn:Hbody.
    + destruct (page_action (close page) w2) as [[[]|e] w3]; [|discriminate].
      rewrite bind_logger. cbn [ret]. intros [= <- _].
      revert Hbody. unfold bind at 1.
      destruct (open_search_page page py self w1) as [[[]|e] w4]; [|discriminate].
      apply loop_scraped. constructor.
    + destruct (page_action (close page) w2) as [[[]|e'] w3]; discriminate.
  - intros w d' job_cards Hwait Hall.
    rewrite (scrape_page_listed page py self w d' job_cards Hwait Hall).
    destruct (cards_loop_returns page py self job_cards []
                (logged (set_dev w d') DEBUG (FoundJobCards (length job_cards))))
      as (found & w' & Hrun & _).
    cbn [app] in Hrun. exists found, w'. split; [exact Hrun|].
    apply (cards_loop_scraped job_cards [] found _ w' ltac:(constructor) Hrun).
Qed.

End MoreCrawlFacts.

(** *** The browser around a run *)

Section BrowserFacts.

Context {doc elem : Type}.
Variable page : PageFetcher doc elem.
Variable py : Text.
Variable self : SeekScraper.

Lemma respects_try_finally {D A} (R : world D -> world D -> Prop) (body : M D A)
    (final : M D unit) :
  preorder R -> respects R body -> respects R final -> respects R (try_finally body final).
Proof using Type.
  intros HR Hb Hf w. unfold try_finally. specialize (Hb w).
  destruct (body w) as [r w1]. cbn [snd] in Hb. specialize (Hf w1).
  destruct (final w1) as [[[]|e] w2]; cbn [snd] in *;
    exact (proj2 HR _ _ _ Hb Hf).
Qed.

(** [scrape], step by step. *)
Lemma scrape_run (w : world doc) :
  scrape page py self w
  = match log_settings self w with
    | (Raise e, w0) => (Raise e, w0)
    | (Ok _, w0) =>
        match _launch_browser page self w0 with
        | (Raise e, w1) => (Raise e, w1)
        | (Ok _, w1) =>
            match (open_search_page page py self ;;
                   scrape_loop page py self (Z.to_nat self.(max_pages)) 1%Z []) w1 with
            | (r, w2) =>
                match close page (dev w2) with
                | (Raise e, d) => (Raise e, set_dev w2 d)
                | (Ok _, d) =>
                    match r with
                    | Ok jobs =>
                        (Ok jobs,
                         logged (set_dev w2 d) INFO (TotalJobsScraped (length jobs)))
                    | Raise e => (Raise e, set_dev w2 d)
                    end
                end
            end
        end
    end.
Proof using Type.
  unfold scrape. unfold bind at 1.
  destruct (log_settings self w) as [[[]|e] w0]; [|reflexivity].
  unfold bind at 1.
  destruct (_launch_browser page self w0) as [[[]|e] w1]; [|reflexivity].
  unfold bind at 1, try_finally.
  destruct (bind (open_search_page page py self) _ w1) as [r w2].
  unfold page_action.
  destruct (close page (dev w2)) as [[[]|e] d]; [|reflexivity].
  destruct r as [jobs|e]; reflexivity.
Qed.

(** X12. [scrape] closes the browser it launched, however the run ends:
    when the launch raises, the exception leaves [scrape] at once; when it
    succeeded, the last action on the browser is [close], applied to the
    state the run left.  An exception of the run -- a navigation that
    fails, a page that cannot be listed -- leaves [scrape] after the
    browser is closed, and an exception of [close] itself takes the place
    of whatever the run ended with. *)
Theorem scrape_closes_browser (w : world doc) :
  (forall e w0,
      (log_settings self ;; _launch_browser page self) w = (Raise e, w0) ->
      scrape page py self w = (Raise e, w0))
  /\ (forall w0,
        (log_settings self ;; _launch_browser page self) w = (Ok tt, w0) ->
        let run :=
          (open_search_page page py self ;;
           scrape_loop page py self (Z.to_nat self.(max_pages)) 1%Z []) w0 in
        dev (snd (scrape page py self w)) = snd (close page (dev (snd run)))
        /\ (fst (close page (dev (snd run))) = Ok tt ->
            fst (scrape page py self w) = fst run)
        /\ (forall e,
              fst (close page (dev (snd run))) = Raise e ->
              fst (scrape page py self w) = Raise e)).
Proof using Type.
  rewrite scrape_run. unfold bind at 1. unfold bind at 2.
  destruct (log_settings self w) as [[[]|e0] w1];
    [|split; [intros e w0 [= <- <-]; reflexivity|discriminate]].
  destruct (_launch_browser page self w1) as [[[]|e0] w2].
  - split; [discriminate|]. intros w0 [= <-]. cbv zeta.
    destruct (bind (open_search_page page py self) _ w2) as [r w3].
    cbn [snd fst].
    destruct (close page (dev w3)) as [[[]|e] d]; cbn [snd fst].
    + destruct r as [jobs|e]; cbn [snd fst dev logged set_dev];
        (split; [reflexivity|]); (split; [reflexivity|discriminate]).
    + split; [reflexivity|]. split; [discriminate|]. intros e' [= <-]. reflexivity.
  - split; [|discriminate]. intros e w0 [= <- <-]. reflexivity.
Qed.

Lemma log_settings_same_pages : respects same_pages (@log_settings doc self).
Proof using Type. unfold log_settings. same_pages_steps. Qed.

(** X13. A page limit of zero or less makes [scrape] launch the browser,
    open the search page and close the browser again without scraping a
    page: its log gains no "Scraping page" record, and what it returns,
    if it returns, is the empty list. *)
Theorem scrape_without_pages (w : world doc) :
  (self.(max_pages) <= 0)%Z ->
  pages_scraped (log (snd (scrape page py self w))) = pages_scraped (log w)
  /\ (forall found w', scrape page py self w = (Ok found, w') -> found = []).
Proof using Type.
  intros Hmax. assert (Hnone : Z.to_nat self.(max_pages) = 0%nat) by lia.
  split.
  - assert (Hrun : respects same_pages (scrape page py self)).
    { unfold scrape. rewrite Hnone. cbn [scrape_loop].
      apply respects_bind; [apply same_pages_preorder|apply log_settings_same_pages|].
      intros _.
      apply respects_bind; [apply same_pages_preorder|apply launch_browser_same_pages|].
      intros _. apply respects_bind; [apply same_pages_preorder| |intros jobs].
      + apply respects_try_finally; [apply same_pages_preorder| |apply same_pages_action].
        apply respects_bind; [apply same_pages_preorder|apply open_page_same_pages|].
        intros _. apply respects_ret, same_pages_preorder.
      + same_pages_steps. }
    apply Hrun.
  - intros found w'. unfold scrape. rewrite Hnone. cbn [scrape_loop].
    unfold bind at 1. destruct (log_settings self w) as [[[]|e] w0]; [|discriminate].
    unfold bind at 1.
    destruct (_launch_browser page self w0) as [[[]|e] w1]; [|discriminate].
    unfold bind at 1, try_finally, bind at 1.
    destruct (open_search_page page py self w1) as [[[]|e] w2]; cbn [ret];
      destruct (page_action (close page) w2) as [[[]|e'] w3]; try discriminate.
    rewrite bind_logger. cbn [ret]. intros [= <- _]. reflexivity.
Qed.

End BrowserFacts.

(** A run allowed no page on the site of three cards. *)
Lemma scrape_without_pages_witness :
  fst (scrape (mock_fetcher listing_site) ascii_text (seek_scraper 0) crawl_world) = Ok []
  /\ pages_scraped
       (log (snd (scrape (mock_fetcher listing_site) ascii_text (seek_scraper 0)
                    crawl_world)))
     = 0%nat.
Proof.
  split; [vm_compute; reflexivity|].
  rewrite (proj1 (scrape_without_pages (mock_fetcher listing_site) ascii_text
                    (seek_scraper 0) crawl_world ltac:(cbn; lia))).
  reflexivity.
Defined.

(** *** The identity of a record *)

Section IdentityFacts.

Context {doc elem : Type}.
Variable page : PageFetcher doc elem.
Variable py : Text.
Variable self : SeekScraper.

(** X14. A card yields a record only through its title link: the first
    title selector that finds an element finds the link, the title is the
    stripped text of the link, the link has a reference that is not
    empty, and the URL of the record -- the key of the dedup store -- is
    that reference joined to the base URL.  The record is stamped with
    the reading of the clock, which is read once. *)
Theorem extract_title_and_url (card : elem) (w w' : world doc) (job : Job) :
  _extract_job_data page py self card w = (Ok (Some job), w') ->
  (exists title_elem text href,
      first_hit page card title_selectors (dev w) title_elem
      /\ inner_text page title_elem (dev w) = Ok text
      /\ title job = py.(strip) text
      /\ get_attribute page title_elem "href" (dev w) = Ok (Some href)
      /\ href <> EmptyString
      /\ py.(urljoin) self.(base_url) href = Ok (job_url job))
  /\ scraped_at job = isoformat (clock w (ticks w))
  /\ w' = World (dev w) (clock w) (S (ticks w)) (log w).
Proof using Type.
  unfold _extract_job_data, try_except.
  destruct (bind _ _ w) as [[outcome|e] w1] eqn:Hbody; [|discriminate].
  intros [= -> ->]. revert Hbody.
  rewrite bind_page_query.
  destruct (query_first page card title_selectors (dev w)) as [[title_elem|]|e] eqn:Hq;
    [|discriminate..].
  rewrite bind_page_query.
  destruct (inner_text page title_elem (dev w)) as [text|e] eqn:Ht; [|discriminate].
  rewrite bind_page_query.
  destruct (get_attribute page title_elem "href" (dev w)) as [[href|]|e] eqn:Hh;
    [|discriminate..].
  destruct (truthy (Some href)) eqn:Htruthy; [|discriminate].
  rewrite bind_lift.
  destruct (py.(urljoin) self.(base_url) href) as [url|e] eqn:Hu; [|discriminate].
  repeat (rewrite bind_page_query;
          match goal with
          | |- context [query_first page card ?l (dev w)] =>
              destruct (query_first page card l (dev w)) as [?x|?e]; [|discriminate]
          end;
          rewrite bind_page_query;
          match goal with
          | |- context [text_or page py ?f ?d ?x (dev w)] =>
              destruct (text_or page py f d x (dev w)) as [?v|?e]; [|discriminate]
          end).
  unfold Job_init, bind, now, ret. intros [= <- <-]. cbn [title job_url scraped_at].
  split; [|split; reflexivity].
  exists title_elem, text, href. split; [apply query_first_Some, Hq|].
  repeat (split; [reflexivity || assumption|]).
  split; [|exact Hu].
  intros ->. discriminate Htruthy.
Qed.

End IdentityFacts.

(** The first card of the site of three. *)
Lemma extract_title_and_url_witness :
  exists job w',
    _extract_job_data (mock_fetcher listing_site) ascii_text (seek_scraper 3) bolt_card
      crawl_world
    = (Ok (Some job), w')
    /\ title job = "HR Manager"
    /\ job_url job = "https://www.seek.com.au/job/2"
    /\ scraped_at job = "2024-06-01T12:00:00".
Proof.
  eexists _, _. split; [vm_compute; reflexivity|].
  split; [reflexivity|]. split; [reflexivity|].
  rewrite (proj1 (proj2 (extract_title_and_url (mock_fetcher listing_site) ascii_text
                           (seek_scraper 3) bolt_card crawl_world _ _
                           ltac:(vm_compute; reflexivity)))).
  vm_compute. reflexivity.
Defined.

(** ** The configuration *)

Lemma yaml_nested_ind (P : yaml -> Prop) :
  P YNone ->
  (forall b, P (YBool b)) ->
  (forall n, P (YInt n)) ->
  (forall s, P (YStr s)) ->
  (forall elements, Forall P elements -> P (YList elements)) ->
  (forall items, Forall (fun item => P item.2) items -> P (YDict items)) ->
  forall value, P value.
Proof.
  intros HNone HBool HInt HStr HList HDict. fix IH 1.
  intros [|b|n|s|elements|items].
  - exact HNone.
  - apply HBool.
  - apply HInt.
  - apply HStr.
  - apply HList. induction elements as [|x elements IHe]; constructor.
    + apply IH.
    + exact IHe.
  - apply HDict. induction items as [|[k v] items IHi]; constructor.
    + apply IH.
    + exact IHi.
Qed.

Lemma get_keys_app (value : yaml) (keys more : list string) (default : yaml) :
  more <> [] ->
  Config.get_keys value (keys ++ more) default
  = Config.get_keys (Config.get_keys value keys YNone) more default.
Proof.
  intros Hmore. revert value. induction keys as [|k keys IH]; intros value.
  - reflexivity.
  - assert (Hnone : Config.get_keys YNone more default = default).
    { destruct more; [contradiction|reflexivity]. }
    cbn [app Config.get_keys].
    destruct value as [| | | | |items]; try (symmetry; exact Hnone).
    destruct (Config.dict_get items k) eqn:Hk; try apply IH.
    symmetry. exact Hnone.
Qed.

Lemma split_nonempty (sep s : string) : split sep s <> [].
Proof. apply split_skip_nonempty. Qed.

(** X15. The dot notation of [Config.get] is nested lookup: the value
    under ["a.b"] is the value under ["b"] of what is under ["a"], and the
    default wherever that is missing, [None] or not a dictionary. *)
Theorem get_dotted_is_nested (_config : yaml) (a b : string) (default : yaml) :
  Config.get _config (a +:+ "." +:+ b) default
  = Config.get (Config.get _config a YNone) b default.
Proof.
  unfold Config.get. change ("." +:+ b) with (String "." b).
  rewrite split_char_app. apply get_keys_app, split_nonempty.
Qed.

Lemma get_keys_not_none (value : yaml) (keys : list string) (default : yaml) :
  keys <> [] -> default <> YNone -> Config.get_keys value keys default <> YNone.
Proof.
  intros Hkeys Hdefault. revert value.
  induction keys as [|k keys IH]; [contradiction|]. intros value.
  cbn [Config.get_keys].
  destruct value as [| | | | |items]; try exact Hdefault.
  destruct (Config.dict_get items k) eqn:Hk; try exact Hdefault;
    (destruct keys as [|k' keys]; [cbn; discriminate|apply IH; discriminate]).
Qed.

(** X16. [Config.get] tells a key that is bound to [None] from a missing
    key no more than [dict.get] does: both give the default.  So with a
    default other than [None] it never returns [None]; a value that is
    merely false in Python's eyes -- zero, the empty text, an empty list --
    is returned as it is. *)
Theorem get_never_none (_config : yaml) (key : string) (default : yaml) :
  (default <> YNone -> Config.get _config key default <> YNone)
  /\ (forall items value,
        _config = YDict items -> contains "." key = false ->
        assoc key items = Some value -> value <> YNone ->
        Config.get _config key default = value)
  /\ (forall items,
        _config = YDict items -> contains "." key = false ->
        assoc key items = None \/ assoc key items = Some YNone ->
        Config.get _config key default = default).
Proof.
  split; [|split].
  - intros Hdefault. apply get_keys_not_none; [apply split_nonempty|exact Hdefault].
  - intros items value -> Hkey Hfound Hvalue. unfold Config.get.
    rewrite (split_absent _ _ Hkey). cbn [Config.get_keys]. unfold Config.dict_get.
    rewrite Hfound. destruct value; try reflexivity. contradiction.
  - intros items -> Hkey Hfound. unfold Config.get.
    rewrite (split_absent _ _ Hkey). cbn [Config.get_keys]. unfold Config.dict_get.
    destruct Hfound as [-> | ->]; reflexivity.
Qed.

Section EnvironmentFacts.

Variable getenv : string -> option string.

Lemma replace_value_none (value : yaml) :
  Config.replace_value getenv value = YNone <-> value = YNone.
Proof using Type.
  destruct value as [| | |s| |]; cbn; try tauto; try (split; discriminate).
  destruct (_ && _); split; discriminate.
Qed.

Lemma dict_get_replaced (items : list (string * yaml)) (k : string) :
  Config.dict_get (Config.replace_in_dict getenv items) k
  = Config.replace_value getenv (Config.dict_get items k).
Proof using Type.
  unfold Config.dict_get, Config.replace_in_dict.
  induction items as [|[k0 v] items IH]; [reflexivity|].
  cbn [map assoc fst snd]. destruct (String.eqb k0 k); [reflexivity|exact IH].
Qed.

Lemma get_keys_replaced (value : yaml) (keys : list string) (default : yaml) :
  Config.get_keys (Config.replace_value getenv value) keys
    (Config.replace_value getenv default)
  = Config.replace_value getenv (Config.get_keys value keys default).
Proof using Type.
  revert value. induction keys as [|k keys IH]; intros value; [reflexivity|].
  cbn [Config.get_keys].
  destruct value as [| | |s| |items]; try reflexivity.
  - cbn [Config.replace_value]. destruct (_ && _); reflexivity.
  - cbn [Config.replace_value].
    change (map _ items) with (Config.replace_in_dict getenv items).
    rewrite dict_get_replaced.
    destruct (Config.dict_get items k) as [|b|n|s|elements|sub] eqn:Hk;
      [reflexivity|..]; cbv iota; rewrite <- IH;
      match type of Hk with
      | _ = ?v => destruct (Config.replace_value getenv v) eqn:Hr
      end; try reflexivity;
      apply (proj1 (replace_value_none _)) in Hr; discriminate Hr.
Qed.

(** X17. Replacing the placeholders and looking a key up commute: what
    [get] finds in the configuration [Config] holds is the replaced form
    of what it finds in the document loaded.  The replacement keeps the
    keys of every dictionary, puts the value of a set variable in the
    place of a text [${NAME}], leaves a placeholder whose variable is not
    set as it is, and does not look into lists. *)
Theorem replace_env_vars_then_get (d : list (string * yaml)) (key : string)
    (default : yaml) :
  Config._replace_env_vars getenv (YDict d) = inl (YDict (Config.replace_in_dict getenv d))
  /\ map fst (Config.replace_in_dict getenv d) = map fst d
  /\ Config.get (YDict (Config.replace_in_dict getenv d)) key
       (Config.replace_value getenv default)
     = Config.replace_value getenv (Config.get (YDict d) key default)
  /\ (forall name text,
        getenv name = Some text ->
        Config.replace_value getenv (YStr ("${" +:+ name +:+ "}")) = YStr text)
  /\ (forall name,
        getenv name = None ->
        Config.replace_value getenv (YStr ("${" +:+ name +:+ "}"))
        = YStr ("${" +:+ name +:+ "}"))
  /\ (forall elements, Config.replace_value getenv (YList elements) = YList elements).
Proof using Type.
  split; [reflexivity|]. split.
  { unfold Config.replace_in_dict. rewrite map_map. reflexivity. }
  split.
  { unfold Config.get. apply (get_keys_replaced (YDict d)). }
  assert (Hplace : forall name,
    String.prefix "${" ("${" +:+ name +:+ "}") && endswith "}" ("${" +:+ name +:+ "}")
    = true
    /\ Config.env_var_of ("${" +:+ name +:+ "}") = name).
  { intros name. split.
    - apply andb_true_intro. split.
      + apply prefix_split. exists (name +:+ "}"). reflexivity.
      + change ("${" +:+ name +:+ "}") with (String "$" (String "{" (name +:+ "}"))).
        pose proof (endswith_suffix "}" (String "$" (String "{" name))) as H.
        exact H.
    - unfold Config.env_var_of.
      change ("${" +:+ name +:+ "}") with (String "$" (String "{" (name +:+ "}"))).
      cbn [String.length substring]. rewrite append_length. cbn [String.length].
      replace (S (S (String.length name + 1)) - 3)%nat with (String.length name) by lia.
      induction name as [|c name IH]; [reflexivity|].
      rewrite append_cons. cbn [String.length substring]. rewrite IH. reflexivity. }
  split; [|split].
  - intros name text Henv. cbn [Config.replace_value].
    destruct (Hplace name) as [-> ->]. rewrite Henv. reflexivity.
  - intros name Henv. cbn [Config.replace_value].
    destruct (Hplace name) as [-> ->]. rewrite Henv. reflexivity.
  - reflexivity.
Qed.

End EnvironmentFacts.

Section ConfigObject.

Variable getenv : string -> option string.

Lemma replace_value_unset (value : yaml) :
  (forall name, getenv name = None) -> Config.replace_value getenv value = value.
Proof using Type.
  intros Hunset. induction value as [|b|n|s|elements _|items IH] using yaml_nested_ind;
    try reflexivity.
  - cbn [Config.replace_value]. rewrite Hunset. destruct (_ && _); reflexivity.
  - cbn [Config.replace_value]. f_equal.
    induction IH as [|[k v] items Hv _ IHitems]; [reflexivity|].
    cbn [map fst snd] in *. rewrite Hv, IHitems. reflexivity.
Qed.

(** X18. [Config(...)] needs a file that exists and holds a dictionary: a
    missing file raises [FileNotFoundError], and a file that holds
    anything else -- an empty file is read as [None] -- raises
    [AttributeError].  When no variable of the environment is set, the
    configuration is the document as it was loaded. *)
Theorem config_needs_a_dictionary (file : option yaml) :
  ((exists _config, Config.__init__ getenv file = inl _config)
   <-> exists d, file = Some (YDict d))
  /\ (file = None -> Config.__init__ getenv file = inr Config.FileNotFoundError)
  /\ (forall document,
        file = Some document -> (forall d, document <> YDict d) ->
        Config.__init__ getenv file = inr Config.AttributeError)
  /\ (forall d,
        file = Some (YDict d) -> (forall name, getenv name = None) ->
        Config.__init__ getenv file = inl (YDict d)).
Proof using Type.
  split; [|split; [|split]].
  - split.
    + intros [c Hc]. destruct file as [[| | | | |d]|]; try discriminate. eauto.
    + intros [d ->]. cbn. eauto.
  - intros ->. reflexivity.
  - intros document -> Hnot. destruct document; try reflexivity.
    exfalso. exact (Hnot _ eq_refl).
  - intros d -> Hunset.
    unfold Config.__init__, Config._load_config, Config._replace_env_vars.
    f_equal. exact (replace_value_unset (YDict d) Hunset).
Qed.

End ConfigObject.

(** ** The endpoints *)

(** *** Sorting newest first *)

Lemma ltb_leb (a b : string) : String.ltb a b = true -> String.leb a b = true.
Proof. unfold String.ltb, String.leb. destruct (String.compare a b); congruence. Qed.

Lemma ltb_false_leb (a b : string) : String.ltb a b = false -> String.leb b a = true.
Proof.
  unfold String.ltb, String.leb. rewrite (String.compare_antisym b a).
  destruct (String.compare a b); cbn; congruence.
Qed.

Lemma ltb_not_eqb (a b : string) : String.ltb a b = true -> String.eqb a b = false.
Proof.
  unfold String.ltb. intros H. apply String.eqb_neq. intros ->.
  assert (Hrefl : String.compare b b = Eq).
  { pose proof (String.compare_antisym b b) as Ha.
    destruct (String.compare b b); cbn in Ha; congruence. }
  rewrite Hrefl in H. discriminate.
Qed.

Lemma insert_permutation (job : Job) (sorted : list Job) :
  Permutation (insert_newest_first job sorted) (job :: sorted).
Proof.
  induction sorted as [|x rest IH]; cbn [insert_newest_first]; [reflexivity|].
  destruct (String.ltb _ _); [|reflexivity].
  rewrite IH. apply perm_swap.
Qed.

Lemma sort_permutation (jobs : list Job) : Permutation (sort_newest_first jobs) jobs.
Proof.
  induction jobs as [|job jobs IH]; [reflexivity|].
  cbn [sort_newest_first foldr]. rewrite insert_permutation.
  apply Permutation_cons; [reflexivity|exact IH].
Qed.

Lemma insert_sorted (job : Job) (sorted : list Job) :
  Sorted not_older sorted -> Sorted not_older (insert_newest_first job sorted).
Proof.
  induction sorted as [|x rest IH]; intros Hs; cbn [insert_newest_first].
  - repeat constructor.
  - destruct (String.ltb (scraped_at job) (scraped_at x)) eqn:Hlt.
    + apply Sorted_inv in Hs. destruct Hs as [Hrest Hhd].
      constructor; [apply IH, Hrest|].
      destruct rest as [|y rest]; cbn [insert_newest_first].
      * constructor. apply ltb_leb, Hlt.
      * destruct (String.ltb (scraped_at job) (scraped_at y)).
        -- constructor. apply HdRel_inv in Hhd. exact Hhd.
        -- constructor. apply ltb_leb, Hlt.
    + constructor; [exact Hs|]. constructor. apply ltb_false_leb, Hlt.
Qed.

Lemma sort_sorted (jobs : list Job) : Sorted not_older (sort_newest_first jobs).
Proof.
  induction jobs as [|job jobs IH]; [constructor|].
  cbn [sort_newest_first foldr]. apply insert_sorted, IH.
Qed.

Lemma insert_stable (stamp : string) (job : Job) (sorted : list Job) :
  List.filter (fun j => String.eqb (scraped_at j) stamp) (insert_newest_first job sorted)
  = List.filter (fun j => String.eqb (scraped_at j) stamp) (job :: sorted).
Proof.
  induction sorted as [|x rest IH]; cbn [insert_newest_first]; [reflexivity|].
  destruct (String.ltb (scraped_at job) (scraped_at x)) eqn:Hlt; [|reflexivity].
  cbn [List.filter] in *. rewrite IH.
  destruct (String.eqb (scraped_at job) stamp) eqn:Hj; [|reflexivity].
  apply String.eqb_eq in Hj. subst stamp.
  apply ltb_not_eqb in Hlt. rewrite String.eqb_sym, Hlt. reflexivity.
Qed.

Lemma sort_stable (stamp : string) (jobs : list Job) :
  List.filter (fun j => String.eqb (scraped_at j) stamp) (sort_newest_first jobs)
  = List.filter (fun j => String.eqb (scraped_at j) stamp) jobs.
Proof.
  induction jobs as [|job jobs IH]; [reflexivity|].
  cbn [sort_newest_first foldr]. rewrite insert_stable.
  cbn [List.filter]. fold (sort_newest_first jobs). rewrite IH. reflexivity.
Qed.

(** *** Slices *)

(** A slice between indices that are not negative is a window. *)
Lemma slice_window {A} (l : list A) (start size : Z) :
  (0 <= start)%Z -> (0 <= size)%Z ->
  slice l start (start + size) = firstn (Z.to_nat size) (skipn (Z.to_nat start) l).
Proof.
  intros Hstart Hsize. unfold slice, slice_index. cbv zeta.
  replace (start <? 0)%Z with false by (symmetry; apply Z.ltb_ge; lia).
  replace (start + size <? 0)%Z with false by (symmetry; apply Z.ltb_ge; lia).
  destruct (Z_le_gt_dec (Z.of_nat (length l)) start) as [Hout|Hin].
  - rewrite (Z.min_r start), (Z.min_r (start + size)) by lia.
    rewrite Nat2Z.id, Z.sub_diag. rewrite !drop_ge by lia.
    destruct (Z.to_nat size); reflexivity.
  - rewrite (Z.min_l start) by lia.
    destruct (Z_le_gt_dec (start + size) (Z.of_nat (length l))) as [Hfit|Hover].
    + rewrite Z.min_l by lia. f_equal. lia.
    + rewrite Z.min_r by lia.
      rewrite !take_ge; [reflexivity| |]; rewrite length_drop; lia.
Qed.

Lemma pages_concat {A} (l : list A) (size n : nat) :
  concat (map (fun p => firstn size (skipn ((p - 1) * size) l)) (seq 1 n))
  = firstn (n * size) l.
Proof.
  induction n as [|n IH]; [reflexivity|].
  rewrite seq_S, map_app, concat_app, IH. cbn [map concat Nat.add].
  rewrite app_nil_r. replace (S n - 1)%nat with n by lia.
  rewrite take_take_drop. f_equal. lia.
Qed.

Lemma matching_In (py : Text) (text : option string) (field : Job -> string)
    (jobs : list Job) (j : Job) :
  In j (matching py text field jobs) <-> In j jobs /\ passes py text (field j).
Proof.
  unfold matching, passes. destruct text as [t|]; [|cbn; tauto].
  destruct (truthy (Some t)) eqn:Ht.
  - rewrite filter_In, contains_substring. split.
    + intros [Hin Hsub]. split; [exact Hin|]. right. eauto.
    + intros [Hin [Hno | (t' & [= <-] & Hsub)]]; [discriminate|auto].
  - tauto.
Qed.

(** X19. The records [list_jobs] lists are the stored records that pass
    both filters: a filter that is not given, or given as the empty text,
    lets every record pass, and a filter text lets the records pass whose
    company or location holds it, letter case aside.  The two filters can
    be applied in either order. *)
Theorem list_jobs_filters (py : Text) (jobs : list Job)
    (a_company a_location : option string) (j : Job) :
  (In j (matching py a_location location (matching py a_company company jobs))
   <-> In j jobs /\ passes py a_company (company j) /\ passes py a_location (location j))
  /\ matching py a_location location (matching py a_company company jobs)
     = matching py a_company company (matching py a_location location jobs)
  /\ matching py None company jobs = jobs
  /\ matching py (Some EmptyString) company jobs = jobs.
Proof.
  split; [rewrite !matching_In; tauto|]. split; [|split; reflexivity].
  unfold matching.
  destruct a_company as [c|], a_location as [l|]; try reflexivity.
  destruct (truthy (Some c)), (truthy (Some l)); try reflexivity.
  induction jobs as [|x jobs IH]; [reflexivity|]. cbn [List.filter].
  destruct (contains (py.(lower) c) (py.(lower) (company x))) eqn:Hc,
           (contains (py.(lower) l) (py.(lower) (location x))) eqn:Hl;
    cbn [List.filter]; rewrite ?Hc, ?Hl, IH; reflexivity.
Qed.

(** X20. The pages of [list_jobs]: the listing is the matching records
    sorted by capture time, newest first, each exactly once and those of
    equal capture time in the order of the file.  For a page size of at
    least one, every page reports the number of all matching records,
    holds the window of [page_size] records that starts behind the pages
    before it -- at most [page_size] records, none at all past the end --
    and the pages 1 to n, one after the other, are the first
    [n * page_size] records of the listing. *)
Theorem list_jobs_pages (py : Text) (jobs : list Job) (page_size : Z)
    (a_company a_location : option string) :
  (1 <= page_size)%Z ->
  let matched := matching py a_location location (matching py a_company company jobs) in
  let listing := sort_newest_first matched in
  Permutation listing matched
  /\ Sorted not_older listing
  /\ (forall stamp,
        List.filter (fun j => String.eqb (scraped_at j) stamp) listing
        = List.filter (fun j => String.eqb (scraped_at j) stamp) matched)
  /\ (forall page,
        (1 <= page)%Z ->
        select_page py jobs page page_size a_company a_location
        = (Z.of_nat (length matched),
           firstn (Z.to_nat page_size)
             (skipn (Z.to_nat ((page - 1) * page_size)) listing))
        /\ (length (snd (select_page py jobs page page_size a_company a_location))
            <= Z.to_nat page_size)%nat
        /\ ((Z.of_nat (length matched) <= (page - 1) * page_size)%Z ->
            snd (select_page py jobs page page_size a_company a_location) = []))
  /\ (forall n,
        concat (map (fun p => snd (select_page py jobs (Z.of_nat p) page_size
                                     a_company a_location))
                  (seq 1 n))
        = firstn (n * Z.to_nat page_size) listing).
Proof.
  intros Hsize matched listing.
  assert (Hpage : forall page, (1 <= page)%Z ->
    select_page py jobs page page_size a_company a_location
    = (Z.of_nat (length matched),
       firstn (Z.to_nat page_size)
         (skipn (Z.to_nat ((page - 1) * page_size)) listing))).
  { intros page Hp. unfold select_page. fold matched. fold listing.
    rewrite slice_window by nia.
    unfold listing. rewrite (Permutation_length (sort_permutation matched)).
    reflexivity. }
  split; [apply sort_permutation|]. split; [apply sort_sorted|].
  split; [intros stamp; apply sort_stable|]. split.
  - intros page Hp. split; [apply Hpage, Hp|]. rewrite (Hpage page Hp). cbn [snd].
    split; [apply firstn_le_length|].
    intros Hpast. rewrite drop_ge; [destruct (Z.to_nat page_size); reflexivity|].
    unfold listing. rewrite (Permutation_length (sort_permutation matched)). lia.
  - intros n. rewrite <- pages_concat. f_equal.
    apply map_ext_in. intros p Hin. apply in_seq in Hin.
    rewrite (Hpage (Z.of_nat p)) by lia. cbn [snd]. f_equal. f_equal. nia.
Qed.

(** *** The three endpoints *)

Section EndpointFacts.

Context {R L : Type}.
Variable py : Text.
Variable open_storage : M files unit.
Variable JobResponse : gmap string pyval -> result R.
Variable JobsListResponse : Z -> Z -> Z -> list R -> result L.

(** The conversion to responses reads neither the files nor the clock, and
    gives one response for each record. *)
Lemma job_responses_run (jobs : list Job) (w : world files) :
  exists r,
    map_m (job_response JobResponse) jobs w = (r, w)
    /\ forall responses, r = Ok responses -> length responses = length jobs.
Proof using Type.
  induction jobs as [|job jobs IH]; cbn [map_m].
  - exists (Ok []). split; [reflexivity|]. intros responses [= <-]. reflexivity.
  - unfold job_response at 1. rewrite bind_lift.
    destruct (JobResponse _) as [response|e].
    + destruct IH as (r & Hrun & Hlen). unfold bind at 1. rewrite Hrun.
      destruct r as [responses|e].
      * exists (Ok (response :: responses)). split; [reflexivity|].
        intros ? [= <-]. cbn. rewrite (Hlen responses eq_refl). reflexivity.
      * exists (Raise e). split; [reflexivity|discriminate].
    + exists (Raise e). split; [reflexivity|discriminate].
Qed.

(** X21. One stored dictionary that is no record makes the three
    endpoints that read the store answer 500, whatever is asked for. *)
Theorem unreadable_file_answers_500 (jobs_data : list (gmap string pyval))
    (data : gmap string pyval) (w w0 : world files) :
  open_storage w = (Ok tt, w0) ->
  output_file (dev w0) = Some jobs_data ->
  In data jobs_data ->
  misfit data ->
  (forall page page_size a_company a_location,
      fst (list_jobs py open_storage JobResponse JobsListResponse page page_size
             a_company a_location w)
      = HTTPException 500 (FailedToRetrieveJobs TypeError))
  /\ (forall limit,
        fst (get_latest_jobs open_storage JobResponse limit w)
        = HTTPException 500 (FailedToRetrieveLatestJobs TypeError))
  /\ (forall a_job_id,
        fst (get_job open_storage JobResponse a_job_id w)
        = HTTPException 500 (FailedToRetrieveJob TypeError)).
Proof using Type.
  intros Hopen Hfile Hin Hmis.
  destruct (load_blocked jobs_data data w0 Hfile Hin Hmis) as [w1 Hload].
  split; [|split]; intros; unfold list_jobs, get_latest_jobs, get_job;
    unfold bind at 1; rewrite Hopen; unfold bind at 1; rewrite Hload; reflexivity.
Qed.

(** X22. [get_latest_jobs] answers with the responses of the first page of
    [list_jobs]: whenever page 1 of size [limit], without filters, is
    returned, [get_latest_jobs limit] returns the list of responses that
    page was built from.  For a limit of at least one it returns at most
    [limit] responses. *)
Theorem latest_is_first_page (limit : Z) (w : world files) :
  (forall response w',
      list_jobs py open_storage JobResponse JobsListResponse 1 limit None None w
      = (Returns response, w') ->
      exists responses total,
        get_latest_jobs open_storage JobResponse limit w = (Returns responses, w')
        /\ JobsListResponse total 1 limit responses = Ok response)
  /\ (forall responses w',
        get_latest_jobs open_storage JobResponse limit w = (Returns responses, w') ->
        (1 <= limit)%Z ->
        (length responses <= Z.to_nat limit)%nat).
Proof using Type.
  split.
  - intros response w'. unfold list_jobs, get_latest_jobs.
    unfold bind at 1. unfold bind at 3.
    destruct (open_storage w) as [[[]|e] w0]; [|discriminate].
    unfold bind at 1. unfold bind at 2.
    destruct (load w0) as [[jobs|e] w1]; [|discriminate].
    unfold select_page. cbn [matching].
    replace ((1 - 1) * limit)%Z with 0%Z by lia. rewrite Z.add_0_l.
    destruct (job_responses_run (slice (sort_newest_first jobs) 0 limit) w1)
      as (r & Hrun & _).
    unfold bind at 1. rewrite Hrun.
    destruct r as [responses|e]; [|discriminate].
    unfold lift.
    destruct (JobsListResponse _ 1%Z limit responses) as [page|e] eqn:Hpage;
      [|discriminate].
    intros [= <- <-]. eauto.
  - intros responses w'. unfold get_latest_jobs.
    unfold bind at 1. destruct (open_storage w) as [[[]|e] w0]; [|discriminate].
    unfold bind at 1. destruct (load w0) as [[jobs|e] w1]; [|discriminate].
    destruct (job_responses_run (slice (sort_newest_first jobs) 0 limit) w1)
      as (r & Hrun & Hlen).
    rewrite Hrun. destruct r as [rs|e]; [|discriminate].
    intros [= <- _] Hlimit. rewrite (Hlen rs eq_refl).
    pose proof (slice_window (sort_newest_first jobs) 0 limit ltac:(lia) ltac:(lia))
      as Hwin.
    rewrite Z.add_0_l in Hwin. rewrite Hwin. apply firstn_le_length.
Qed.

Lemma find_first {A} (f : A -> bool) (before : list A) (x : A) (after : list A) :
  Forall (fun y => f y = false) before -> f x = true ->
  find f (before ++ x :: after) = Some x.
Proof using Type.
  intros Hb Hx. induction Hb as [|y before Hy _ IH]; cbn [app find].
  - rewrite Hx. reflexivity.
  - rewrite Hy. exact IH.
Qed.

(** [get_job] once the store is open and read. *)
Lemma get_job_run (a_job_id : string) (jobs : list Job) (w w0 w1 : world files) :
  open_storage w = (Ok tt, w0) ->
  load w0 = (Ok jobs, w1) ->
  get_job open_storage JobResponse a_job_id w
  = match find (fun job => String.eqb (job_id job) a_job_id) jobs with
    | Some job =>
        match JobResponse (<["job_id" := PyStr (job_id job)]> (to_dict job)) with
        | Ok response => (Returns response, w1)
        | Raise e => (HTTPException 500 (FailedToRetrieveJob e), w1)
        end
    | None => (HTTPException 404 (JobNotFound a_job_id), w1)
    end.
Proof using Type.
  intros Hopen Hload. unfold get_job. unfold bind at 1. rewrite Hopen.
  unfold bind at 1. rewrite Hload.
  destruct (find _ jobs) as [job|]; [|reflexivity].
  unfold job_response. rewrite bind_lift.
  destruct (JobResponse _); reflexivity.
Qed.

(** X23. [get_job] answers 404 exactly when no stored record has the
    identifier asked for; otherwise it answers with the first such record
    in the order of the file -- two records may share an identifier --
    or with 500 when that record cannot be made a response. *)
Theorem get_job_first_match (a_job_id : string) (jobs : list Job)
    (w w0 w1 : world files) :
  open_storage w = (Ok tt, w0) ->
  load w0 = (Ok jobs, w1) ->
  (fst (get_job open_storage JobResponse a_job_id w)
   = HTTPException 404 (JobNotFound a_job_id)
   <-> Forall (fun job => job_id job <> a_job_id) jobs)
  /\ (forall before job after,
        jobs = before ++ job :: after ->
        job_id job = a_job_id ->
        Forall (fun j => job_id j <> a_job_id) before ->
        get_job open_storage JobResponse a_job_id w
        = match JobResponse (<["job_id" := PyStr a_job_id]> (to_dict job)) with
          | Ok response => (Returns response, w1)
          | Raise e => (HTTPException 500 (FailedToRetrieveJob e), w1)
          end).
Proof using Type.
  intros Hopen Hload. rewrite (get_job_run a_job_id jobs w w0 w1 Hopen Hload).
  split.
  - pose proof (find_existsb (fun job => String.eqb (job_id job) a_job_id) jobs) as Hfind.
    destruct (find _ jobs) as [job|].
    + destruct Hfind as (Hin & Hid & _). apply String.eqb_eq in Hid. split.
      * destruct (JobResponse _); discriminate.
      * intros Hall. rewrite List.Forall_forall in Hall. apply Hall in Hin. contradiction.
    + split; [|reflexivity]. intros _. apply List.Forall_forall. intros job Hin Hid.
      assert (Hex : existsb (fun job => String.eqb (job_id job) a_job_id) jobs = true).
      { apply existsb_exists. exists job. split; [exact Hin|apply String.eqb_eq, Hid]. }
      congruence.
  - intros before job after -> Hid Hbefore.
    rewrite (find_first _ before job after).
    + rewrite Hid. reflexivity.
    + eapply List.Forall_impl; [|exact Hbefore]. intros j Hj. apply String.eqb_neq, Hj.
    + apply String.eqb_eq, Hid.
Qed.


End EndpointFacts.

(** The store of three records, read two at a time. *)
Lemma list_jobs_pages_witness :
  map (map job_url)
    (map (fun p => snd (select_page ascii_text [old_job; listed_job; new_job]
                          (Z.of_nat p) 2 None None))
       [1; 2; 3]%nat)
  = [ [job_url listed_job; job_url new_job]; [job_url old_job]; [] ]
  /\ concat (map (fun p => snd (select_page ascii_text [old_job; listed_job; new_job]
                                  (Z.of_nat p) 2 None None))
               (seq 1 2))
     = sort_newest_first [old_job; listed_job; new_job].
Proof.
  split; [vm_compute; reflexivity|].
  rewrite (proj2 (proj2 (proj2 (proj2
             (list_jobs_pages ascii_text [old_job; listed_job; new_job] 2 None None
                ltac:(lia)))))).
  reflexivity.
Defined.

(** The torn store behind the three endpoints. *)
Lemma unreadable_file_answers_500_witness :
  fst (list_jobs ascii_text (ret tt) plain_response plain_page 1 50 None None torn_world)
  = HTTPException 500 (FailedToRetrieveJobs TypeError)
  /\ fst (get_job (ret tt) plain_response "2" torn_world)
     = HTTPException 500 (FailedToRetrieveJob TypeError).
Proof.
  pose proof (unreadable_file_answers_500 ascii_text (ret tt) plain_response plain_page
                [to_dict old_job; <["colour" := PyStr "red"]> (to_dict new_job)]
                (<["colour" := PyStr "red"]> (to_dict new_job)) torn_world torn_world
                eq_refl eq_refl ltac:(right; left; reflexivity)) as H.
  destruct H as (Hlist & _ & Hget).
  - left. exists "colour". split.
    + exists (PyStr "red"). vm_compute. reflexivity.
    + vm_compute. intuition discriminate.
  - split; [apply Hlist|apply Hget].
Defined.

(** The identifier of the second record of the store of three. *)
Lemma get_job_first_match_witness :
  fst (get_job (ret tt) plain_response "79012345" stocked_world) = Returns "79012345"
  /\ fst (get_job (ret tt) plain_response "404" stocked_world)
     = HTTPException 404 (JobNotFound "404").
Proof.
  assert (Hload : load stocked_world = (Ok [old_job; listed_job; new_job], stocked_world))
    by (vm_compute; reflexivity).
  split.
  - rewrite (proj2 (get_job_first_match (ret tt) plain_response "79012345"
                      [old_job; listed_job; new_job] stocked_world stocked_world
                      stocked_world eq_refl Hload)
               [old_job] listed_job [new_job] eq_refl).
    + vm_compute. reflexivity.
    + vm_compute. reflexivity.
    + constructor; [vm_compute; discriminate|constructor].
  - apply (proj1 (get_job_first_match (ret tt) plain_response "404"
                    [old_job; listed_job; new_job] stocked_world stocked_world
                    stocked_world eq_refl Hload)).
    repeat constructor; vm_compute; discriminate.
Defined.


(** The latest two of the store of three, and the first page of two. *)
Example latest_two_of_three :
  fst (get_latest_jobs (ret tt) plain_response 2 stocked_world)
  = Returns ["79012345"; "2"]
  /\ fst (list_jobs ascii_text (ret tt) plain_response plain_page 1 2 None None
            stocked_world)
     = Returns (3%Z, 1%Z, 2%Z, ["79012345"; "2"]).
Proof. split; vm_compute; reflexivity. Qed.

